(** * AI Content Calendar Creator: the orchestration pipeline of [app.py]

    A shallow embedding of the pipeline functions of [src/app.py]
    ([generate_content], [search_web], [search_pixabay],
    [generate_resources_for_topic], [create_content_calendar],
    [save_content_calendar], [create_session]) together with the fragment of
    the Python run time they rely on: [str] methods, [dict]/[list] access,
    exceptions with [try]/[except]/[finally], and the [json] codec.

    Conventions.
    - A Python [str] is a [string]; one [ascii] is one character, so the model
      covers the characters with code point below 256.
    - A Python value that can flow through the pipeline is a [pyval]: the
      values JSON can carry.  Every [dict] of the program has [str] keys and
      is kept as an association list in insertion order.
    - An exception is a class together with its [str(e)] text.  Only classes
      deriving from [Exception] are modelled.
    - The outside world (the HTTP backends, the clock) is an [env]: it answers
      the n-th call of each kind, and may look at the request.
    - Two libraries are written out as far as the statements need them: the
      retry loop of [urllib3] that obeys the policy of [create_session]
      (module [Urllib3]) and the decoder of [json] that reads back what
      [json.dump] wrote (module [JsonDecode]). *)

From Stdlib Require Import String Ascii List ZArith Lia Bool Arith.
From Stdlib Require Import DecimalString DecimalZ DecimalNat.
Import ListNotations.

Local Open Scope list_scope.
Local Open Scope string_scope.

(* ===================================================================== *)
(** * Python strings *)
(* ===================================================================== *)

Module PyStr.

Definition newline : ascii := ascii_of_nat 10.
Definition dquote : ascii := ascii_of_nat 34.
Definition backslash : ascii := ascii_of_nat 92.

(** [s.split(sep)] for a one-character separator: every occurrence
    splits, empty pieces are kept, the result is never empty. *)
Fixpoint split (sep : ascii) (s : string) : list string :=
  match s with
  | EmptyString => [EmptyString]
  | String c r =>
      if Ascii.eqb c sep then EmptyString :: split sep r
      else match split sep r with
           | h :: t => String c h :: t
           | [] => [String c EmptyString]
           end
  end.

(** [sep.join(parts)] for a one-character separator. *)
Fixpoint join (sep : ascii) (parts : list string) : string :=
  match parts with
  | [] => EmptyString
  | [p] => p
  | p :: rest => p ++ String sep (join sep rest)
  end.

(** [s.startswith(p)]. *)
Definition startswith (s p : string) : bool := String.prefix p s.

(** The characters [str.strip()] removes (code points below 256 for which
    [str.isspace] holds). *)
Definition isspace (c : ascii) : bool :=
  let n := nat_of_ascii c in
  (((9 <=? n) && (n <=? 13)) || ((28 <=? n) && (n <=? 32))
   || (n =? 133) || (n =? 160))%nat.

Fixpoint lstrip (s : string) : string :=
  match s with
  | EmptyString => EmptyString
  | String c r => if isspace c then lstrip r else s
  end.

Fixpoint rstrip (s : string) : string :=
  match s with
  | EmptyString => EmptyString
  | String c r =>
      match rstrip r with
      | EmptyString => if isspace c then EmptyString else String c EmptyString
      | r' => String c r'
      end
  end.

Definition strip (s : string) : string := rstrip (lstrip s).

(** [c in s] for a character. *)
Fixpoint contains (c : ascii) (s : string) : bool :=
  match s with
  | EmptyString => false
  | String d r => Ascii.eqb d c || contains c r
  end.

(** The text before the first [c] (all of [s] when there is none), and the
    text after it (empty when there is none). *)
Fixpoint before_first (c : ascii) (s : string) : string :=
  match s with
  | EmptyString => EmptyString
  | String d r => if Ascii.eqb d c then EmptyString else String d (before_first c r)
  end.

Fixpoint after_first (c : ascii) (s : string) : string :=
  match s with
  | EmptyString => EmptyString
  | String d r => if Ascii.eqb d c then r else after_first c r
  end.

(** [sub in s] for strings. *)
Fixpoint has_substring (sub s : string) : bool :=
  String.prefix sub s
  || match s with
     | EmptyString => false
     | String _ r => has_substring sub r
     end.

(** The characters of [s], each as a one-character string (iteration over a
    [str]). *)
Fixpoint chars (s : string) : list string :=
  match s with
  | EmptyString => []
  | String c r => String c EmptyString :: chars r
  end.

End PyStr.

(* ===================================================================== *)
(** * Python values and exceptions *)
(* ===================================================================== *)

(** The values JSON can carry.  A [float] is kept as its [repr] text (the
    shortest decimal that reads back as the same float), which is what every
    operation of the pipeline needs of it: printing. *)
#[warnings="-register-all"]
Inductive pyval : Type :=
| PNone
| PBool (b : bool)
| PInt (z : Z)
| PFloat (r : string)
| PStr (s : string)
| PList (l : list pyval)
| PDict (d : list (string * pyval)).

(** The exception classes that can arise, with the base classes of each
    ([requests.exceptions] for the HTTP ones). *)
Inductive pyclass : Type :=
| Exception | LookupError | IndexError | KeyError | TypeError
| AttributeError | ValueError | OSError
| RequestException | HTTPError | ConnectionError | SSLError | Timeout
| ConnectTimeout | ReadTimeout | TooManyRedirects | RetryError
| InvalidJSONError | JSONDecodeError.

Definition pyclass_eqb (c d : pyclass) : bool :=
  match c, d with
  | Exception, Exception | LookupError, LookupError | IndexError, IndexError
  | KeyError, KeyError | TypeError, TypeError | AttributeError, AttributeError
  | ValueError, ValueError | OSError, OSError
  | RequestException, RequestException | HTTPError, HTTPError
  | ConnectionError, ConnectionError | SSLError, SSLError | Timeout, Timeout
  | ConnectTimeout, ConnectTimeout | ReadTimeout, ReadTimeout
  | TooManyRedirects, TooManyRedirects | RetryError, RetryError
  | InvalidJSONError, InvalidJSONError | JSONDecodeError, JSONDecodeError => true
  | _, _ => false
  end.

Definition bases (c : pyclass) : list pyclass :=
  match c with
  | Exception => []
  | LookupError | TypeError | AttributeError | ValueError | OSError => [Exception]
  | IndexError | KeyError => [LookupError]
  | RequestException => [OSError]
  | HTTPError | ConnectionError | Timeout | TooManyRedirects | RetryError
  | InvalidJSONError => [RequestException]
  | SSLError => [ConnectionError]
  | ConnectTimeout => [ConnectionError; Timeout]
  | ReadTimeout => [Timeout]
  | JSONDecodeError => [InvalidJSONError; ValueError]
  end.

(** [issubclass(c, d)]; the hierarchy is five levels deep. *)
Fixpoint issubclass_fuel (fuel : nat) (c d : pyclass) : bool :=
  pyclass_eqb c d
  || match fuel with
     | O => false
     | S k => existsb (fun b => issubclass_fuel k b d) (bases c)
     end.

Definition issubclass (c d : pyclass) : bool := issubclass_fuel 5 c d.

(** An exception object: its class and [str(e)]. *)
Record exn : Type := mkExn { exn_class : pyclass; exn_msg : string }.

Definition isinstance (e : exn) (c : pyclass) : bool := issubclass (exn_class e) c.

Inductive result (A : Type) : Type :=
| Ok (a : A)
| Raise (e : exn).
Arguments Ok {A} a.
Arguments Raise {A} e.

Definition rbind {A B} (r : result A) (k : A -> result B) : result B :=
  match r with
  | Ok a => k a
  | Raise e => Raise e
  end.

Declare Scope result_scope.
Delimit Scope result_scope with result.
Notation "x <- r ;; k" := (rbind r (fun x => k))
  (at level 61, r at next level, right associativity) : result_scope.

(* ===================================================================== *)
(** * Printing numbers and values *)
(* ===================================================================== *)

Module PyRepr.

(** [str(z)] for an [int]. *)
Definition str_int (z : Z) : string := NilZero.string_of_int (Z.to_int z).

Definition hex_digit (n : nat) : ascii :=
  if (n <? 10)%nat then ascii_of_nat (48 + n) else ascii_of_nat (87 + n).

(** The two lowercase hexadecimal digits of a character. *)
Definition hex2 (c : ascii) : string :=
  let n := nat_of_ascii c in
  String (hex_digit (n / 16)) (String (hex_digit (n mod 16)) EmptyString).

(** [str.isprintable] on one character below 256. *)
Definition isprintable (c : ascii) : bool :=
  let n := nat_of_ascii c in
  (((32 <=? n) && (n <=? 126)) || ((161 <=? n) && negb (n =? 173)))%nat.

Definition repr_char (quote c : ascii) : string :=
  let n := nat_of_ascii c in
  if Ascii.eqb c quote || Ascii.eqb c PyStr.backslash
  then String PyStr.backslash (String c EmptyString)
  else if (n =? 9)%nat then "\t"
  else if (n =? 10)%nat then "\n"
  else if (n =? 13)%nat then "\r"
  else if isprintable c then String c EmptyString
  else "\x" ++ hex2 c.

Fixpoint repr_chars (quote : ascii) (s : string) : string :=
  match s with
  | EmptyString => EmptyString
  | String c r => repr_char quote c ++ repr_chars quote r
  end.

(** [repr(s)] for a [str]: single quotes, unless the text has a single
    quote and no double quote. *)
Definition repr_str (s : string) : string :=
  let quote : ascii :=
    if PyStr.contains "'"%char s && negb (PyStr.contains PyStr.dquote s)
    then PyStr.dquote else "'"%char in
  String quote (repr_chars quote s ++ String quote EmptyString).

Fixpoint commas (parts : list string) : string :=
  match parts with
  | [] => EmptyString
  | [p] => p
  | p :: rest => p ++ ", " ++ commas rest
  end.

(** [repr(v)]. *)
Fixpoint repr (v : pyval) : string :=
  match v with
  | PNone => "None"
  | PBool true => "True"
  | PBool false => "False"
  | PInt z => str_int z
  | PFloat r => r
  | PStr s => repr_str s
  | PList l => "[" ++ commas (map repr l) ++ "]"
  | PDict d =>
      "{" ++ commas (map (fun kv => repr_str (fst kv) ++ ": " ++ repr (snd kv)) d) ++ "}"
  end.

(** [str(v)], as an f-string formats a value. *)
Definition str (v : pyval) : string :=
  match v with
  | PStr s => s
  | _ => repr v
  end.

(** [type(v).__name__]. *)
Definition type_name (v : pyval) : string :=
  match v with
  | PNone => "NoneType"
  | PBool _ => "bool"
  | PInt _ => "int"
  | PFloat _ => "float"
  | PStr _ => "str"
  | PList _ => "list"
  | PDict _ => "dict"
  end.

End PyRepr.

(* ===================================================================== *)
(** * The operations of the Python data model the pipeline uses *)
(* ===================================================================== *)

Module Py.

Import PyRepr.

Definition raise {A} (c : pyclass) (msg : string) : result A := Raise (mkExn c msg).

(** [v == s] for a [str] [s]: only an equal [str] is equal to it. *)
Definition eq_str (v : pyval) (s : string) : bool :=
  match v with
  | PStr t => String.eqb t s
  | _ => false
  end.

(** Lookup and update of a [dict] (insertion order is kept; assigning to a
    present key replaces its value in place). *)
Fixpoint dict_get (d : list (string * pyval)) (k : string) : option pyval :=
  match d with
  | [] => None
  | (k', v) :: rest => if String.eqb k' k then Some v else dict_get rest k
  end.

Fixpoint dict_set (d : list (string * pyval)) (k : string) (v : pyval)
  : list (string * pyval) :=
  match d with
  | [] => [(k, v)]
  | (k', v') :: rest =>
      if String.eqb k' k then (k', v) :: rest else (k', v') :: dict_set rest k v
  end.

Definition keys (d : list (string * pyval)) : list string := map fst d.

(** [key in v] for a [str] key. *)
Definition contains (key : string) (v : pyval) : result bool :=
  match v with
  | PDict d => Ok (match dict_get d key with Some _ => true | None => false end)
  | PList l => Ok (existsb (fun x => eq_str x key) l)
  | PStr s => Ok (PyStr.has_substring key s)
  | _ => raise TypeError ("argument of type '" ++ type_name v ++ "' is not iterable")
  end.

(** [len(v)]. *)
Definition len (v : pyval) : result nat :=
  match v with
  | PDict d => Ok (List.length d)
  | PList l => Ok (List.length l)
  | PStr s => Ok (String.length s)
  | _ => raise TypeError ("object of type '" ++ type_name v ++ "' has no len()")
  end.

(** [v[key]] for a [str] key. *)
Definition getitem (v : pyval) (key : string) : result pyval :=
  match v with
  | PDict d =>
      match dict_get d key with
      | Some x => Ok x
      | None => raise KeyError (repr_str key)
      end
  | PList _ => raise TypeError "list indices must be integers or slices, not str"
  | PStr _ => raise TypeError "string indices must be integers, not 'str'"
  | _ => raise TypeError ("'" ++ type_name v ++ "' object is not subscriptable")
  end.

(** [v[0]].  No [dict] of the pipeline has the integer key [0]. *)
Definition getitem0 (v : pyval) : result pyval :=
  match v with
  | PDict _ => raise KeyError "0"
  | PList l =>
      match l with
      | x :: _ => Ok x
      | [] => raise IndexError "list index out of range"
      end
  | PStr s =>
      match s with
      | String c _ => Ok (PStr (String c EmptyString))
      | EmptyString => raise IndexError "string index out of range"
      end
  | _ => raise TypeError ("'" ++ type_name v ++ "' object is not subscriptable")
  end.

Definition no_attribute {A} (v : pyval) (attr : string) : result A :=
  raise AttributeError ("'" ++ type_name v ++ "' object has no attribute '" ++ attr ++ "'").

(** [v.get(key, default)]. *)
Definition get (v : pyval) (key : string) (default : pyval) : result pyval :=
  match v with
  | PDict d =>
      match dict_get d key with
      | Some x => Ok x
      | None => Ok default
      end
  | _ => no_attribute v "get"
  end.

(** The items a [for] loop draws from [v]. *)
Definition iter (v : pyval) : result (list pyval) :=
  match v with
  | PList l => Ok l
  | PDict d => Ok (map (fun kv => PStr (fst kv)) d)
  | PStr s => Ok (map PStr (PyStr.chars s))
  | _ => raise TypeError ("'" ++ type_name v ++ "' object is not iterable")
  end.

(** [v.split(sep)] and [v.startswith], methods of [str] only. *)
Definition split (v : pyval) (sep : ascii) : result (list string) :=
  match v with
  | PStr s => Ok (PyStr.split sep s)
  | _ => no_attribute v "split"
  end.

(** [l[i]] on a list of strings. *)
Definition index {A} (l : list A) (i : nat) : result A :=
  match nth_error l i with
  | Some x => Ok x
  | None => raise IndexError "list index out of range"
  end.

End Py.

(* ===================================================================== *)
(** * [json.dumps]: the encoder *)
(* ===================================================================== *)

Module Json.

Import PyRepr.

(** One character of a string literal, as [ensure_ascii=True] writes it:
    the printable ASCII characters stand for themselves, the quote and the
    backslash get a backslash, five control characters have a short
    escape, every other character is [\u00xx]. *)
Definition escape_char (c : ascii) : string :=
  let n := nat_of_ascii c in
  if (n =? 34)%nat then String PyStr.backslash (String PyStr.dquote EmptyString)
  else if (n =? 92)%nat then "\\"
  else if (n =? 10)%nat then "\n"
  else if (n =? 13)%nat then "\r"
  else if (n =? 9)%nat then "\t"
  else if (n =? 12)%nat then "\f"
  else if (n =? 8)%nat then "\b"
  else if ((32 <=? n) && (n <=? 126))%nat then String c EmptyString
  else "\u00" ++ hex2 c.

Fixpoint escape (s : string) : string :=
  match s with
  | EmptyString => EmptyString
  | String c r => escape_char c ++ escape r
  end.

Definition encode_string (s : string) : string :=
  String PyStr.dquote (escape s ++ String PyStr.dquote EmptyString).

Fixpoint spaces (n : nat) : string :=
  match n with
  | O => EmptyString
  | S k => String " " (spaces k)
  end.

(** The line break and indentation written before an item at nesting depth
    [level]; nothing when [indent] is [None]. *)
Definition newline_indent (indent : option nat) (level : nat) : string :=
  match indent with
  | None => EmptyString
  | Some n => String PyStr.newline (spaces (n * level))
  end.

(** The item separator: [", "] by default, [","] when an indent is given
    (the line break follows it). *)
Definition item_separator (indent : option nat) : string :=
  match indent with
  | None => ", "
  | Some _ => ","
  end.

Fixpoint join (sep : string) (parts : list string) : string :=
  match parts with
  | [] => EmptyString
  | [p] => p
  | p :: rest => p ++ sep ++ join sep rest
  end.

(** [json.dumps(v, indent=indent)] at nesting depth [level]. *)
Fixpoint encode (indent : option nat) (level : nat) (v : pyval) : string :=
  match v with
  | PNone => "null"
  | PBool true => "true"
  | PBool false => "false"
  | PInt z => str_int z
  | PFloat r => r
  | PStr s => encode_string s
  | PList [] => "[]"
  | PList l =>
      "[" ++ newline_indent indent (S level)
      ++ join (item_separator indent ++ newline_indent indent (S level))
              (map (encode indent (S level)) l)
      ++ newline_indent indent level ++ "]"
  | PDict [] => "{}"
  | PDict d =>
      "{" ++ newline_indent indent (S level)
      ++ join (item_separator indent ++ newline_indent indent (S level))
              (map (fun kv => encode_string (fst kv) ++ ": "
                              ++ encode indent (S level) (snd kv)) d)
      ++ newline_indent indent level ++ "}"
  end.

Definition dumps (v : pyval) : string := encode None 0 v.
Definition dumps_indent (n : nat) (v : pyval) : string := encode (Some n) 0 v.

End Json.

(* ===================================================================== *)
(** * The outside world, and the monad of the pipeline *)
(* ===================================================================== *)

(** What [requests] hands back: the status line, and what [response.json()]
    gives (a value, or the exception it raises on a body that is not JSON). *)
Record response : Type := mkResponse {
  status_code : Z;
  reason : string;
  url : string;
  json : result pyval
}.

(** [response.raise_for_status()]. *)
Definition raise_for_status (r : response) : result unit :=
  let st := status_code r in
  if ((400 <=? st) && (st <? 500))%Z then
    Py.raise HTTPError
      (PyRepr.str_int st ++ " Client Error: " ++ reason r ++ " for url: " ++ url r)
  else if ((500 <=? st) && (st <? 600))%Z then
    Py.raise HTTPError
      (PyRepr.str_int st ++ " Server Error: " ++ reason r ++ " for url: " ++ url r)
  else Ok tt.

(** A [datetime], field by field. *)
Record datetime : Type := mkDatetime {
  year : Z; month : Z; day : Z;
  hour : Z; minute : Z; second : Z; microsecond : Z
}.

Module Datetime.

Definition is_leap (y : Z) : bool :=
  ((y mod 4 =? 0) && (negb (y mod 100 =? 0) || (y mod 400 =? 0)))%Z.

Definition days_before_year (y : Z) : Z :=
  let y := (y - 1)%Z in (y * 365 + y / 4 - y / 100 + y / 400)%Z.

Definition days_before_month (y m : Z) : Z :=
  (nth (Z.to_nat (m - 1)) [0; 31; 59; 90; 120; 151; 181; 212; 243; 273; 304; 334] 0
   + (if (2 <? m) && is_leap y then 1 else 0))%Z.

Definition toordinal (d : datetime) : Z :=
  (days_before_year (year d) + days_before_month (year d) (month d) + day d)%Z.

(** The microseconds from the start of year 1 to [d]. *)
Definition to_micros (d : datetime) : Z :=
  (((toordinal d * 86400) + hour d * 3600 + minute d * 60 + second d) * 1000000
   + microsecond d)%Z.

(** A number in decimal, padded with zeros on the left to [width]. *)
Definition zero_pad (width : nat) (z : Z) : string :=
  let s := PyRepr.str_int z in
  String.concat "" (repeat "0" (width - String.length s)) ++ s.

(** [d.strftime("%Y%m%d_%H%M%S")] (years of four digits). *)
Definition strftime_stamp (d : datetime) : string :=
  zero_pad 4 (year d) ++ zero_pad 2 (month d) ++ zero_pad 2 (day d) ++ "_"
  ++ zero_pad 2 (hour d) ++ zero_pad 2 (minute d) ++ zero_pad 2 (second d).

Fixpoint strip_zeros_right (s : string) : string :=
  match s with
  | EmptyString => EmptyString
  | String c r =>
      match strip_zeros_right r with
      | EmptyString => if Ascii.eqb c "0" then EmptyString else String c EmptyString
      | r' => String c r'
      end
  end.

(** [repr] of the float [us / 10**6], the value of
    [timedelta(microseconds=us).total_seconds()]: the decimal itself, which
    is the shortest text that reads back as that float for every span
    below some thirty years.  Below [0.0001] in magnitude [repr] switches
    to the exponent form. *)
Definition repr_seconds (us : Z) : string :=
  let a := Z.abs us in
  let sign := if (us <? 0)%Z then "-" else "" in
  if (a =? 0)%Z then "0.0"
  else if (a <? 10)%Z then sign ++ PyRepr.str_int a ++ "e-06"
  else if (a <? 100)%Z then
    sign ++ PyRepr.str_int (a / 10)
    ++ (if (a mod 10 =? 0)%Z then "" else "." ++ PyRepr.str_int (a mod 10)) ++ "e-05"
  else
    let frac := strip_zeros_right (zero_pad 6 (a mod 1000000)) in
    sign ++ PyRepr.str_int (a / 1000000) ++ "."
    ++ (match frac with EmptyString => "0" | _ => frac end).

(** [(b - a).total_seconds()]. *)
Definition total_seconds_between (a b : datetime) : pyval :=
  PFloat (repr_seconds (to_micros b - to_micros a)).

End Datetime.

(** The environment answers the [n]-th call of each kind; the answer may
    depend on the request.  [http_post] and [http_get] give the outcome of a
    whole [session.post] / [session.get] call, after whatever retries the
    mounted adapter made. *)
Record env : Type := mkEnv {
  getenv : string -> pyval;
  http_post : nat -> string -> pyval -> pyval -> result response;
  http_get : nat -> string -> pyval -> result response;
  serpapi_get_dict : nat -> pyval -> result pyval;
  datetime_now : nat -> datetime
}.

(** The part of the process state the pipeline touches: how many calls of
    each kind were made, the sessions still open, the seconds slept, what was
    shown with [st.error] and printed, and the files written. *)
Record state : Type := mkState {
  posts : nat;
  gets : nat;
  searches : nat;
  clock_reads : nat;
  sessions_open : nat;
  slept : Z;
  st_errors : list string;
  stdout : list string;
  files : list (string * string)
}.

Definition initial_state : state := mkState 0 0 0 0 0 0 [] [] [].

Definition M (A : Type) : Type := state -> result A * state.

Definition ret {A} (a : A) : M A := fun s => (Ok a, s).

Definition bind {A B} (m : M A) (k : A -> M B) : M B :=
  fun s =>
    match m s with
    | (Ok a, s') => k a s'
    | (Raise e, s') => (Raise e, s')
    end.

Definition lift {A} (r : result A) : M A := fun s => (r, s).

Declare Scope pipeline_scope.
Delimit Scope pipeline_scope with pipeline.
Notation "x <- m ;; k" := (bind m (fun x => k))
  (at level 61, m at next level, right associativity) : pipeline_scope.
Notation "m ;;; k" := (bind m (fun _ => k))
  (at level 61, right associativity) : pipeline_scope.

(** [try: body  except C1: h1  except C2 as e: h2 ...]: the first clause
    whose class the exception is an instance of handles it; an exception
    raised by the handler itself is not handled again. *)
Definition try_except {A} (body : M A) (handlers : list (pyclass * (exn -> M A))) : M A :=
  fun s =>
    match body s with
    | (Ok a, s') => (Ok a, s')
    | (Raise e, s') =>
        match find (fun h => isinstance e (fst h)) handlers with
        | Some h => snd h e s'
        | None => (Raise e, s')
        end
    end.

(** [try: body  finally: cleanup], for a cleanup that cannot raise. *)
Definition try_finally {A} (body : M A) (cleanup : state -> state) : M A :=
  fun s => let (r, s') := body s in (r, cleanup s').

Definition modify (f : state -> state) : M unit := fun s => (Ok tt, f s).

Definition time_sleep (seconds : Z) : M unit :=
  modify (fun s => mkState (posts s) (gets s) (searches s) (clock_reads s)
                           (sessions_open s) (slept s + seconds) (st_errors s)
                           (stdout s) (files s)).

Definition st_error (msg : string) : M unit :=
  modify (fun s => mkState (posts s) (gets s) (searches s) (clock_reads s)
                           (sessions_open s) (slept s) (st_errors s ++ [msg])%list
                           (stdout s) (files s)).

Definition print (msg : string) : M unit :=
  modify (fun s => mkState (posts s) (gets s) (searches s) (clock_reads s)
                           (sessions_open s) (slept s) (st_errors s)
                           (stdout s ++ [msg])%list (files s)).

Definition now (E : env) : M datetime :=
  fun s => (Ok (datetime_now E (clock_reads s)),
            mkState (posts s) (gets s) (searches s) (S (clock_reads s))
                    (sessions_open s) (slept s) (st_errors s) (stdout s) (files s)).

(** [open(filename, "w")] followed by writing [text] and closing. *)
Fixpoint write_entry (fs : list (string * string)) (filename text : string)
  : list (string * string) :=
  match fs with
  | [] => [(filename, text)]
  | (n, t) :: rest =>
      if String.eqb n filename then (n, text) :: rest
      else (n, t) :: write_entry rest filename text
  end.

Definition write_file (filename text : string) : M unit :=
  modify (fun s => mkState (posts s) (gets s) (searches s) (clock_reads s)
                           (sessions_open s) (slept s) (st_errors s) (stdout s)
                           (write_entry (files s) filename text)).

Fixpoint read_entry (fs : list (string * string)) (filename : string) : option string :=
  match fs with
  | [] => None
  | (n, t) :: rest => if String.eqb n filename then Some t else read_entry rest filename
  end.

(* ===================================================================== *)
(** * The pipeline of [app.py] *)
(* ===================================================================== *)

Local Open Scope pipeline_scope.

(** The retry policy [create_session] mounts on both schemes. *)
Record Retry : Type := mkRetry {
  total : Z;
  backoff_factor : Z;
  status_forcelist : list Z
}.

Record Session : Type := mkSession { https_adapter : Retry; http_adapter : Retry }.

Definition retry_strategy : Retry :=
  {| total := 3; backoff_factor := 1; status_forcelist := [500; 502; 503; 504]%Z |}.

Definition open_session (s : state) : state :=
  mkState (posts s) (gets s) (searches s) (clock_reads s) (S (sessions_open s))
          (slept s) (st_errors s) (stdout s) (files s).

Definition session_close (s : state) : state :=
  mkState (posts s) (gets s) (searches s) (clock_reads s) (pred (sessions_open s))
          (slept s) (st_errors s) (stdout s) (files s).

(** [create_session()]. *)
Definition create_session : M Session :=
  fun s => (Ok {| https_adapter := retry_strategy; http_adapter := retry_strategy |},
            open_session s).

(** [session.post(url, headers=..., json=..., timeout=30)]. *)
Definition session_post (E : env) (_ : Session) (api_url : string) (headers data : pyval)
  : M response :=
  fun s => (http_post E (posts s) api_url headers data,
            mkState (S (posts s)) (gets s) (searches s) (clock_reads s)
                    (sessions_open s) (slept s) (st_errors s) (stdout s) (files s)).

(** [session.get(url, params=..., timeout=10)]. *)
Definition session_get (E : env) (_ : Session) (api_url : string) (params : pyval)
  : M response :=
  fun s => (http_get E (gets s) api_url params,
            mkState (posts s) (S (gets s)) (searches s) (clock_reads s)
                    (sessions_open s) (slept s) (st_errors s) (stdout s) (files s)).

(** [GoogleSearch(params).get_dict()]. *)
Definition GoogleSearch_get_dict (E : env) (params : pyval) : M pyval :=
  fun s => (serpapi_get_dict E (searches s) params,
            mkState (posts s) (gets s) (S (searches s)) (clock_reads s)
                    (sessions_open s) (slept s) (st_errors s) (stdout s) (files s)).

(** The [params] of [search_web] (lines 110-120). *)
Definition search_params (E : env) (query search_type : string) : pyval :=
  let params :=
    [("api_key", getenv E "SERPAPI_KEY"); ("engine", PStr "google");
     ("q", PStr query); ("num", PInt 5)] in
  PDict (if String.eqb search_type "scholar"
         then Py.dict_set params "engine" (PStr "google_scholar")
         else if String.eqb search_type "videos"
         then Py.dict_set params "engine" (PStr "youtube")
         else params).

(** [search_web(query, search_type)] (lines 107-134). *)
Definition search_web (E : env) (query search_type : string) : M pyval :=
  try_except
    (results <- GoogleSearch_get_dict E (search_params E query search_type) ;;
     if String.eqb search_type "scholar"
     then lift (Py.get results "organic_results" (PList []))
     else if String.eqb search_type "videos"
     then lift (Py.get results "video_results" (PList []))
     else lift (Py.get results "organic_results" (PList [])))
    [(Exception,
      fun e => st_error ("Error in web search: " ++ exn_msg e) ;;; ret (PList []))].

(** The request of [search_pixabay] (lines 138-146). *)
Definition pixabay_url : string := "https://pixabay.com/api/".

Definition pixabay_params (query : string) (count : Z) : pyval :=
  PDict [("key", PStr "36897997-32ed5c1b2cd9b2ad2546d8d8e"); ("q", PStr query);
         ("per_page", PInt count); ("image_type", PStr "photo");
         ("orientation", PStr "horizontal")].

(** [search_pixabay(query, count)] (lines 136-163). *)
Definition search_pixabay (E : env) (query : string) (count : Z) : M pyval :=
  try_finally
    (try_except
       (session <- create_session ;;
        response <- session_get E session pixabay_url (pixabay_params query count) ;;
        lift (raise_for_status response) ;;;
        result <- lift (json response) ;;
        lift (Py.get result "hits" (PList [])))
       [(Exception,
         fun e => print ("Error searching Pixabay: " ++ exn_msg e) ;;; ret (PList []))])
    session_close.

(** The request of [generate_content] (lines 167-190). *)
Definition openrouter_url : string := "https://openrouter.ai/api/v1/chat/completions".

Definition openrouter_headers (E : env) : pyval :=
  let api_key := getenv E "OPENROUTER_API_KEY" in
  let site_url := getenv E "SITE_URL" in
  let site_name := getenv E "SITE_NAME" in
  PDict [("Authorization", PStr ("Bearer " ++ PyRepr.str api_key));
         ("Content-Type", PStr "application/json");
         ("HTTP-Referer", site_url); ("X-Title", site_name)].

Definition openrouter_data (prompt : string) (temperature : pyval) : pyval :=
  PDict [("model", PStr "mistralai/mistral-7b-instruct:free");
         ("messages", PList [PDict [("role", PStr "user"); ("content", PStr prompt)]]);
         ("temperature", temperature); ("max_tokens", PInt 2048)].

(** The choice among the shapes of the answer (lines 203-212). *)
Definition extract_completion (answer : pyval) : result pyval :=
  (has_choices <- Py.contains "choices" answer ;;
   nonempty <-
     (if has_choices : bool
      then choices <- Py.getitem answer "choices" ;;
           n <- Py.len choices ;;
           Ok (0 <? n)%nat
      else Ok false) ;;
   if nonempty : bool
   then choices <- Py.getitem answer "choices" ;;
        first <- Py.getitem0 choices ;;
        message <- Py.getitem first "message" ;;
        Py.getitem message "content"
   else
     has_response <- Py.contains "response" answer ;;
     if has_response : bool then Py.getitem answer "response"
     else
       has_text <- Py.contains "text" answer ;;
       if has_text : bool then Py.getitem answer "text"
       else
         has_content <- Py.contains "content" answer ;;
         if has_content : bool then Py.getitem answer "content"
         else Py.raise Exception
                ("Unexpected API response format: " ++ Json.dumps answer))%result.

Definition generate_content_handlers : list (pyclass * (exn -> M pyval)) :=
  [(ConnectionError,
    fun _ => lift (Py.raise Exception
      "Network connection error. Please check your internet connection and try again."));
   (Timeout,
    fun _ => lift (Py.raise Exception "Request timed out. Please try again."));
   (RequestException,
    fun e => lift (Py.raise Exception ("Error making request: " ++ exn_msg e)));
   (Exception,
    fun e => lift (Py.raise Exception ("Error generating content: " ++ exn_msg e)))].

(** [generate_content(prompt, temperature)] (lines 165-224). *)
Definition generate_content (E : env) (prompt : string) (temperature : pyval) : M pyval :=
  try_finally
    (try_except
       (session <- create_session ;;
        response <- session_post E session openrouter_url (openrouter_headers E)
                      (openrouter_data prompt temperature) ;;
        lift (raise_for_status response) ;;;
        result <- lift (json response) ;;
        lift (extract_completion result))
       generate_content_handlers)
    session_close.

(** One record appended to a list of [resources]: the fields of [fields]
    ([(key written, key read)]) fetched with [result.get(key, "")]. *)
Fixpoint resource_entry (fields : list (string * string)) (item : pyval)
  : result (list (string * pyval)) :=
  match fields with
  | [] => Ok []
  | (out_key, in_key) :: rest =>
      (v <- Py.get item in_key (PStr "") ;;
       more <- resource_entry rest item ;;
       Ok ((out_key, v) :: more))%result
  end.

(** [resources[key].append(item)]. *)
Definition append_at (resources : list (string * pyval)) (key : string) (item : pyval)
  : list (string * pyval) :=
  match Py.dict_get resources key with
  | Some (PList l) => Py.dict_set resources key (PList (l ++ [item])%list)
  | _ => resources
  end.

(** [for result in results: resources[key].append({...})]. *)
Fixpoint for_results (key : string) (fields : list (string * string))
  (results : list pyval) (resources : list (string * pyval))
  : result (list (string * pyval)) :=
  match results with
  | [] => Ok resources
  | r :: rest =>
      (entry <- resource_entry fields r ;;
       for_results key fields rest (append_at resources key (PDict entry)))%result
  end.

Definition collect (key : string) (fields : list (string * string))
  (results : pyval) (resources : list (string * pyval)) : M (list (string * pyval)) :=
  lift (items <- Py.iter results ;; for_results key fields items resources)%result.

(** [generate_resources_for_topic(topic)] (lines 226-271). *)
Definition generate_resources_for_topic (E : env) (topic : string) : M pyval :=
  let resources :=
    [("research", PList []); ("videos", PList []); ("tools", PList []);
     ("stats", PList [])] in
  research_results <- search_web E (topic ++ " research papers articles") "scholar" ;;
  resources <- collect "research"
                 [("title", "title"); ("link", "link"); ("snippet", "snippet")]
                 research_results resources ;;
  video_results <- search_web E (topic ++ " tutorial guide") "videos" ;;
  resources <- collect "videos"
                 [("title", "title"); ("link", "link"); ("thumbnail", "thumbnail")]
                 video_results resources ;;
  tool_results <- search_web E (topic ++ " tools software applications") "general" ;;
  resources <- collect "tools"
                 [("name", "title"); ("link", "link"); ("description", "snippet")]
                 tool_results resources ;;
  stats_results <- search_web E (topic ++ " statistics data facts") "general" ;;
  resources <- collect "stats"
                 [("title", "title"); ("link", "link"); ("snippet", "snippet")]
                 stats_results resources ;;
  ret (PDict resources).

(** [line.split(':')[1].split('-')[0].strip()]. *)
Definition topic_of_line (line : string) : result string :=
  (after_colon <- Py.index (PyStr.split ":" line) 1 ;;
   before_hyphen <- Py.index (PyStr.split "-" after_colon) 0 ;;
   Ok (PyStr.strip before_hyphen))%result.

(** The loop of lines 322-325 over the lines of the strategy. *)
Fixpoint extract_loop (lines : list string) (topics : list string) : result (list string) :=
  match lines with
  | [] => Ok topics
  | line :: rest =>
      if PyStr.startswith line "Day"
      then (topic <- topic_of_line line ;;
            extract_loop rest (topics ++ [topic])%list)%result
      else extract_loop rest topics
  end.

(** The topic extractor: lines 320-325 of [create_content_calendar]. *)
Definition extract_topics (strategy : pyval) : result (list string) :=
  (lines <- Py.split strategy PyStr.newline ;;
   extract_loop lines [])%result.

(** The loop of lines 329-331: one bundle per topic, stored under the topic,
    two seconds slept after each. *)
Fixpoint gather_resources (E : env) (topics : list string)
  (resources : list (string * pyval)) : M (list (string * pyval)) :=
  match topics with
  | [] => ret resources
  | topic :: rest =>
      bundle <- generate_resources_for_topic E topic ;;
      time_sleep 2 ;;;
      gather_resources E rest (Py.dict_set resources topic bundle)
  end.

Definition research_prompt (industry target_audience content_goals : string) : string :=
  "Research current trends in the " ++ industry ++ " industry for " ++ target_audience
  ++ ".
Focus on:
1. Top content formats (video, blog, etc.)
2. Trending topics and hashtags
3. Upcoming events in the next 2 weeks
4. 5-7 potential content topics that align with: " ++ content_goals ++ "

Provide a concise summary (max 500 words).".

Definition strategy_prompt (trends : pyval) (target_audience : string) : string :=
  "Based on this research: " ++ PyRepr.str trends ++ "

Create a simple 7-day content calendar for " ++ target_audience ++ ".
Include:
1. Mix of content types (educational, promotional, etc.)
2. One main topic per day
3. Brief rationale for each day

Format as Day 1: [Topic] - [Type] - [Brief rationale]".

Definition brief_prompt (strategy : pyval) : string :=
  "Based on this calendar: " ++ PyRepr.str strategy ++ "

Create brief content outlines for each day.
For each day include:
1. Headline
2. Brief hook
3. 3-5 key points
4. Call-to-action

Keep each day's brief concise and focused.".

Definition default_temperature : pyval := PFloat "0.7".

(** [create_content_calendar(industry, target_audience, content_goals)]
    (lines 273-344). *)
Definition create_content_calendar (E : env)
  (industry target_audience content_goals : string) : M pyval :=
  try_except
    (start_time <- now E ;;
     trends <- generate_content E
                 (research_prompt industry target_audience content_goals)
                 default_temperature ;;
     time_sleep 1 ;;;
     strategy <- generate_content E (strategy_prompt trends target_audience)
                   default_temperature ;;
     time_sleep 1 ;;;
     briefs <- generate_content E (brief_prompt strategy) default_temperature ;;
     time_sleep 1 ;;;
     topics <- lift (extract_topics strategy) ;;
     resources <- gather_resources E topics [] ;;
     end_time <- now E ;;
     let execution_time := Datetime.total_seconds_between start_time end_time in
     ret (PDict [("trends", trends); ("strategy", strategy); ("briefs", briefs);
                 ("resources", PDict resources); ("execution_time", execution_time)]))
    [(Exception, fun e => ret (PDict [("error", PStr (exn_msg e))]))].

(** [save_content_calendar(industry, target_audience, content_goals, result)]
    (lines 346-362). *)
Definition save_content_calendar (E : env)
  (industry target_audience content_goals : string) (result : pyval) : M string :=
  t <- now E ;;
  let timestamp := Datetime.strftime_stamp t in
  let filename := "content_calendar_" ++ timestamp ++ ".json" in
  let data :=
    PDict [("industry", PStr industry); ("target_audience", PStr target_audience);
           ("content_goals", PStr content_goals); ("timestamp", PStr timestamp);
           ("content_calendar", result)] in
  write_file filename (Json.dumps_indent 4 data) ;;;
  ret filename.

(** The second extraction of the topics, in [main] where the resources are
    shown (lines 502-510): the same expression, inside [try] / [except:
    continue]. *)
Fixpoint display_topics_loop (lines : list string) (topics : list string) : list string :=
  match lines with
  | [] => topics
  | line :: rest =>
      if PyStr.startswith line "Day"
      then match topic_of_line line with
           | Ok topic => display_topics_loop rest (topics ++ [topic])%list
           | Raise _ => display_topics_loop rest topics
           end
      else display_topics_loop rest topics
  end.

(* ===================================================================== *)
(** * [json.loads]: the decoder *)
(* ===================================================================== *)

Module JsonDecode.

Definition is_ws (c : ascii) : bool :=
  let n := nat_of_ascii c in
  ((n =? 32) || (n =? 9) || (n =? 10) || (n =? 13))%nat.

Fixpoint skip_ws (s : string) : string :=
  match s with
  | EmptyString => EmptyString
  | String c r => if is_ws c then skip_ws r else s
  end.

Definition is_digit (c : ascii) : bool :=
  let n := nat_of_ascii c in ((48 <=? n) && (n <=? 57))%nat.

(** The longest prefix of digits, and what follows it. *)
Fixpoint take_digits (s : string) : string * string :=
  match s with
  | EmptyString => (EmptyString, EmptyString)
  | String c r =>
      if is_digit c
      then let (d, rest) := take_digits r in (String c d, rest)
      else (EmptyString, s)
  end.

Definition hex_val (c : ascii) : option nat :=
  let n := nat_of_ascii c in
  if ((48 <=? n) && (n <=? 57))%nat then Some (n - 48)
  else if ((97 <=? n) && (n <=? 102))%nat then Some (n - 87)
  else if ((65 <=? n) && (n <=? 70))%nat then Some (n - 55)
  else None.

(** The code point of a [\uXXXX] escape. *)
Definition hex4_val (a b c d : ascii) : option nat :=
  match hex_val a, hex_val b, hex_val c, hex_val d with
  | Some x, Some y, Some z, Some w => Some (((x * 16 + y) * 16 + z) * 16 + w)
  | _, _, _, _ => None
  end.

(** The character a one-letter escape stands for. *)
Definition unescape (e : ascii) : option ascii :=
  let n := nat_of_ascii e in
  if (n =? 34)%nat then Some PyStr.dquote
  else if (n =? 92)%nat then Some PyStr.backslash
  else if (n =? 47)%nat then Some "/"%char
  else if (n =? 98)%nat then Some (ascii_of_nat 8)
  else if (n =? 102)%nat then Some (ascii_of_nat 12)
  else if (n =? 110)%nat then Some (ascii_of_nat 10)
  else if (n =? 114)%nat then Some (ascii_of_nat 13)
  else if (n =? 116)%nat then Some (ascii_of_nat 9)
  else None.

Definition cons_char (c : ascii) (r : option (string * string)) : option (string * string) :=
  match r with
  | Some (t, rest) => Some (String c t, rest)
  | None => None
  end.

(** [py_scanstring] in strict mode, from just after the opening quote: the
    text of the literal and what follows its closing quote.  An escape
    above [ÿ] names a character outside the model. *)
Fixpoint scanstring (s : string) : option (string * string) :=
  match s with
  | EmptyString => None
  | String c r =>
      if Ascii.eqb c PyStr.dquote then Some (EmptyString, r)
      else if Ascii.eqb c PyStr.backslash then
        match r with
        | EmptyString => None
        | String e r1 =>
            if Ascii.eqb e "u" then
              match r1 with
              | String h1 (String h2 (String h3 (String h4 r2))) =>
                  match hex4_val h1 h2 h3 h4 with
                  | Some n =>
                      if (n <? 256)%nat then cons_char (ascii_of_nat n) (scanstring r2)
                      else None
                  | None => None
                  end
              | _ => None
              end
            else
              match unescape e with
              | Some ch => cons_char ch (scanstring r1)
              | None => None
              end
        end
      else if (nat_of_ascii c <? 32)%nat then None
      else cons_char c (scanstring r)
  end.

(** The fraction of a number: a dot and at least one digit. *)
Definition scan_frac (s : string) : string * string :=
  match s with
  | String c r =>
      if Ascii.eqb c "." then
        match take_digits r with
        | (EmptyString, _) => (EmptyString, s)
        | (ds, rest) => (String c ds, rest)
        end
      else (EmptyString, s)
  | EmptyString => (EmptyString, s)
  end.

(** The exponent of a number: [e] or [E], a sign or none, at least one
    digit. *)
Definition scan_exp (s : string) : string * string :=
  match s with
  | String c r =>
      if Ascii.eqb c "e" || Ascii.eqb c "E" then
        let (sign, r1) :=
          match r with
          | String g r' =>
              if Ascii.eqb g "+" || Ascii.eqb g "-"
              then (String g EmptyString, r') else (EmptyString, r)
          | EmptyString => (EmptyString, r)
          end in
        match take_digits r1 with
        | (EmptyString, _) => (EmptyString, s)
        | (ds, rest) => (String c (sign ++ ds), rest)
        end
      else (EmptyString, s)
  | EmptyString => (EmptyString, s)
  end.

(** The integer part: [0], or a digit from 1 to 9 and more digits. *)
Definition scan_int (s : string) : option (string * string) :=
  match s with
  | String c r =>
      if Ascii.eqb c "0" then Some ("0", r)
      else if is_digit c then Some (take_digits s)
      else None
  | EmptyString => None
  end.

(** A number without its sign, as [NUMBER_RE] matches it: an [int] when
    there is neither fraction nor exponent, else a [float].  The float is
    kept as the literal read, which for a literal written by [repr] is the
    float. *)
Definition scan_unsigned (sign s : string) : option (pyval * string) :=
  match scan_int s with
  | None => None
  | Some (integer, r1) =>
      let (frac, r2) := scan_frac r1 in
      let (exp, r3) := scan_exp r2 in
      match frac, exp with
      | EmptyString, EmptyString =>
          match NilZero.int_of_string (sign ++ integer) with
          | Some d => Some (PInt (Z.of_int d), r3)
          | None => None
          end
      | _, _ => Some (PFloat (sign ++ integer ++ frac ++ exp), r3)
      end
  end.

Definition scan_number (s : string) : option (pyval * string) :=
  match s with
  | String c r => if Ascii.eqb c "-" then scan_unsigned "-" r else scan_unsigned EmptyString s
  | EmptyString => None
  end.

(** [dict(pairs)]: a key read twice keeps its first place and its last
    value. *)
Fixpoint dict_of_pairs (pairs : list (string * pyval)) (d : list (string * pyval))
  : list (string * pyval) :=
  match pairs with
  | [] => d
  | (k, v) :: rest => dict_of_pairs rest (Py.dict_set d k v)
  end.

(** [s] without the prefix [p], when it has it. *)
Fixpoint expect (p s : string) : option string :=
  match p with
  | EmptyString => Some s
  | String c p' =>
      match s with
      | String d s' => if Ascii.eqb c d then expect p' s' else None
      | EmptyString => None
      end
  end.

(** [scan_once], with [JSONArray] and [JSONObject] as its loops.  Each call
    uses one unit of [fuel]; a text of [n] characters needs no more than
    [n]. *)
Fixpoint scan_once (fuel : nat) (s : string) : option (pyval * string) :=
  match fuel with
  | O => None
  | S f =>
      match s with
      | EmptyString => None
      | String c r =>
          if Ascii.eqb c PyStr.dquote then
            match scanstring r with
            | Some (t, rest) => Some (PStr t, rest)
            | None => None
            end
          else if Ascii.eqb c "{" then
            match skip_ws r with
            | String c1 r1 =>
                if Ascii.eqb c1 "}" then Some (PDict [], r1)
                else if Ascii.eqb c1 PyStr.dquote then
                  match scan_pairs f r1 with
                  | Some (pairs, rest) => Some (PDict (dict_of_pairs pairs []), rest)
                  | None => None
                  end
                else None
            | EmptyString => None
            end
          else if Ascii.eqb c "[" then
            match skip_ws r with
            | String c1 r1 =>
                if Ascii.eqb c1 "]" then Some (PList [], r1)
                else
                  match scan_items f (String c1 r1) with
                  | Some (items, rest) => Some (PList items, rest)
                  | None => None
                  end
            | EmptyString => None
            end
          else if Ascii.eqb c "n" then
            match expect "ull" r with
            | Some rest => Some (PNone, rest)
            | None => None
            end
          else if Ascii.eqb c "t" then
            match expect "rue" r with
            | Some rest => Some (PBool true, rest)
            | None => None
            end
          else if Ascii.eqb c "f" then
            match expect "alse" r with
            | Some rest => Some (PBool false, rest)
            | None => None
            end
          else scan_number s
      end
  end

with scan_items (fuel : nat) (s : string) : option (list pyval * string) :=
  match fuel with
  | O => None
  | S f =>
      match scan_once f s with
      | None => None
      | Some (v, r) =>
          match skip_ws r with
          | String c r1 =>
              if Ascii.eqb c "]" then Some ([v], r1)
              else if Ascii.eqb c "," then
                match scan_items f (skip_ws r1) with
                | Some (vs, rest) => Some (v :: vs, rest)
                | None => None
                end
              else None
          | EmptyString => None
          end
      end
  end

with scan_pairs (fuel : nat) (s : string) : option (list (string * pyval) * string) :=
  match fuel with
  | O => None
  | S f =>
      match scanstring s with
      | None => None
      | Some (key, r) =>
          match skip_ws r with
          | String c r1 =>
              if Ascii.eqb c ":" then
                match scan_once f (skip_ws r1) with
                | None => None
                | Some (v, r2) =>
                    match skip_ws r2 with
                    | String c2 r3 =>
                        if Ascii.eqb c2 "}" then Some ([(key, v)], r3)
                        else if Ascii.eqb c2 "," then
                          match skip_ws r3 with
                          | String c3 r4 =>
                              if Ascii.eqb c3 PyStr.dquote then
                                match scan_pairs f r4 with
                                | Some (ps, rest) => Some ((key, v) :: ps, rest)
                                | None => None
                                end
                              else None
                          | EmptyString => None
                          end
                        else None
                    | EmptyString => None
                    end
                end
              else None
          | EmptyString => None
          end
      end
  end.

(** [json.loads(s)]: one value, with white space around it and nothing
    else; [None] where Python raises [JSONDecodeError]. *)
Definition loads (s : string) : option pyval :=
  match scan_once (String.length s) (skip_ws s) with
  | Some (v, rest) =>
      match skip_ws rest with
      | EmptyString => Some v
      | _ => None
      end
  | None => None
  end.

End JsonDecode.

(** [json.load(open(filename))] on the files of a state. *)
Definition load_file (s : state) (filename : string) : option pyval :=
  match read_entry (files s) filename with
  | Some text => JsonDecode.loads text
  | None => None
  end.

(* ===================================================================== *)
(** * The retry loop of the mounted adapter *)
(* ===================================================================== *)

(** [create_session] only builds the [Retry] object; the loop that obeys it
    is [urllib3]'s [HTTPConnectionPool.urlopen], reached through
    [requests.adapters.HTTPAdapter.send], which calls it with
    [redirect=False] and turns its exceptions into those of [requests].  The
    loop is written out here as the library defines it ([Retry.is_retry],
    [Retry.increment], [Retry.is_exhausted], [urlopen]), for the three
    settings [create_session] gives and the library's defaults for the
    others: the idempotent methods, [respect_retry_after_header] and
    [raise_on_status] on, no separate count for connection, read, status or
    other errors.  The pauses between two attempts ([Retry.sleep]) and the
    texts of the exceptions are left out; no proxy is used.  The text
    followed is that of [urllib3] 1.26 ([util/retry.py],
    [connectionpool.py]) and of [requests] 2.32 ([adapters.py]). *)
Module Urllib3.

Inductive http_method : Type := GET | POST.

(** [Retry.DEFAULT_ALLOWED_METHODS] holds the idempotent methods (HEAD,
    GET, PUT, DELETE, OPTIONS, TRACE): of the two the program sends, GET. *)
Definition method_retryable (m : http_method) : bool :=
  match m with
  | GET => true
  | POST => false
  end.

Definition RETRY_AFTER_STATUS_CODES : list Z := [413; 429; 503]%Z.

(** What one attempt of a request meets.  The server answers, with or
    without a [Retry-After] header (taken to be well formed when there is
    one); or the attempt ends in one of the errors of [urllib3]: the
    connection is refused ([NewConnectionError]) or not made in time
    ([ConnectTimeoutError]), the answer does not come in time
    ([ReadTimeoutError]), the connection breaks once the request was
    started ([ProtocolError]), or the TLS handshake fails ([SSLError]). *)
Inductive attempt : Type :=
| Answered (resp : response) (has_retry_after : bool)
| Refused
| ConnectTimedOut
| ReadTimedOut
| Aborted
| HandshakeFailed.

(** [Retry._is_read_error(err)]: the server may have begun to process the
    request. *)
Definition is_read_error (a : attempt) : bool :=
  match a with
  | ReadTimedOut | Aborted => true
  | _ => false
  end.

(** [Retry.is_retry(method, status_code, has_retry_after)]. *)
Definition is_retry (r : Retry) (m : http_method) (status : Z) (has_retry_after : bool)
  : bool :=
  if negb (method_retryable m) then false
  else if existsb (Z.eqb status) (status_forcelist r) then true
  else negb (total r =? 0)%Z && has_retry_after
       && existsb (Z.eqb status) RETRY_AFTER_STATUS_CODES.

(** What [Retry.increment] does after an attempt that is to be made again:
    it gives the policy of the next attempt, or raises [MaxRetryError], or
    raises the error of the attempt again. *)
Inductive incremented : Type :=
| Next (r : Retry)
| Exhausted
| Reraised.

(** [Retry.increment(method, url, response, error)]: one retry less.  A read
    error of a method that is not idempotent is raised again; the policy is
    exhausted once the count of retries left falls below zero
    ([Retry.is_exhausted]). *)
Definition increment (r : Retry) (m : http_method) (a : attempt) : incremented :=
  if is_read_error a && negb (method_retryable m) then Reraised
  else
    let left := (total r - 1)%Z in
    if (left <? 0)%Z then Exhausted
    else Next {| total := left;
                 backoff_factor := backoff_factor r;
                 status_forcelist := status_forcelist r |}.

(** [HTTPAdapter.send], [except MaxRetryError as e]: the class of the
    exception of [requests], by [e.reason]. *)
Definition max_retry_error (a : attempt) : pyclass :=
  match a with
  | Answered _ _ => RetryError
  | ConnectTimedOut => ConnectTimeout
  | HandshakeFailed => SSLError
  | Refused | ReadTimedOut | Aborted => ConnectionError
  end.

(** [HTTPAdapter.send], the other [except] clauses: the class given to an
    error of [urllib3] that was raised again. *)
Definition reraised_error (a : attempt) : pyclass :=
  match a with
  | ReadTimedOut => ReadTimeout
  | _ => ConnectionError
  end.

(** The end of a request: a response handed back, or an exception of
    [requests] of the given class. *)
Inductive sent : Type :=
| Returned (resp : response)
| Raised (c : pyclass).

(** One request through the adapter.  [script] tells what the successive
    attempts meet; the result is [None] when the request would go on to an
    attempt the script does not tell. *)
Fixpoint urlopen (r : Retry) (m : http_method) (script : list attempt) : option sent :=
  match script with
  | [] => None
  | a :: later =>
      let again :=
        match increment r m a with
        | Next r' => urlopen r' m later
        | Exhausted => Some (Raised (max_retry_error a))
        | Reraised => Some (Raised (reraised_error a))
        end in
      match a with
      | Answered resp has_retry_after =>
          if is_retry r m (status_code resp) has_retry_after then again
          else Some (Returned resp)
      | _ => again
      end
  end.

(** The number of attempts [urlopen] makes on [script]. *)
Fixpoint attempts (r : Retry) (m : http_method) (script : list attempt) : nat :=
  match script with
  | [] => 0
  | a :: later =>
      let again :=
        match increment r m a with
        | Next r' => S (attempts r' m later)
        | Exhausted | Reraised => 1%nat
        end in
      match a with
      | Answered resp has_retry_after =>
          if is_retry r m (status_code resp) has_retry_after then again else 1%nat
      | _ => again
      end
  end.

(** A request sent through a session of [create_session]. *)
Definition send (sess : Session) (m : http_method) (script : list attempt)
  : option sent :=
  urlopen (https_adapter sess) m script.

End Urllib3.

(* ===================================================================== *)
(** * Readings used in the statements *)
(* ===================================================================== *)

(** A response with the given status and an empty JSON object as body. *)
Definition status_response (status : Z) : response :=
  mkResponse status "" "https://pixabay.com/api/" (Ok (PDict [])).

(** The session [create_session] returns. *)
Definition the_session : Session :=
  {| https_adapter := retry_strategy; http_adapter := retry_strategy |}.

(** The text between the first colon of a line and the next colon or hyphen,
    trimmed. *)
Definition topic_text (line : string) : string :=
  PyStr.strip (PyStr.before_first "-" (PyStr.before_first ":" (PyStr.after_first ":" line))).

Definition is_day_line (line : string) : bool := PyStr.startswith line "Day".

(** A day line that has its colon. *)
Definition day_line (line : string) : bool :=
  PyStr.startswith line "Day" && PyStr.contains ":" line && negb (PyStr.contains PyStr.newline line).

(** A day line of the form asked for, [Day N: topic - type - rationale]: it
    has a hyphen after its colon. *)
Definition well_formed_day_line (line : string) : bool :=
  day_line line && PyStr.contains "-" (PyStr.after_first ":" line).

(** A day line with a colon and no hyphen at all. *)
Definition day_line_without_hyphen (line : string) : bool :=
  day_line line && negb (PyStr.contains "-" line).

(** The distinct elements of a list, each at its first place. *)
Fixpoint distinct_from (seen topics : list string) : list string :=
  match topics with
  | [] => seen
  | t :: rest =>
      if existsb (String.eqb t) seen then distinct_from seen rest
      else distinct_from (seen ++ [t])%list rest
  end.

Definition distinct (topics : list string) : list string := distinct_from [] topics.

(** The bundle of a topic for which every search came back empty. *)
Definition empty_bundle : pyval :=
  PDict [("research", PList []); ("videos", PList []); ("tools", PList []);
         ("stats", PList [])].

(** The two shapes of the result of a run. *)
Definition success_keys : list string :=
  ["trends"; "strategy"; "briefs"; "resources"; "execution_time"].

Definition is_success (v : pyval) : Prop :=
  exists d, v = PDict d /\ Py.keys d = success_keys.

Definition is_failure (v : pyval) : Prop :=
  exists msg, v = PDict [("error", PStr msg)].

Definition has_key (v : pyval) (k : string) : bool :=
  match v with
  | PDict d => match Py.dict_get d k with Some _ => true | None => false end
  | _ => false
  end.

(** The completion held by the first of [choices]. *)
Definition first_choice_content (first : pyval) : result pyval :=
  (message <- Py.getitem first "message" ;; Py.getitem message "content")%result.

(** The first of the keys [response], [text], [content] that is present. *)
Definition fallback_completion (d : list (string * pyval)) : option pyval :=
  match Py.dict_get d "response" with
  | Some x => Some x
  | None =>
      match Py.dict_get d "text" with
      | Some x => Some x
      | None => Py.dict_get d "content"
      end
  end.

(** The messages of the four [except] clauses of [generate_content]. *)
Definition failure_message (e : exn) : string :=
  if isinstance e ConnectionError
  then "Network connection error. Please check your internet connection and try again."
  else if isinstance e Timeout then "Request timed out. Please try again."
  else if isinstance e RequestException then "Error making request: " ++ exn_msg e
  else "Error generating content: " ++ exn_msg e.

(** Values [json.dump] writes and [json.load] reads back as they were: the
    floats are finite ones, given by a literal with a fraction or an
    exponent, and no [dict] holds a key twice. *)
Definition float_literal (r : string) : bool :=
  match JsonDecode.scan_number r with
  | Some (PFloat r', EmptyString) => String.eqb r' r
  | _ => false
  end.

Fixpoint no_dup_keys (ks : list string) : bool :=
  match ks with
  | [] => true
  | k :: rest => negb (existsb (String.eqb k) rest) && no_dup_keys rest
  end.

Fixpoint json_value (v : pyval) : bool :=
  match v with
  | PNone | PBool _ | PInt _ | PStr _ => true
  | PFloat r => float_literal r
  | PList l => forallb json_value l
  | PDict d => no_dup_keys (map fst d) && forallb (fun kv => json_value (snd kv)) d
  end.

(** The number of calls of [scan_once] and of its loops that reading a value
    back takes. *)
Fixpoint size (v : pyval) : nat :=
  match v with
  | PList l => S (list_sum (map (fun x => S (size x)) l))
  | PDict d => S (list_sum (map (fun kv => S (size (snd kv))) d))
  | _ => 1
  end.

(** The outcome of the body of the [try] block of [generate_content],
    before any [except] clause. *)
Definition generate_content_body (E : env) (prompt : string) (temperature : pyval)
  (s : state) : result pyval :=
  (response <- http_post E (posts s) openrouter_url (openrouter_headers E)
                 (openrouter_data prompt temperature) ;;
   _ <- raise_for_status response ;;
   answer <- json response ;;
   extract_completion answer)%result.

(** [choices] is absent or a list. *)
Definition choices_listed (d : list (string * pyval)) : bool :=
  match Py.dict_get d "choices" with
  | Some (PList _) | None => true
  | Some _ => false
  end.

(** A successful response with the given JSON body. *)
Definition ok_response (body : pyval) : response :=
  mkResponse 200 "OK" openrouter_url (Ok body).

(** An environment given by the outcome of each [session.post] and of each
    search; the image backend is unreachable and the clock advances five
    seconds between two readings. *)
Definition sample_env (post : nat -> result response) (search : nat -> result pyval) : env :=
  {| getenv := fun _ => PStr "key";
     http_post := fun n _ _ _ => post n;
     http_get := fun _ _ _ => Py.raise ConnectionError "unreachable";
     serpapi_get_dict := fun n _ => search n;
     datetime_now := fun n => mkDatetime 2024 3 1 10 0 (5 * Z.of_nat n) 0 |}.

(** The key [search_web] reads the results from. *)
Definition results_key (search_type : string) : string :=
  if String.eqb search_type "videos" then "video_results" else "organic_results".

(** Every call of the search backend raises. *)
Definition searches_fail (E : env) : Prop :=
  forall n params, exists e, serpapi_get_dict E n params = Raise e.

(** The generation backend answers its [n]-th call with a well-formed
    response from which [completion n] is extracted. *)
Definition generation_answers (E : env) (completion : nat -> pyval) : Prop :=
  forall n api_url headers data,
  exists resp answer,
    http_post E n api_url headers data = Ok resp
    /\ raise_for_status resp = Ok tt
    /\ json resp = Ok answer
    /\ extract_completion answer = Ok (completion n).

(** The four keys of a bundle, each with a list. *)
Definition bundle_shape (resources : list (string * pyval)) : Prop :=
  exists research videos tools stats,
    resources = [("research", PList research); ("videos", PList videos);
                 ("tools", PList tools); ("stats", PList stats)].

Definition bundle_key (key : string) : Prop :=
  key = "research" \/ key = "videos" \/ key = "tools" \/ key = "stats".

Definition is_dict (v : pyval) : Prop := exists d, v = PDict d.

(** Every search that answers gives, under whatever key is read, a list of
    JSON objects. *)
Definition results_well_shaped (E : env) : Prop :=
  forall n params v key x,
    serpapi_get_dict E n params = Ok v ->
    Py.get v key (PList []) = Ok x ->
    exists items, x = PList items /\ Forall is_dict items.

(** The state after one more [session.post], the session closed again. *)
Definition after_post (s : state) : state :=
  mkState (S (posts s)) (gets s) (searches s) (clock_reads s) (sessions_open s)
          (slept s) (st_errors s) (stdout s) (files s).

(** The state after one more reading of the clock. *)
Definition after_clock (s : state) : state :=
  mkState (posts s) (gets s) (searches s) (S (clock_reads s)) (sessions_open s)
          (slept s) (st_errors s) (stdout s) (files s).

(** A generation backend that answers its [n]-th call with
    [{"response": completion n}]. *)
Definition answering (completion : nat -> pyval) (n : nat) : result response :=
  Ok (ok_response (PDict [("response", completion n)])).

(** Three canned completions; the strategy names the topic of day 1 again on
    day 3. *)
Definition canned (n : nat) : pyval :=
  match n with
  | 0 => PStr "Short videos and meal plans are trending."
  | 1 => PStr "Here is the plan.
Day 1: Home workouts - Educational - low barrier
Day 2: Protein myths - Blog - debunking
Day 3: Home workouts - Video - follow-up"
  | _ => PStr "Day 1: Headline, hook, key points, call to action."
  end.

(** A search backend whose [n]-th answer is one result numbered [n]. *)
Definition numbered_results (n : nat) : result pyval :=
  Ok (PDict [("organic_results",
              PList [PDict [("title", PStr "Result"); ("link", PInt (Z.of_nat n))]]);
             ("video_results", PList [])]).

(** The status of a response is one the policy retries on. *)
Definition listed (r : Retry) (resp : response) : bool :=
  existsb (Z.eqb (status_code resp)) (status_forcelist r).

(** The server answers with the given status and no [Retry-After] header. *)
Definition answers (status : Z) : Urllib3.attempt :=
  Urllib3.Answered (status_response status) false.

(** An attempt answered with a status the policy retries on. *)
Definition listed_answer (r : Retry) (a : Urllib3.attempt) : bool :=
  match a with
  | Urllib3.Answered resp _ => listed r resp
  | _ => false
  end.

(** The status of a response is one of those the library tries again when
    the response carries a [Retry-After] header. *)
Definition retry_after_status (resp : response) : bool :=
  existsb (Z.eqb (status_code resp)) Urllib3.RETRY_AFTER_STATUS_CODES.

(** The policy of [create_session] with [n] retries left. *)
Definition retries_left (n : Z) : Retry :=
  {| total := n; backoff_factor := 1; status_forcelist := [500; 502; 503; 504]%Z |}.

(** What can follow a value in a document: nothing, white space, a comma or
    a closing bracket. *)
Definition is_delim (c : ascii) : bool :=
  JsonDecode.is_ws c || Ascii.eqb c "," || Ascii.eqb c "]" || Ascii.eqb c "}".

Definition delimited (rest : string) : bool :=
  match rest with
  | EmptyString => true
  | String c _ => is_delim c
  end.

Fixpoint all_ws (s : string) : bool :=
  match s with
  | EmptyString => true
  | String c r => JsonDecode.is_ws c && all_ws r
  end.

(** What follows the comma between two items. *)
Definition after_comma (indent : option nat) (level : nat) : string :=
  match indent with
  | None => " "
  | Some n => Json.newline_indent (Some n) level
  end.

(** A character a value can start with: not white space, not a closing
    bracket. *)
Definition value_first (c : ascii) : bool :=
  negb (JsonDecode.is_ws c) && negb (Ascii.eqb c "]") && negb (Ascii.eqb c "}").

(** The first character of a number: a minus sign or a digit. *)
Definition number_first (c : ascii) : bool :=
  Ascii.eqb c "-" || JsonDecode.is_digit c.

(** A value reads back: the decoder, given enough fuel, finds the value at
    the head of its encoding and stops right after it. *)
Definition reads_back (v : pyval) : Prop :=
  forall indent level fuel rest,
    (size v <= fuel)%nat ->
    delimited rest = true ->
    JsonDecode.scan_once fuel (Json.encode indent level v ++ rest) = Some (v, rest).

(** One entry of a dict, as the encoder writes it. *)
Definition encode_item (indent : option nat) (level : nat) (kv : string * pyval) : string :=
  Json.encode_string (fst kv) ++ ": " ++ Json.encode indent level (snd kv).

(** A date and time of day with a year of four digits. *)
Definition valid_datetime (t : datetime) : Prop :=
  (1000 <= year t <= 9999 /\ 1 <= month t <= 12 /\ 1 <= day t <= 31
   /\ 0 <= hour t <= 23 /\ 0 <= minute t <= 59 /\ 0 <= second t <= 59)%Z.

Fixpoint all_digits (s : string) : bool :=
  match s with
  | EmptyString => true
  | String c r => JsonDecode.is_digit c && all_digits r
  end.

(** The pattern [YYYYMMDD_HHMMSS]: eight digits, an underscore, six digits. *)
Definition stamp_shape (stamp : string) : bool :=
  (String.length stamp =? 15)%nat
  && all_digits (substring 0 8 stamp)
  && String.eqb (substring 8 1 stamp) "_"
  && all_digits (substring 9 6 stamp).

(** The document [save_content_calendar] writes. *)
Definition persisted_run (industry target_audience content_goals timestamp : string)
  (content_calendar : pyval) : pyval :=
  PDict [("industry", PStr industry); ("target_audience", PStr target_audience);
         ("content_goals", PStr content_goals); ("timestamp", PStr timestamp);
         ("content_calendar", content_calendar)].

Definition two_digit_form (s : string) : bool :=
  match s with
  | String a (String b EmptyString) => JsonDecode.is_digit a && JsonDecode.is_digit b
  | _ => false
  end.

Definition four_digit_form (s : string) : bool :=
  match s with
  | String a (String b (String c (String d EmptyString))) =>
      JsonDecode.is_digit a && JsonDecode.is_digit b
      && JsonDecode.is_digit c && JsonDecode.is_digit d
  | _ => false
  end.

(** [f] holds of the [n] integers from [start] on. *)
Fixpoint forall_from (f : Z -> bool) (start : Z) (n : nat) : bool :=
  match n with
  | O => true
  | S k => f start && forall_from f (start + 1)%Z k
  end.

(** The [n]-th call of the search backend raises, whatever is asked. *)
Definition search_fails_at (E : env) (n : nat) : Prop :=
  forall params, exists e, serpapi_get_dict E n params = Raise e.

(** The four searches made for one topic, from call [n] on, all raise. *)
Definition four_searches_fail (E : env) (n : nat) : Prop :=
  search_fails_at E n /\ search_fails_at E (S n)
  /\ search_fails_at E (S (S n)) /\ search_fails_at E (S (S (S n))).

(** A search backend that fails on its fifth to eighth call, the searches of
    the second topic of a run, and answers the others. *)
Definition second_topic_fails (n : nat) : result pyval :=
  if ((4 <=? n) && (n <? 8))%nat then Py.raise ValueError "Invalid API key"
  else numbered_results n.

(** The backends answer with JSON values: what [response.json()] and
    [get_dict()] return was read by [json.loads]. *)
Definition env_json (E : env) : Prop :=
  (forall n api_url headers data resp answer,
     http_post E n api_url headers data = Ok resp ->
     json resp = Ok answer -> json_value answer = true)
  /\ (forall n params v, serpapi_get_dict E n params = Ok v -> json_value v = true).

(** A text that does not go on with a digit. *)
Definition not_digit_start (rest : string) : bool :=
  match rest with
  | EmptyString => true
  | String c _ => negb (JsonDecode.is_digit c)
  end.

(** [result] is what some run returned, the backends answering with JSON
    values. *)
Definition run_result (E : env) (result : pyval) : Prop :=
  env_json E
  /\ exists industry target_audience content_goals s,
       fst (create_content_calendar E industry target_audience content_goals s) = Ok result.

(* ===================================================================== *)
(** * The parts of [app.py] around the pipeline *)
(* ===================================================================== *)

(** [bool(v)]: the truth value of a value.  The two floats that are zero
    print as [0.0] and [-0.0]. *)
Definition truthy (v : pyval) : bool :=
  match v with
  | PNone => false
  | PBool b => b
  | PInt z => negb (z =? 0)%Z
  | PFloat r => negb (String.eqb r "0.0" || String.eqb r "-0.0")
  | PStr s => negb (String.eqb s "")
  | PList l => match l with [] => false | _ => true end
  | PDict d => match d with [] => false | _ => true end
  end.

(** The check made when the module is loaded (lines 22-26): [os.getenv]
    gives [None] for a variable that is not set. *)
Definition required_env_vars : list string :=
  ["OPENROUTER_API_KEY"; "SITE_URL"; "SITE_NAME"; "SERPAPI_KEY"].

Definition missing_vars (E : env) : list string :=
  filter (fun var => negb (truthy (getenv E var))) required_env_vars.

Definition check_environment (E : env) : result unit :=
  match missing_vars E with
  | [] => Ok tt
  | _ =>
      Py.raise ValueError
        ("Missing required environment variables: " ++ PyRepr.commas (missing_vars E)
         ++ ". Please check your .env file.")
  end.

(** The topic list of the Resources tab of [main] (lines 502-510), from the
    strategy of the result. *)
Definition display_topics (strategy : pyval) : result (list string) :=
  (lines <- Py.split strategy PyStr.newline ;;
   Ok (display_topics_loop lines []))%result.

(** The form submitted, up to the save (lines 392-419 of [main]): the
    check of the three fields, the run, and the save of a result without
    [error].  The progress widgets and the thread that shows the time
    elapsed only display; they are left out.  The result is [None] when the
    form is refused, and else the result of the run with the name of the
    file it was saved to, if it was saved. *)
Definition submit (E : env) (industry target_audience content_goals : string)
  : M (option (pyval * option string)) :=
  if String.eqb industry "" || String.eqb target_audience ""
     || String.eqb content_goals ""
  then st_error "Please fill out all fields" ;;; ret None
  else
    start_time <- now E ;;
    result <- create_content_calendar E industry target_audience content_goals ;;
    has_error <- lift (Py.contains "error" result) ;;
    if has_error : bool then ret (Some (result, None))
    else
      filename <- save_content_calendar E industry target_audience content_goals
                    result ;;
      ret (Some (result, Some filename)).

(* ===================================================================== *)
(** * Readings used in the further statements *)
(* ===================================================================== *)

(** A day line with its colon: the lines the loop of lines 502-510 keeps. *)
Definition shown_line (line : string) : bool :=
  is_day_line line && PyStr.contains ":" line.

(** A topic as the extraction leaves it: trimmed, and free of the three
    characters the line was cut at. *)
Definition clean_topic (t : string) : Prop :=
  PyStr.strip t = t
  /\ PyStr.contains ":" t = false
  /\ PyStr.contains "-" t = false
  /\ PyStr.contains PyStr.newline t = false.

(** What [search_web] gets from the backend and reads from its answer,
    before the [except] clause. *)
Definition search_answer (E : env) (query search_type : string) (s : state)
  : result pyval :=
  (results <- serpapi_get_dict E (searches s) (search_params E query search_type) ;;
   Py.get results (results_key search_type) (PList []))%result.

(** The state after one more search, [log] shown with [st.error]. *)
Definition after_search (s : state) (log : list string) : state :=
  mkState (posts s) (gets s) (S (searches s)) (clock_reads s) (sessions_open s)
          (slept s) (st_errors s ++ log)%list (stdout s) (files s).

(** What [search_pixabay] gets from the backend and reads from its answer,
    before the [except] clause. *)
Definition pixabay_answer (E : env) (query : string) (count : Z) (s : state)
  : result pyval :=
  (response <- http_get E (gets s) pixabay_url (pixabay_params query count) ;;
   _ <- raise_for_status response ;;
   hits <- json response ;;
   Py.get hits "hits" (PList []))%result.

(** The state after one more [session.get], the session closed again, and
    [out] printed. *)
Definition after_get (s : state) (out : list string) : state :=
  mkState (posts s) (S (gets s)) (searches s) (clock_reads s) (sessions_open s)
          (slept s) (st_errors s) (stdout s ++ out)%list (files s).

(** The status of a response is an error status. *)
Definition error_status (resp : response) : bool :=
  ((400 <=? status_code resp) && (status_code resp <? 600))%Z.

(** The text [raise_for_status] gives for an error status. *)
Definition status_message (resp : response) : string :=
  PyRepr.str_int (status_code resp)
  ++ (if (status_code resp <? 500)%Z then " Client Error: " else " Server Error: ")
  ++ reason resp ++ " for url: " ++ url resp.

(** The parts of the state that neither a search nor a pause touches. *)
Definition quiet (s s' : state) : Prop :=
  posts s' = posts s /\ gets s' = gets s /\ clock_reads s' = clock_reads s
  /\ sessions_open s' = sessions_open s /\ stdout s' = stdout s /\ files s' = files s.

(** The state of a run when the three generation calls are done: three more
    POSTs, one reading of the clock, three seconds slept. *)
Definition after_generation (s : state) : state :=
  mkState (3 + posts s) (gets s) (searches s) (S (clock_reads s)) (sessions_open s)
          (slept s + 1 + 1 + 1) (st_errors s) (stdout s) (files s).

(** The state of a run that stopped at its generation call number [k]
    (counted from 0): [k + 1] POSTs, one reading of the clock, the [k]
    pauses that followed the calls answered. *)
Definition stopped_at (s : state) (k : nat) : state :=
  mkState (S k + posts s) (gets s) (searches s) (S (clock_reads s)) (sessions_open s)
          (slept s + Z.of_nat k) (st_errors s) (stdout s) (files s).

(** The state in which a run started in [s] makes its generation call
    number [k] (counted from 0): the clock read once, [k] POSTs made and
    [k] seconds slept. *)
Definition before_call (s : state) (k : nat) : state :=
  mkState (k + posts s) (gets s) (searches s) (S (clock_reads s)) (sessions_open s)
          (slept s + Z.of_nat k) (st_errors s) (stdout s) (files s).

(** What the backend makes of the prompt of that call, before any [except]
    clause: the completion, or the exception raised in the [try] block of
    [generate_content]. *)
Definition generation_call (E : env) (s : state) (k : nat) (prompt : string)
  : result pyval :=
  generate_content_body E prompt default_temperature (before_call s k).


(** The number a text of decimal digits stands for. *)
Fixpoint digits_value (acc : Z) (s : string) : Z :=
  match s with
  | EmptyString => acc
  | String c r => digits_value (10 * acc + Z.of_nat (nat_of_ascii c) - 48) r
  end.

(** Two times that agree down to the second. *)
Definition same_second (t1 t2 : datetime) : Prop :=
  year t1 = year t2 /\ month t1 = month t2 /\ day t1 = day t2
  /\ hour t1 = hour t2 /\ minute t1 = minute t2 /\ second t1 = second t2.

(** The name [save_content_calendar] gives the file of a save made at [t]. *)
Definition calendar_file (t : datetime) : string :=
  "content_calendar_" ++ Datetime.strftime_stamp t ++ ".json".

(** One record of a bundle, as made from a search result that is an object:
    each field read with [get] and the default [""]. *)
Definition entry_of (fields : list (string * string)) (item : pyval) : pyval :=
  match item with
  | PDict d =>
      PDict (map (fun f => (fst f,
                            match Py.dict_get d (snd f) with
                            | Some x => x
                            | None => PStr ""
                            end)) fields)
  | _ => PNone
  end.

(** The fields of the records of each list of a bundle: the key written and
    the key read (lines 238-242, 247-251, 256-260, 265-269). *)
Definition research_fields : list (string * string) :=
  [("title", "title"); ("link", "link"); ("snippet", "snippet")].
Definition video_fields : list (string * string) :=
  [("title", "title"); ("link", "link"); ("thumbnail", "thumbnail")].
Definition tool_fields : list (string * string) :=
  [("name", "title"); ("link", "link"); ("description", "snippet")].

(* ===================================================================== *)
(** * The calendar side of [app.py] *)
(* ===================================================================== *)

(** [get_google_calendar_service], [create_calendar_event] and the block
    of [main] under the button [Create Calendar Events] (lines 442-492),
    with what they use of [str], [int] and [datetime].  The block is
    embedded as code: [main] reaches it only in a run of the script in which
    both the form was submitted and the button is true (the button is
    created inside the branch of [submit_button], line 392), and nothing
    here says when [streamlit] makes that so.

    Conventions.
    - The Google libraries are an environment ([Calendar.google]): each call
      into them gives a value or an exception.
    - [os.path.exists], [os.remove] and the functions of [streamlit] do not
      raise.  What [streamlit] shows is kept as a list of messages.
    - A service object is true, credentials are true, and [pickle.load]
      gives back what [pickle.dump] wrote. *)

(** The calendar code meets exceptions of classes the pipeline does not
    (for one, [OverflowError]), and handles them all alike, with [except
    Exception] and [str(e)].  Its outcomes name the class of an exception
    as text. *)
Inductive outcome (A : Type) : Type :=
| Done (a : A)
| Failed (class_name msg : string).
Arguments Done {A} a.
Arguments Failed {A} class_name msg.

Definition class_name (c : pyclass) : string :=
  match c with
  | Exception => "Exception" | LookupError => "LookupError"
  | IndexError => "IndexError" | KeyError => "KeyError" | TypeError => "TypeError"
  | AttributeError => "AttributeError" | ValueError => "ValueError"
  | OSError => "OSError" | RequestException => "RequestException"
  | HTTPError => "HTTPError" | ConnectionError => "ConnectionError"
  | SSLError => "SSLError" | Timeout => "Timeout"
  | ConnectTimeout => "ConnectTimeout" | ReadTimeout => "ReadTimeout"
  | TooManyRedirects => "TooManyRedirects" | RetryError => "RetryError"
  | InvalidJSONError => "InvalidJSONError" | JSONDecodeError => "JSONDecodeError"
  end.

Definition of_result {A} (r : result A) : outcome A :=
  match r with
  | Ok a => Done a
  | Raise e => Failed (class_name (exn_class e)) (exn_msg e)
  end.

(** ** [str.split()] and [int(str)] *)

(** [s.split()]: the runs of characters that are not white space. *)
Fixpoint whitespace_split (s : string) : list string :=
  match s with
  | EmptyString => []
  | String c r =>
      if PyStr.isspace c then whitespace_split r
      else match r with
           | EmptyString => [String c EmptyString]
           | String d _ =>
               if PyStr.isspace d then String c EmptyString :: whitespace_split r
               else match whitespace_split r with
                    | h :: t => String c h :: t
                    | [] => [String c EmptyString]
                    end
           end
  end.

Module PyInt.

(** The white space [int] passes over at both ends of its argument. *)
Definition is_space (c : ascii) : bool :=
  let n := nat_of_ascii c in
  (((9 <=? n) && (n <=? 13)) || (n =? 32) || (n =? 133) || (n =? 160))%nat.

Fixpoint skip_spaces (s : string) : string :=
  match s with
  | EmptyString => EmptyString
  | String c r => if is_space c then skip_spaces r else s
  end.

(** The digits of a literal: a digit, then digits, each of which one
    underscore may precede.  The result is the digits found and the text
    left; [None] when an underscore is out of place or no digit comes
    first. *)
Fixpoint scan_digits (s : string) (after_digit : bool) : option (string * string) :=
  match s with
  | EmptyString => if after_digit then Some (EmptyString, EmptyString) else None
  | String c r =>
      if JsonDecode.is_digit c then
        match scan_digits r true with
        | Some (ds, rest) => Some (String c ds, rest)
        | None => None
        end
      else if Ascii.eqb c "_" then
        (if after_digit
         then match r with
              | String d _ => if JsonDecode.is_digit d then scan_digits r false else None
              | EmptyString => None
              end
         else None)
      else if after_digit then Some (EmptyString, s) else None
  end.

(** The default limit on the digits of a decimal literal
    ([sys.get_int_max_str_digits()]). *)
Definition max_str_digits : nat := 4300.

Definition invalid_literal {A} (s : string) : result A :=
  Py.raise ValueError ("invalid literal for int() with base 10: " ++ PyRepr.repr_str s).

(** [int(s)] for a [str], in base 10. *)
Definition int_of_str (s : string) : result Z :=
  let t := skip_spaces s in
  let (negative, body) :=
    match t with
    | String "-" r => (true, r)
    | String "+" r => (false, r)
    | _ => (false, t)
    end in
  match scan_digits body false with
  | None => invalid_literal s
  | Some (ds, rest) =>
      if (max_str_digits <? String.length ds)%nat then
        Py.raise ValueError
          ("Exceeds the limit (4300 digits) for integer string conversion: value has "
           ++ PyRepr.str_int (Z.of_nat (String.length ds))
           ++ " digits; use sys.set_int_max_str_digits() to increase the limit")
      else
        match skip_spaces rest with
        | EmptyString =>
            let v := digits_value 0 ds in
            Ok (if negative then (- v)%Z else v)
        | _ => invalid_literal s
        end
  end.

End PyInt.

(** ** Dates: [datetime + timedelta] and [isoformat] *)

(** The arithmetic of the [datetime] module that the calendar events use,
    written after the module's reference implementation. *)
Module DatetimeArith.

Definition MAXORDINAL : Z := 3652059.
Definition DI400Y : Z := 146097.
Definition DI100Y : Z := 36524.
Definition DI4Y : Z := 1461.

Definition DAYS_IN_MONTH (m : Z) : Z :=
  nth (Z.to_nat (m - 1)) [31; 28; 31; 30; 31; 30; 31; 31; 30; 31; 30; 31]%Z 0%Z.

Definition DAYS_BEFORE_MONTH (m : Z) : Z :=
  nth (Z.to_nat (m - 1)) [0; 31; 59; 90; 120; 151; 181; 212; 243; 273; 304; 334]%Z 0%Z.

(** [_ord2ymd(n)]: the date with ordinal [n]. *)
Definition ord2ymd (n : Z) : Z * Z * Z :=
  (let n := n - 1 in
   let n400 := n / DI400Y in
   let n := n mod DI400Y in
   let year := n400 * 400 + 1 in
   let n100 := n / DI100Y in
   let n := n mod DI100Y in
   let n4 := n / DI4Y in
   let n := n mod DI4Y in
   let n1 := n / 365 in
   let n := n mod 365 in
   let year := year + n100 * 100 + n4 * 4 + n1 in
   if (n1 =? 4) || (n100 =? 4) then (year - 1, 12, 31)
   else
     let leapyear := (n1 =? 3) && (negb (n4 =? 24) || (n100 =? 3)) in
     let month := Z.shiftr (n + 50) 5 in
     let preceding :=
       DAYS_BEFORE_MONTH month + (if (2 <? month) && leapyear then 1 else 0) in
     if n <? preceding then
       let month := month - 1 in
       let preceding :=
         preceding
         - (DAYS_IN_MONTH month + (if (month =? 2) && leapyear then 1 else 0)) in
       (year, month, n - preceding + 1)
     else (year, month, n - preceding + 1))%Z.

(** A [timedelta], kept as its length in microseconds. *)
Definition timedelta : Type := Z.

Definition microseconds_per_day : Z := 86400000000.

(** [timedelta(days=days)]: the argument has to fit a C [int], and the
    days of the result must not exceed 999999999 in magnitude. *)
Definition timedelta_of_days (days : Z) : outcome timedelta :=
  if ((days <? -2147483648) || (2147483647 <? days))%Z
  then Failed "OverflowError" "Python int too large to convert to C int"
  else if (999999999 <? Z.abs days)%Z
  then Failed "OverflowError"
         ("days=" ++ PyRepr.str_int days ++ "; must have magnitude <= 999999999")
  else Done (days * microseconds_per_day)%Z.

(** [timedelta(hours=hours)]. *)
Definition timedelta_of_hours (hours : Z) : timedelta := (hours * 3600000000)%Z.

(** The [datetime] that lies the given number of microseconds after the
    start of year 1; [None] outside the years 1 to 9999. *)
Definition of_micros (us : Z) : option datetime :=
  let days := (us / microseconds_per_day)%Z in
  let rest := (us mod microseconds_per_day)%Z in
  if ((0 <? days) && (days <=? MAXORDINAL))%Z then
    let '(y, m, d) := ord2ymd days in
    let seconds := (rest / 1000000)%Z in
    Some (mkDatetime y m d (seconds / 3600) ((seconds mod 3600) / 60)
                     ((seconds mod 3600) mod 60) (rest mod 1000000))%Z
  else None.

(** [d + td]. *)
Definition add (d : datetime) (td : timedelta) : outcome datetime :=
  match of_micros (Datetime.to_micros d + td) with
  | Some r => Done r
  | None => Failed "OverflowError" "date value out of range"
  end.

(** [d.isoformat()] for a [datetime] without time zone. *)
Definition isoformat (d : datetime) : string :=
  Datetime.zero_pad 4 (year d) ++ "-" ++ Datetime.zero_pad 2 (month d) ++ "-"
  ++ Datetime.zero_pad 2 (day d) ++ "T" ++ Datetime.zero_pad 2 (hour d) ++ ":"
  ++ Datetime.zero_pad 2 (minute d) ++ ":" ++ Datetime.zero_pad 2 (second d)
  ++ (if (microsecond d =? 0)%Z then "" else "." ++ Datetime.zero_pad 6 (microsecond d)).

End DatetimeArith.

(** ** The fields of a day line (lines 464-467 of [main]) *)

(** [line.split('-')[i].strip() if len(line.split('-')) > i else default]. *)
Definition hyphen_piece (line : string) (i : nat) (default : string) : result string :=
  if (i <? List.length (PyStr.split "-" line))%nat
  then (piece <- Py.index (PyStr.split "-" line) i ;; Ok (PyStr.strip piece))%result
  else Ok default.

(** The day number, the topic, the content type and the rationale of a day
    line, as the loop that creates the events reads them. *)
Definition day_fields (line : string) : result (Z * string * string * string) :=
  (head <- Py.index (PyStr.split ":" line) 0 ;;
   token <- Py.index (whitespace_split head) 1 ;;
   day_num <- PyInt.int_of_str token ;;
   topic <- topic_of_line line ;;
   content_type <- hyphen_piece line 1 "Content" ;;
   rationale <- hyphen_piece line 2 "" ;;
   Ok (day_num, topic, content_type, rationale))%result.

(** A day line as the strategy prompt asks for it:
    [Day N: topic - type - rationale]. *)
Definition format_day_line (day_num : Z) (topic content_type rationale : string) : string :=
  "Day " ++ PyRepr.str_int day_num ++ ": " ++ topic ++ " - " ++ content_type
  ++ " - " ++ rationale.

(** A field of a day line that reads back: trimmed, and free of the
    characters the line is cut at. *)
Definition plain_field (t : string) : Prop :=
  PyStr.strip t = t /\ PyStr.contains ":" t = false /\ PyStr.contains "-" t = false.

(** ** The Google side: credentials, the token file, the calendar API *)

Module Calendar.

(** What the code reads of a [Credentials] object. *)
Record credentials : Type := mkCredentials {
  valid : bool;
  expired : bool;
  refresh_token : bool
}.

(** The [Resource] that [build] returns for given credentials. *)
Record service : Type := mkService { service_credentials : credentials }.

(** [token.pickle]: absent, or a file from which [pickle.load] gives
    credentials, a false value ([None]), or an exception (so does a value
    that is true and has no attribute [valid], one line later). *)
Inductive token_file : Type :=
| NoToken
| Token (content : outcome (option credentials)).

(** What the page shows.  The text of [st.success] is kept as the count it
    reports. *)
Inductive message : Type :=
| Error (text : string)
| Warning (text : string)
| Success (count : nat)
| Markdown (text : string).

(** The outside world of the calendar code during one call of
    [get_google_calendar_service], or one run of the block that calls it
    once: the OAuth endpoints, the discovery service and the test call
    (made once in it), the calendar API (which answers its [n]-th
    insertion) and the clock (read once, line 458).  Writing the token may
    fail half way and leave [partial_token]. *)
Record google : Type := mkGoogle {
  refresh : credentials -> outcome credentials;
  run_flow : nat -> outcome credentials;
  save_token : credentials -> outcome unit;
  partial_token : token_file;
  build : credentials -> outcome unit;
  calendar_list : service -> outcome unit;
  events_insert : nat -> service -> pyval -> outcome pyval;
  clock_now : datetime
}.

(** The state the calendar code touches: the two files, what was shown,
    and the number of insertions, authorisation flows and refreshes made. *)
Record desk : Type := mkDesk {
  token : token_file;
  credentials_json : bool;
  shown : list message;
  inserts : nat;
  flows : nat;
  refreshes : nat
}.

Definition C (A : Type) : Type := desk -> outcome A * desk.

Definition ret {A} (a : A) : C A := fun s => (Done a, s).

Definition bind {A B} (m : C A) (k : A -> C B) : C B :=
  fun s =>
    match m s with
    | (Done a, s') => k a s'
    | (Failed c msg, s') => (Failed c msg, s')
    end.

Definition lift {A} (r : outcome A) : C A := fun s => (r, s).

Declare Scope calendar_scope.
Delimit Scope calendar_scope with calendar.
Notation "x <- m ;; k" := (bind m (fun x => k))
  (at level 61, m at next level, right associativity) : calendar_scope.
Notation "m ;;; k" := (bind m (fun _ => k))
  (at level 61, right associativity) : calendar_scope.

Local Open Scope calendar_scope.

(** [try: body  except Exception as e: handler(str(e))]. *)
Definition try_except {A} (body : C A) (handler : string -> C A) : C A :=
  fun s =>
    match body s with
    | (Done a, s') => (Done a, s')
    | (Failed _ msg, s') => handler msg s'
    end.

Definition show (m : message) : C unit :=
  fun s => (Done tt,
            mkDesk (token s) (credentials_json s) (shown s ++ [m])%list
                   (inserts s) (flows s) (refreshes s)).

Definition st_error (text : string) : C unit := show (Error text).

(** [if os.path.exists('token.pickle'): os.remove('token.pickle')]. *)
Definition remove_token : C unit :=
  fun s => (Done tt,
            mkDesk NoToken (credentials_json s) (shown s) (inserts s) (flows s)
                   (refreshes s)).

(** Lines 35-38: the credentials of the token file, if there is one. *)
Definition load_token : C (option credentials) :=
  fun s =>
    match token s with
    | NoToken => (Done None, s)
    | Token content => (content, s)
    end.

(** [creds.refresh(Request())]. *)
Definition refresh_credentials (G : google) (creds : credentials) : C credentials :=
  fun s => (refresh G creds,
            mkDesk (token s) (credentials_json s) (shown s) (inserts s) (flows s)
                   (S (refreshes s))).

(** Lines 52-53: the authorisation flow in the browser. *)
Definition run_local_server (G : google) : C credentials :=
  fun s => (run_flow G (flows s),
            mkDesk (token s) (credentials_json s) (shown s) (inserts s) (S (flows s))
                   (refreshes s)).

(** Lines 56-57: the credentials written to the token file. *)
Definition dump_token (G : google) (creds : credentials) : C unit :=
  fun s =>
    match save_token G creds with
    | Done tt =>
        (Done tt,
         mkDesk (Token (Done (Some creds))) (credentials_json s) (shown s) (inserts s)
                (flows s) (refreshes s))
    | Failed c msg =>
        (Failed c msg,
         mkDesk (partial_token G) (credentials_json s) (shown s) (inserts s) (flows s)
                (refreshes s))
    end.

(** Lines 59-62: the service built and tried. *)
Definition connect (G : google) (creds : credentials) : C (option service) :=
  lift (build G creds) ;;;
  lift (calendar_list G (mkService creds)) ;;;
  ret (Some (mkService creds)).

(** Lines 44-57: the branch that asks the user again. *)
Definition authorise (G : google) : C (option service) :=
  fun s =>
    if credentials_json s then
      (remove_token ;;;
       creds <- run_local_server G ;;
       dump_token G creds ;;;
       connect G creds) s
    else
      (st_error
         "credentials.json file not found. Please make sure it's in the same directory as app.py" ;;;
       ret None) s.

(** [get_google_calendar_service()] (lines 32-67). *)
Definition get_google_calendar_service (G : google) : C (option service) :=
  try_except
    (creds <- load_token ;;
     match creds with
     | Some c =>
         if valid c then connect G c
         else if expired c && refresh_token c
         then (c' <- refresh_credentials G c ;; connect G c')
         else authorise G
     | None => authorise G
     end)
    (fun msg =>
       st_error ("Error setting up Google Calendar service: " ++ msg) ;;;
       remove_token ;;;
       ret None).

(** The event of lines 74-85. *)
Definition event_body (title description : string) (start_date end_date : datetime)
  : pyval :=
  PDict [("summary", PStr title);
         ("description", PStr description);
         ("start", PDict [("dateTime", PStr (DatetimeArith.isoformat start_date));
                          ("timeZone", PStr "UTC")]);
         ("end", PDict [("dateTime", PStr (DatetimeArith.isoformat end_date));
                        ("timeZone", PStr "UTC")])].

(** [service.events().insert(calendarId=CALENDAR_ID, body=event).execute()]. *)
Definition insert_event (G : google) (sv : service) (event : pyval) : C pyval :=
  fun s => (events_insert G (inserts s) sv event,
            mkDesk (token s) (credentials_json s) (shown s) (S (inserts s)) (flows s)
                   (refreshes s)).

(** [create_calendar_event(service, title, description, start_date)]
    (lines 69-92). *)
Definition create_calendar_event (G : google) (sv : option service)
  (title description : string) (start_date : datetime) : C pyval :=
  match sv with
  | None => ret PNone
  | Some sv =>
      end_date <- lift (DatetimeArith.add start_date (DatetimeArith.timedelta_of_hours 1)) ;;
      let event := event_body title description start_date end_date in
      try_except
        (event <- insert_event G sv event ;;
         lift (of_result (Py.get event "htmlLink" PNone)))
        (fun msg => st_error ("Error creating calendar event: " ++ msg) ;;; ret PNone)
  end.

(** Lines 464-476: one day line turned into an event; the result is the
    line added to the list of links, if the event has a link. *)
Definition process_day (G : google) (sv : service) (start_date : datetime)
  (line : string) : C (option string) :=
  fields <- lift (of_result (day_fields line)) ;;
  let '(day_num, topic, content_type, rationale) := fields in
  delta <- lift (DatetimeArith.timedelta_of_days (day_num - 1)) ;;
  event_date <- lift (DatetimeArith.add start_date delta) ;;
  let event_title := (topic ++ " - " ++ content_type)%string in
  let event_description :=
    ("Content Type: " ++ content_type ++ "
Rationale: " ++ rationale)%string in
  event_link <- create_calendar_event G (Some sv) event_title event_description
                  event_date ;;
  if truthy event_link
  then ret (Some ("Day " ++ PyRepr.str_int day_num ++ ": [" ++ event_title ++ "]("
                  ++ PyRepr.str event_link ++ ")")%string)
  else ret None.

(** The loop of lines 461-479. *)
Fixpoint events_loop (G : google) (sv : service) (start_date : datetime)
  (lines : list string) (calendar_links : list string) (success_count : nat)
  : C (list string * nat) :=
  match lines with
  | [] => ret (calendar_links, success_count)
  | line :: rest =>
      if PyStr.startswith line "Day" then
        fun s =>
          match process_day G sv start_date line s with
          | (Done (Some link), s') =>
              events_loop G sv start_date rest (calendar_links ++ [link])%list
                (S success_count) s'
          | (Done None, s') =>
              events_loop G sv start_date rest calendar_links success_count s'
          | (Failed _ msg, s') =>
              (show (Warning ("Error processing day " ++ line ++ ": " ++ msg)) ;;;
               events_loop G sv start_date rest calendar_links success_count) s'
          end
      else events_loop G sv start_date rest calendar_links success_count
  end.

Fixpoint show_all (ms : list message) : C unit :=
  match ms with
  | [] => ret tt
  | m :: rest => show m ;;; show_all rest
  end.

(** The block under [if st.button("Create Calendar Events", ...)] (lines
    442-492 of [main]), for the strategy of the result on the page. *)
Definition create_calendar_events (G : google) (strategy : pyval) : C unit :=
  try_except
    (fun s =>
       if credentials_json s then
         (remove_token ;;;
          sv <- get_google_calendar_service G ;;
          match sv with
          | None =>
              st_error "Failed to initialize Google Calendar service. Please try again."
          | Some sv =>
              let start_date := clock_now G in
              lines <- lift (of_result (Py.split strategy PyStr.newline)) ;;
              done <- events_loop G sv start_date lines [] 0 ;;
              let '(calendar_links, success_count) := done in
              if (0 <? success_count)%nat then
                show (Success success_count) ;;;
                show (Markdown "### Created Events:") ;;;
                show_all (map Markdown calendar_links)
              else
                st_error
                  "Failed to create any calendar events. Please check your Google Calendar permissions."
          end) s
       else
         st_error
           "credentials.json file not found. Please make sure it's in the same directory as app.py"
           s)
    (fun msg =>
       st_error ("Error creating calendar events: " ++ msg) ;;;
       remove_token).

End Calendar.

(** ** Readings used in the statements about the calendar side *)

(** The year at offset [k] from year 1, within the first 400 years: the
    days before it, and whether it is a leap year, from the place of the
    year in its century and in its group of four. *)
Definition year_ok (k : Z) : bool :=
  ((Datetime.days_before_year (k + 1)
    =? 36524 * (k / 100) + 1461 * (k mod 100 / 4) + 365 * (k mod 4))
   && Bool.eqb (Datetime.is_leap (k + 1))
        ((k mod 4 =? 3) && (negb (k mod 100 / 4 =? 24) || (k / 100 =? 3))))%Z.

(** The month and the day [ord2ymd] finds for the day at offset [n] of a
    year. *)
Definition month_of_offset (leapyear : bool) (n : Z) : Z * Z :=
  (let month := Z.shiftr (n + 50) 5 in
   let preceding :=
     DatetimeArith.DAYS_BEFORE_MONTH month + (if (2 <? month) && leapyear then 1 else 0) in
   if n <? preceding then
     let month := month - 1 in
     let preceding :=
       preceding
       - (DatetimeArith.DAYS_IN_MONTH month + (if (month =? 2) && leapyear then 1 else 0)) in
     (month, n - preceding + 1)
   else (month, n - preceding + 1))%Z.

(** That month and day are in range and have the offset [n] in a year like
    the given one. *)
Definition offset_ok (leapyear : bool) (n : Z) : bool :=
  let '(m, d) := month_of_offset leapyear n in
  ((Datetime.days_before_month (if leapyear then 4 else 1) m + d =? n + 1)
   && (1 <=? m) && (m <=? 12) && (1 <=? d) && (d <=? 31))%Z.

(** The fields of a [datetime] are in range. *)
Definition in_range (t : datetime) : Prop :=
  (1 <= year t <= 9999 /\ 1 <= month t <= 12 /\ 1 <= day t <= 31
   /\ 0 <= hour t <= 23 /\ 0 <= minute t <= 59 /\ 0 <= second t <= 59
   /\ 0 <= microsecond t <= 999999)%Z.

(** No character of [s] is white space. *)
Fixpoint no_space (s : string) : bool :=
  match s with
  | EmptyString => true
  | String c r => negb (PyStr.isspace c) && no_space r
  end.

(** The warnings and the error messages among what is shown. *)
Fixpoint count_warnings (ms : list Calendar.message) : nat :=
  match ms with
  | [] => 0
  | Calendar.Warning _ :: rest => S (count_warnings rest)
  | _ :: rest => count_warnings rest
  end.

Fixpoint count_errors (ms : list Calendar.message) : nat :=
  match ms with
  | [] => 0
  | Calendar.Error _ :: rest => S (count_errors rest)
  | _ :: rest => count_errors rest
  end.

(** The description of the event of a day line (line 471). *)
Definition event_description (content_type rationale : string) : string :=
  "Content Type: " ++ content_type ++ "
Rationale: " ++ rationale.

(** The entry of the list of links of an event (line 475). *)
Definition link_line (day_num : Z) (event_title : string) (event_link : pyval) : string :=
  "Day " ++ PyRepr.str_int day_num ++ ": [" ++ event_title ++ "]("
  ++ PyRepr.str event_link ++ ")".

(** A calendar service that accepts whatever credentials it is given and
    answers every insertion with a link numbered after the insertion. *)
Definition sample_google : Calendar.google :=
  {| Calendar.refresh := fun c => Done c;
     Calendar.run_flow := fun _ => Done (Calendar.mkCredentials true false true);
     Calendar.save_token := fun _ => Done tt;
     Calendar.partial_token := Calendar.NoToken;
     Calendar.build := fun _ => Done tt;
     Calendar.calendar_list := fun _ => Done tt;
     Calendar.events_insert :=
       fun n _ _ =>
         Done (PDict [("id", PInt (Z.of_nat n));
                      ("htmlLink",
                       PStr ("https://calendar.example/event/"
                             ++ PyRepr.str_int (Z.of_nat n)))]);
     Calendar.clock_now := mkDatetime 2024 2 27 9 30 0 0 |}.

(** The desk of a user who has [credentials.json] and an old token. *)
Definition sample_desk : Calendar.desk :=
  Calendar.mkDesk
    (Calendar.Token (Done (Some (Calendar.mkCredentials true false true))))
    true [] 0 0 0.

(** The counts that the messages of success report. *)
Fixpoint reported (ms : list Calendar.message) : list nat :=
  match ms with
  | [] => []
  | Calendar.Success n :: rest => n :: reported rest
  | _ :: rest => reported rest
  end.

(** The lines of a strategy ([[]] when it is not a text). *)
Definition strategy_lines (strategy : pyval) : list string :=
  match strategy with
  | PStr text => PyStr.split PyStr.newline text
  | _ => []
  end.

(* ===================================================================== *)
(** * Facts about [str.split] *)
(* ===================================================================== *)

Section SplitFacts.

Variable sep : ascii.

Lemma split_not_nil (s : string) : PyStr.split sep s <> [].
Proof.
  destruct s as [|c r]; simpl; [discriminate|].
  destruct (Ascii.eqb c sep); [discriminate|].
  destruct (PyStr.split sep r); discriminate.
Qed.

(** The first piece is the text before the first separator. *)
Lemma split_head (s : string) :
  exists tl, PyStr.split sep s = PyStr.before_first sep s :: tl.
Proof.
  induction s as [|c r IH]; simpl.
  - now exists [].
  - destruct (Ascii.eqb c sep).
    + now exists (PyStr.split sep r).
    + destruct IH as [tl ->]. now exists tl.
Qed.

(** After the first separator, the pieces are those of the rest. *)
Lemma split_tail (s : string) :
  PyStr.contains sep s = true ->
  PyStr.split sep s = PyStr.before_first sep s :: PyStr.split sep (PyStr.after_first sep s).
Proof.
  induction s as [|c r IH]; simpl; [discriminate|].
  destruct (Ascii.eqb c sep); simpl; [reflexivity|].
  intros H. rewrite (IH H). reflexivity.
Qed.

Lemma split_without_sep (s : string) :
  PyStr.contains sep s = false -> PyStr.split sep s = [s].
Proof.
  induction s as [|c r IH]; simpl; [reflexivity|].
  destruct (Ascii.eqb c sep); simpl; [discriminate|].
  intros H. rewrite (IH H). reflexivity.
Qed.

Lemma before_first_without_sep (s : string) :
  PyStr.contains sep s = false -> PyStr.before_first sep s = s.
Proof.
  induction s as [|c r IH]; simpl; [reflexivity|].
  destruct (Ascii.eqb c sep); simpl; [discriminate|].
  intros H. now rewrite (IH H).
Qed.

Lemma contains_before_first (c : ascii) (s : string) :
  PyStr.contains c s = false -> PyStr.contains c (PyStr.before_first sep s) = false.
Proof.
  induction s as [|d r IH]; simpl; [reflexivity|].
  intros H. apply orb_false_iff in H as [Hd Hr].
  destruct (Ascii.eqb d sep); simpl; [reflexivity|].
  now rewrite Hd, (IH Hr).
Qed.

Lemma contains_after_first (c : ascii) (s : string) :
  PyStr.contains c s = false -> PyStr.contains c (PyStr.after_first sep s) = false.
Proof.
  induction s as [|d r IH]; simpl; [reflexivity|].
  intros H. apply orb_false_iff in H as [Hd Hr].
  destruct (Ascii.eqb d sep); auto.
Qed.

Lemma split_cons_piece (p rest : string) :
  PyStr.contains sep p = false ->
  PyStr.split sep (p ++ String sep rest) = p :: PyStr.split sep rest.
Proof.
  induction p as [|c r IH]; simpl.
  - now rewrite Ascii.eqb_refl.
  - destruct (Ascii.eqb c sep); simpl; [discriminate|].
    intros H. now rewrite (IH H).
Qed.

(** Splitting what [join] made gives the pieces back, as long as no piece
    holds the separator. *)
Lemma split_join (parts : list string) :
  parts <> [] ->
  Forall (fun p => PyStr.contains sep p = false) parts ->
  PyStr.split sep (PyStr.join sep parts) = parts.
Proof.
  induction parts as [|p rest IH]; [congruence|].
  intros _ Hall. inversion Hall as [|? ? Hp Hrest]; subst.
  destruct rest as [|q rest'].
  - simpl. now apply split_without_sep.
  - change (PyStr.join sep (p :: q :: rest'))
      with (p ++ String sep (PyStr.join sep (q :: rest'))).
    rewrite (split_cons_piece _ _ Hp), IH; [reflexivity|discriminate|assumption].
Qed.

End SplitFacts.

(* ===================================================================== *)
(** * The topic extractor *)
(* ===================================================================== *)

Lemma topic_of_line_with_colon (line : string) :
  PyStr.contains ":" line = true -> topic_of_line line = Ok (topic_text line).
Proof.
  intros H. unfold topic_of_line, topic_text.
  rewrite (split_tail ":" line H).
  destruct (split_head ":" (PyStr.after_first ":" line)) as [tl ->].
  cbn [Py.index nth_error rbind].
  destruct (split_head "-" (PyStr.before_first ":" (PyStr.after_first ":" line))) as [tl' ->].
  reflexivity.
Qed.

Lemma topic_of_line_without_colon (line : string) :
  PyStr.contains ":" line = false ->
  topic_of_line line = Raise (mkExn IndexError "list index out of range").
Proof.
  intros H. unfold topic_of_line. now rewrite (split_without_sep ":" line H).
Qed.

(** Without a hyphen the topic is everything after the colon (up to a second
    colon). *)
Lemma topic_text_without_hyphen (line : string) :
  PyStr.contains "-" line = false ->
  topic_text line = PyStr.strip (PyStr.before_first ":" (PyStr.after_first ":" line)).
Proof.
  intros H. unfold topic_text. f_equal.
  apply before_first_without_sep, contains_before_first, contains_after_first, H.
Qed.

Lemma extract_loop_spec (lines topics : list string) :
  (forall line, In line lines -> is_day_line line = true -> PyStr.contains ":" line = true) ->
  extract_loop lines topics
  = Ok (topics ++ map topic_text (filter is_day_line lines))%list.
Proof.
  revert topics. induction lines as [|line rest IH]; intros topics Hcolon; simpl.
  - now rewrite app_nil_r.
  - fold (is_day_line line). destruct (is_day_line line) eqn:Hday.
    + rewrite topic_of_line_with_colon by (apply Hcolon; simpl; auto).
      cbn [rbind]. rewrite IH by (intros; apply Hcolon; simpl; auto).
      simpl. now rewrite <- app_assoc.
    + apply IH. intros; apply Hcolon; simpl; auto.
Qed.

(** The loop stops with [IndexError] at the first day line without a colon. *)
Lemma extract_loop_missing_colon (lines topics : list string) :
  (exists line, In line lines /\ is_day_line line = true /\ PyStr.contains ":" line = false) ->
  extract_loop lines topics = Raise (mkExn IndexError "list index out of range").
Proof.
  revert topics. induction lines as [|line rest IH]; intros topics [bad [Hin [Hday Hno]]].
  - destruct Hin.
  - simpl. fold (is_day_line line). destruct (is_day_line line) eqn:Hd.
    + destruct (PyStr.contains ":" line) eqn:Hc.
      * rewrite (topic_of_line_with_colon _ Hc). cbn [rbind].
        apply IH. destruct Hin as [->|Hin]; [congruence|]. now exists bad.
      * now rewrite (topic_of_line_without_colon _ Hc).
    + apply IH. destruct Hin as [->|Hin]; [congruence|]. now exists bad.
Qed.

(** C1 (as amended). For every strategy text whose lines starting with
    [Day] all hold a colon, the topic extractor does not raise and returns
    one topic for each of those lines, in order: the trimmed text between the
    first colon and the next colon or hyphen.  A line without a hyphen is not
    skipped: its topic is the whole trimmed text after the colon. *)
Theorem extract_topics_one_per_day_line (strategy : string) :
  (forall line, In line (PyStr.split PyStr.newline strategy) ->
                is_day_line line = true -> PyStr.contains ":" line = true) ->
  extract_topics (PStr strategy)
  = Ok (map topic_text (filter is_day_line (PyStr.split PyStr.newline strategy)))
  /\ (forall line, PyStr.contains "-" line = false ->
        topic_text line
        = PyStr.strip (PyStr.before_first ":" (PyStr.after_first ":" line))).
Proof.
  intros H. split.
  - unfold extract_topics. cbn [Py.split rbind]. now rewrite extract_loop_spec.
  - apply topic_text_without_hyphen.
Qed.

Lemma extract_topics_one_per_day_line_witness :
  extract_topics (PStr "Plan
Day 1: Morning stretches - Educational - easy start
Day 2: Meal prep")
  = Ok ["Morning stretches"; "Meal prep"].
Proof.
  refine (proj1 (extract_topics_one_per_day_line _ _)).
  intros line Hin Hday. vm_compute in Hin.
  repeat (destruct Hin as [<-|Hin]; [first [reflexivity | discriminate Hday]|]).
  destruct Hin.
Defined.

(** C1, as stated, fails: a day line without a hyphen is not skipped. *)
Lemma extract_topics_keeps_line_without_hyphen :
  let strategy := PStr "Day 1: Morning stretches - Educational - easy start
Day 2: Meal prep" in
  extract_topics strategy = Ok ["Morning stretches"; "Meal prep"]
  /\ extract_topics strategy <> Ok ["Morning stretches"].
Proof. split; [reflexivity | discriminate]. Qed.

(** The day line without a colon: the expression of line 324 raises, where
    the same expression in [main] (lines 502-510) is guarded and skips the
    line. *)
Lemma extract_topics_missing_colon :
  let lines := ["Day 1: Morning stretches - Educational - easy start"; "Day 2 Meal prep"] in
  extract_topics (PStr (PyStr.join PyStr.newline lines))
  = Raise (mkExn IndexError "list index out of range")
  /\ display_topics_loop lines [] = ["Morning stretches"].
Proof. split; reflexivity. Qed.

Lemma filter_all {A} (f : A -> bool) (l : list A) :
  Forall (fun x => f x = true) l -> filter f l = l.
Proof.
  induction 1 as [|x l Hx _ IH]; simpl; [reflexivity|]. now rewrite Hx, IH.
Qed.

Lemma day_line_parts (line : string) :
  day_line line = true ->
  is_day_line line = true /\ PyStr.contains ":" line = true
  /\ PyStr.contains PyStr.newline line = false.
Proof.
  unfold day_line, is_day_line. intros H.
  apply andb_true_iff in H as [H Hn]. apply andb_true_iff in H as [Hd Hc].
  apply negb_true_iff in Hn. auto.
Qed.

(** C5 (as amended). For a strategy text made of well-formed day lines with,
    among them, a day line that has its colon but no hyphen, the topic
    extractor does not raise and returns the topics of all the lines in their
    order: the line without a hyphen is not left out, it gives the whole
    trimmed text after its colon. *)
Theorem extract_topics_line_without_hyphen (before after : list string) (bad : string) :
  Forall (fun l => well_formed_day_line l = true) before ->
  Forall (fun l => well_formed_day_line l = true) after ->
  day_line_without_hyphen bad = true ->
  extract_topics (PStr (PyStr.join PyStr.newline (before ++ bad :: after)%list))
  = Ok (map topic_text before
        ++ PyStr.strip (PyStr.before_first ":" (PyStr.after_first ":" bad))
        :: map topic_text after)%list.
Proof.
  intros Hb Ha Hbad.
  apply andb_true_iff in Hbad as [Hday Hno]. apply negb_true_iff in Hno.
  assert (Hall : Forall (fun l => day_line l = true) (before ++ bad :: after)%list).
  { apply Forall_app; split; [|constructor; [assumption|]].
    - eapply Forall_impl; [|exact Hb]. intros l H. now apply andb_true_iff in H as [H _].
    - eapply Forall_impl; [|exact Ha]. intros l H. now apply andb_true_iff in H as [H _]. }
  unfold extract_topics. cbn [Py.split rbind].
  rewrite split_join.
  - rewrite extract_loop_spec.
    + rewrite filter_all.
      * rewrite map_app. simpl. now rewrite (topic_text_without_hyphen _ Hno).
      * eapply Forall_impl; [|exact Hall]. intros l H. apply (day_line_parts _ H).
    + intros line Hin _. rewrite Forall_forall in Hall.
      apply (day_line_parts _ (Hall _ Hin)).
  - now destruct before.
  - eapply Forall_impl; [|exact Hall]. intros l H. apply (day_line_parts _ H).
Qed.

Lemma extract_topics_line_without_hyphen_witness :
  extract_topics (PStr "Day 1: Home workouts - Educational - low barrier
Day 2: Protein myths
Day 3: Desk mobility - Video - quick win")
  = Ok ["Home workouts"; "Protein myths"; "Desk mobility"].
Proof.
  apply (extract_topics_line_without_hyphen
           ["Day 1: Home workouts - Educational - low barrier"]
           ["Day 3: Desk mobility - Video - quick win"]
           "Day 2: Protein myths").
  - constructor; [reflexivity | constructor].
  - constructor; [reflexivity | constructor].
  - reflexivity.
Defined.

(** C5, as stated, fails: the line without a hyphen contributes a topic. *)
Lemma extract_topics_interleaved_counterexample :
  let strategy := PStr "Day 1: Home workouts - Educational - low barrier
Day 2: Protein myths
Day 3: Desk mobility - Video - quick win" in
  extract_topics strategy = Ok ["Home workouts"; "Protein myths"; "Desk mobility"]
  /\ extract_topics strategy <> Ok ["Home workouts"; "Desk mobility"].
Proof. split; [reflexivity | discriminate]. Qed.

(* ===================================================================== *)
(** * The text-generation adapter *)
(* ===================================================================== *)

Lemma issubclass_Exception (c : pyclass) : issubclass c Exception = true.
Proof. destruct c; reflexivity. Qed.

(** What the four [except] clauses make of an exception. *)
Lemma generate_content_handled (e : exn) :
  match find (fun h : pyclass * (exn -> M pyval) => isinstance e (fst h))
             generate_content_handlers with
  | Some h => forall s, snd h e s = (Raise (mkExn Exception (failure_message e)), s)
  | None => False
  end.
Proof.
  unfold generate_content_handlers, failure_message. cbn [find fst snd].
  destruct (isinstance e ConnectionError); [reflexivity|].
  destruct (isinstance e Timeout); [reflexivity|].
  destruct (isinstance e RequestException); [reflexivity|].
  unfold isinstance. rewrite issubclass_Exception. reflexivity.
Qed.

Lemma generate_content_outcome (E : env) (prompt : string) (temperature : pyval) (s : state) :
  fst (generate_content E prompt temperature s)
  = match generate_content_body E prompt temperature s with
    | Ok v => Ok v
    | Raise e => Raise (mkExn Exception (failure_message e))
    end.
Proof.
  pose proof (fun e => generate_content_handled e) as Hh.
  unfold generate_content, generate_content_body, try_finally, try_except, bind,
    create_session, session_post, lift, open_session.
  cbn [posts rbind].
  destruct (http_post E (posts s) openrouter_url (openrouter_headers E)
              (openrouter_data prompt temperature)) as [resp|e]; cbn [rbind].
  - destruct (raise_for_status resp) as [[]|e]; cbn [rbind].
    + destruct (json resp) as [answer|e]; cbn [rbind].
      * destruct (extract_completion answer) as [v|e]; [reflexivity|].
        specialize (Hh e).
        destruct (find _ generate_content_handlers) as [h|]; [|destruct Hh].
        now rewrite Hh.
      * specialize (Hh e).
        destruct (find _ generate_content_handlers) as [h|]; [|destruct Hh].
        now rewrite Hh.
    + specialize (Hh e).
      destruct (find _ generate_content_handlers) as [h|]; [|destruct Hh].
      now rewrite Hh.
  - specialize (Hh e).
    destruct (find _ generate_content_handlers) as [h|]; [|destruct Hh].
    now rewrite Hh.
Qed.

Lemma getitem_raises (v : pyval) (key : string) (e : exn) :
  Py.getitem v key = Raise e -> exn_class e = KeyError \/ exn_class e = TypeError.
Proof.
  destruct v; simpl; try (intros [= <-]; auto; fail).
  destruct (Py.dict_get d key); [discriminate|]. intros [= <-]; auto.
Qed.

Lemma first_choice_content_raises (first : pyval) (e : exn) :
  first_choice_content first = Raise e ->
  failure_message e = "Error generating content: " ++ exn_msg e.
Proof.
  unfold first_choice_content. intros H.
  assert (Hc : exn_class e = KeyError \/ exn_class e = TypeError).
  { destruct (Py.getitem first "message") as [m|e'] eqn:Hm; cbn [rbind] in H.
    - now apply getitem_raises in H.
    - injection H as <-. now apply getitem_raises in Hm. }
  unfold failure_message, isinstance. destruct Hc as [-> | ->]; reflexivity.
Qed.

Lemma extract_completion_dict (d : list (string * pyval)) :
  choices_listed d = true ->
  extract_completion (PDict d)
  = match Py.dict_get d "choices" with
    | Some (PList (first :: _)) => first_choice_content first
    | _ =>
        match fallback_completion d with
        | Some x => Ok x
        | None => Py.raise Exception
                    ("Unexpected API response format: " ++ Json.dumps (PDict d))
        end
    end.
Proof.
  assert (Hfall :
    (has_response <- Py.contains "response" (PDict d) ;;
     if has_response : bool then Py.getitem (PDict d) "response"
     else
       has_text <- Py.contains "text" (PDict d) ;;
       if has_text : bool then Py.getitem (PDict d) "text"
       else
         has_content <- Py.contains "content" (PDict d) ;;
         if has_content : bool then Py.getitem (PDict d) "content"
         else Py.raise Exception
                ("Unexpected API response format: " ++ Json.dumps (PDict d)))%result
    = match fallback_completion d with
      | Some x => Ok x
      | None => Py.raise Exception
                  ("Unexpected API response format: " ++ Json.dumps (PDict d))
      end).
  { unfold fallback_completion. cbn [Py.contains Py.getitem rbind].
    destruct (Py.dict_get d "response"); [reflexivity|].
    destruct (Py.dict_get d "text"); [reflexivity|].
    destruct (Py.dict_get d "content"); reflexivity. }
  unfold choices_listed, extract_completion. cbn [Py.contains Py.getitem rbind].
  destruct (Py.dict_get d "choices") as [[| | | | |[|first tl]|]|]; try discriminate;
    intros _; cbn [rbind Py.len Py.getitem0 List.length Nat.ltb Nat.leb];
    first [exact Hfall | reflexivity].
Qed.

(** C3 (as amended). When the backend answers with a JSON object whose
    [choices], if present, is a list: a non-empty [choices] decides alone,
    the adapter returns [choices[0].message.content] exactly when that path
    exists and fails otherwise, without looking at the other keys; with
    [choices] absent or empty it returns the value of the first present of
    [response], [text], [content]; with none of them it fails with an
    [Exception] whose text carries the JSON of the raw answer. *)
Theorem generate_content_completion (E : env) (prompt : string) (temperature : pyval)
  (s : state) (resp : response) (d : list (string * pyval)) :
  http_post E (posts s) openrouter_url (openrouter_headers E)
    (openrouter_data prompt temperature) = Ok resp ->
  raise_for_status resp = Ok tt ->
  json resp = Ok (PDict d) ->
  choices_listed d = true ->
  fst (generate_content E prompt temperature s)
  = match Py.dict_get d "choices" with
    | Some (PList (first :: _)) =>
        match first_choice_content first with
        | Ok x => Ok x
        | Raise e => Raise (mkExn Exception ("Error generating content: " ++ exn_msg e))
        end
    | _ =>
        match fallback_completion d with
        | Some x => Ok x
        | None =>
            Raise (mkExn Exception
                     ("Error generating content: Unexpected API response format: "
                      ++ Json.dumps (PDict d)))
        end
    end.
Proof.
  intros Hpost Hstatus Hjson Hlist.
  rewrite generate_content_outcome. unfold generate_content_body.
  rewrite Hpost. cbn [rbind]. rewrite Hstatus. cbn [rbind]. rewrite Hjson. cbn [rbind].
  rewrite (extract_completion_dict d Hlist).
  destruct (Py.dict_get d "choices") as [[| | | | |[|first tl]|]|];
    try (destruct (fallback_completion d); reflexivity).
  destruct (first_choice_content first) as [x|e] eqn:Hf; [reflexivity|].
  now rewrite (first_choice_content_raises first e Hf).
Qed.

Lemma generate_content_completion_witness :
  fst (generate_content
         (sample_env
            (fun _ => Ok (ok_response
               (PDict [("choices",
                        PList [PDict [("message", PDict [("content", PStr "X")])]])])))
            (fun _ => Ok (PDict [])))
         "prompt" default_temperature initial_state)
  = Ok (PStr "X").
Proof.
  apply (generate_content_completion
           (sample_env
              (fun _ => Ok (ok_response
                 (PDict [("choices",
                          PList [PDict [("message", PDict [("content", PStr "X")])]])])))
              (fun _ => Ok (PDict [])))
           "prompt" default_temperature initial_state
           (ok_response
              (PDict [("choices",
                       PList [PDict [("message", PDict [("content", PStr "X")])]])]))
           [("choices", PList [PDict [("message", PDict [("content", PStr "X")])]])]);
    reflexivity.
Defined.

(** C3, as stated, fails: with a non-empty [choices] that holds no message,
    the [response] key that is present is not used. *)
Lemma generate_content_no_fall_through :
  let answer := PDict [("choices", PList [PDict []]); ("response", PStr "R")] in
  let E := sample_env (fun _ => Ok (ok_response answer)) (fun _ => Ok (PDict [])) in
  fst (generate_content E "prompt" default_temperature initial_state)
  = Raise (mkExn Exception "Error generating content: 'message'")
  /\ fst (generate_content E "prompt" default_temperature initial_state)
     <> Ok (PStr "R").
Proof. split; [reflexivity | discriminate]. Qed.

(** C6 (as amended). Every failure of the adapter is raised as a plain
    [Exception]: a connection failure, a timeout, another transport failure
    and any other error differ in the text of the message (two fixed
    sentences, and the prefixes of the two other clauses), not in the class;
    a failure of the request itself is reported with the message of its
    clause. *)
Theorem generate_content_failures (E : env) (prompt : string) (temperature : pyval)
  (s : state) :
  (forall e, fst (generate_content E prompt temperature s) = Raise e ->
     exn_class e = Exception /\ exists cause, exn_msg e = failure_message cause)
  /\ (forall cause,
        http_post E (posts s) openrouter_url (openrouter_headers E)
          (openrouter_data prompt temperature) = Raise cause ->
        fst (generate_content E prompt temperature s)
        = Raise (mkExn Exception (failure_message cause))).
Proof.
  split.
  - intros e. rewrite generate_content_outcome.
    destruct (generate_content_body E prompt temperature s) as [v|cause]; [discriminate|].
    intros [= <-]. split; [reflexivity|]. now exists cause.
  - intros cause H. rewrite generate_content_outcome. unfold generate_content_body.
    now rewrite H.
Qed.

Lemma generate_content_failures_witness :
  fst (generate_content
         (sample_env (fun _ => Py.raise ReadTimeout "read timed out")
                     (fun _ => Ok (PDict [])))
         "prompt" default_temperature initial_state)
  = Raise (mkExn Exception "Request timed out. Please try again.").
Proof.
  apply (proj2 (generate_content_failures
                  (sample_env (fun _ => Py.raise ReadTimeout "read timed out")
                              (fun _ => Ok (PDict [])))
                  "prompt" default_temperature initial_state)
               (mkExn ReadTimeout "read timed out")).
  reflexivity.
Defined.

(** C6, as stated, fails: a connection failure and a timeout reach the caller
    as exceptions of one class, which no [except] clause tells apart. *)
Lemma generate_content_one_class :
  let E1 := sample_env (fun _ => Py.raise ConnectionError "refused")
                       (fun _ => Ok (PDict [])) in
  let E2 := sample_env (fun _ => Py.raise ReadTimeout "read timed out")
                       (fun _ => Ok (PDict [])) in
  exists e1 e2,
    fst (generate_content E1 "prompt" default_temperature initial_state) = Raise e1
    /\ fst (generate_content E2 "prompt" default_temperature initial_state) = Raise e2
    /\ exn_class e1 = exn_class e2
    /\ (forall c, isinstance e1 c = isinstance e2 c)
    /\ exn_msg e1 <> exn_msg e2.
Proof.
  eexists; eexists. repeat split; try reflexivity. discriminate.
Qed.

(* ===================================================================== *)
(** * The monad: inversion of a successful run *)
(* ===================================================================== *)

Lemma bind_ok_inv {A B} (m : M A) (k : A -> M B) (s s' : state) (b : B) :
  bind m k s = (Ok b, s') ->
  exists a s1, m s = (Ok a, s1) /\ k a s1 = (Ok b, s').
Proof.
  unfold bind. destruct (m s) as [[a|e] s1]; [|discriminate].
  intros H. now exists a, s1.
Qed.

Lemma bind_ok {A B} (m : M A) (k : A -> M B) (s s1 : state) (a : A) :
  m s = (Ok a, s1) -> bind m k s = k a s1.
Proof. unfold bind. now intros ->. Qed.

Lemma bind_raise {A B} (m : M A) (k : A -> M B) (s s1 : state) (e : exn) :
  m s = (Raise e, s1) -> bind m k s = (Raise e, s1).
Proof. unfold bind. now intros ->. Qed.

(** [except Exception] catches every exception of the model. *)
Lemma try_except_Exception {A} (body : M A) (h : exn -> M A) (s : state) :
  try_except body [(Exception, h)] s
  = match body s with
    | (Ok a, s') => (Ok a, s')
    | (Raise e, s') => h e s'
    end.
Proof.
  unfold try_except. destruct (body s) as [[a|e] s']; [reflexivity|].
  cbn [find fst snd]. unfold isinstance. now rewrite issubclass_Exception.
Qed.

(* ===================================================================== *)
(** * The search adapters *)
(* ===================================================================== *)

Lemma search_web_outcome (E : env) (query search_type : string) (s : state) :
  fst (search_web E query search_type s)
  = Ok (match (results <- serpapi_get_dict E (searches s)
                            (search_params E query search_type) ;;
               Py.get results (results_key search_type) (PList []))%result with
        | Ok v => v
        | Raise _ => PList []
        end).
Proof.
  unfold search_web. rewrite try_except_Exception.
  unfold bind, GoogleSearch_get_dict, results_key.
  destruct (serpapi_get_dict E (searches s) (search_params E query search_type))
    as [results|e]; cbn [rbind]; [|reflexivity].
  destruct (String.eqb search_type "scholar") eqn:Hs.
  - apply String.eqb_eq in Hs. subst search_type. cbn [String.eqb Ascii.eqb Bool.eqb].
    unfold lift. destruct (Py.get results "organic_results" (PList [])); reflexivity.
  - destruct (String.eqb search_type "videos"); unfold lift;
      match goal with |- context [Py.get ?r ?k ?d] => destruct (Py.get r k d) end;
      reflexivity.
Qed.

(** A search counts as one call, whatever its outcome. *)
Lemma search_web_searches (E : env) (query search_type : string) (s : state) :
  searches (snd (search_web E query search_type s)) = S (searches s).
Proof.
  unfold search_web. rewrite try_except_Exception.
  unfold bind, GoogleSearch_get_dict.
  destruct (serpapi_get_dict E (searches s) (search_params E query search_type))
    as [results|e]; [|reflexivity].
  destruct (String.eqb search_type "scholar"); [|destruct (String.eqb search_type "videos")];
    unfold lift;
    match goal with |- context [Py.get ?r ?k ?d] => destruct (Py.get r k d) end;
    reflexivity.
Qed.

Lemma search_pixabay_outcome (E : env) (query : string) (count : Z) (s : state) :
  fst (search_pixabay E query count s)
  = Ok (match (response <- http_get E (gets s) pixabay_url (pixabay_params query count) ;;
               _ <- raise_for_status response ;;
               hits <- json response ;;
               Py.get hits "hits" (PList []))%result with
        | Ok v => v
        | Raise _ => PList []
        end).
Proof.
  unfold search_pixabay, try_finally. rewrite try_except_Exception.
  unfold bind, create_session, session_get, lift, open_session. cbn [gets rbind].
  destruct (http_get E (gets s) pixabay_url (pixabay_params query count)) as [resp|e];
    cbn [rbind]; [|reflexivity].
  destruct (raise_for_status resp) as [[]|e]; cbn [rbind]; [|reflexivity].
  destruct (json resp) as [hits|e]; cbn [rbind]; [|reflexivity].
  destruct (Py.get hits "hits" (PList [])); reflexivity.
Qed.

(** C4. Whatever the query and whatever the backend does, [search_web] and
    [search_pixabay] return a value and do not raise; when the search
    backend raises, or the image backend raises, answers with an error
    status or with a body that is not JSON, the value is the empty list. *)
Theorem search_adapters_never_raise (E : env) (query search_type : string) (count : Z)
  (s : state) :
  (exists v, fst (search_web E query search_type s) = Ok v)
  /\ (exists v, fst (search_pixabay E query count s) = Ok v)
  /\ (forall e,
        serpapi_get_dict E (searches s) (search_params E query search_type) = Raise e ->
        fst (search_web E query search_type s) = Ok (PList []))
  /\ (forall e,
        http_get E (gets s) pixabay_url (pixabay_params query count) = Raise e ->
        fst (search_pixabay E query count s) = Ok (PList []))
  /\ (forall resp e,
        http_get E (gets s) pixabay_url (pixabay_params query count) = Ok resp ->
        raise_for_status resp = Raise e \/ json resp = Raise e ->
        fst (search_pixabay E query count s) = Ok (PList [])).
Proof.
  rewrite search_web_outcome, search_pixabay_outcome.
  repeat split.
  - eexists; reflexivity.
  - eexists; reflexivity.
  - intros e ->. reflexivity.
  - intros e ->. reflexivity.
  - intros resp e -> [H|H]; cbn [rbind].
    + now rewrite H.
    + destruct (raise_for_status resp) as [[]|e']; cbn [rbind]; [|reflexivity].
      now rewrite H.
Qed.

Lemma search_adapters_never_raise_witness :
  fst (search_web
         (sample_env (fun _ => Py.raise ConnectionError "refused")
                     (fun _ => Py.raise ValueError "Invalid API key"))
         "Home workouts statistics data facts" "general" initial_state)
  = Ok (PList [])
  /\ fst (search_pixabay
            (sample_env (fun _ => Py.raise ConnectionError "refused")
                        (fun _ => Py.raise ValueError "Invalid API key"))
            "Home workouts" 6 initial_state)
     = Ok (PList []).
Proof.
  pose proof (search_adapters_never_raise
                (sample_env (fun _ => Py.raise ConnectionError "refused")
                            (fun _ => Py.raise ValueError "Invalid API key"))
                "Home workouts statistics data facts" "general" 6 initial_state)
    as [_ [_ [Hweb _]]].
  pose proof (search_adapters_never_raise
                (sample_env (fun _ => Py.raise ConnectionError "refused")
                            (fun _ => Py.raise ValueError "Invalid API key"))
                "Home workouts" "general" 6 initial_state)
    as [_ [_ [_ [Hpix _]]]].
  split.
  - apply (Hweb (mkExn ValueError "Invalid API key")). reflexivity.
  - apply (Hpix (mkExn ConnectionError "unreachable")). reflexivity.
Defined.

(* ===================================================================== *)
(** * The resource aggregator *)
(* ===================================================================== *)

Lemma append_at_shape (resources : list (string * pyval)) (key : string) (item : pyval) :
  bundle_key key -> bundle_shape resources -> bundle_shape (append_at resources key item).
Proof.
  intros Hk (r & v & t & st & ->).
  destruct Hk as [-> | [-> | [-> | ->]]]; cbv [append_at];
    cbn [Py.dict_get Py.dict_set String.eqb Ascii.eqb Bool.eqb];
    unfold bundle_shape; eauto 8.
Qed.

Lemma for_results_shape (key : string) (fields : list (string * string))
  (results : list pyval) (resources out : list (string * pyval)) :
  bundle_key key -> bundle_shape resources ->
  for_results key fields results resources = Ok out -> bundle_shape out.
Proof.
  intros Hk. revert resources. induction results as [|r rest IH]; intros resources Hs; simpl.
  - now intros [= <-].
  - destruct (resource_entry fields r) as [entry|e]; cbn [rbind]; [|discriminate].
    apply IH. now apply append_at_shape.
Qed.

Lemma collect_shape (key : string) (fields : list (string * string)) (results : pyval)
  (resources out : list (string * pyval)) (s s' : state) :
  bundle_key key -> bundle_shape resources ->
  collect key fields results resources s = (Ok out, s') -> bundle_shape out /\ s' = s.
Proof.
  intros Hk Hs. unfold collect, lift. intros [= H <-]. split; [|reflexivity].
  destruct (Py.iter results) as [items|e]; cbn [rbind] in H; [|discriminate].
  eapply for_results_shape; eauto.
Qed.

Lemma collect_empty (key : string) (fields : list (string * string))
  (resources : list (string * pyval)) (s : state) :
  collect key fields (PList []) resources s = (Ok resources, s).
Proof. reflexivity. Qed.

Lemma search_web_fails (E : env) (query search_type : string) (s : state) :
  searches_fail E ->
  exists s', search_web E query search_type s = (Ok (PList []), s').
Proof.
  intros Hf. exists (snd (search_web E query search_type s)).
  rewrite (surjective_pairing (search_web E query search_type s)). f_equal.
  rewrite search_web_outcome.
  destruct (Hf (searches s) (search_params E query search_type)) as [e ->]. reflexivity.
Qed.

Lemma search_web_returns (E : env) (query search_type : string) (s : state) :
  exists v s', search_web E query search_type s = (Ok v, s').
Proof.
  exists (match (results <- serpapi_get_dict E (searches s)
                              (search_params E query search_type) ;;
                 Py.get results (results_key search_type) (PList []))%result with
          | Ok v => v
          | Raise _ => PList []
          end), (snd (search_web E query search_type s)).
  rewrite (surjective_pairing (search_web E query search_type s)). f_equal.
  apply search_web_outcome.
Qed.

Lemma generate_resources_shape (E : env) (topic : string) (s s' : state) (bundle : pyval) :
  generate_resources_for_topic E topic s = (Ok bundle, s') ->
  exists resources, bundle = PDict resources /\ bundle_shape resources.
Proof.
  unfold generate_resources_for_topic. intros H.
  assert (H0 : bundle_shape [("research", PList []); ("videos", PList []);
                             ("tools", PList []); ("stats", PList [])])
    by (unfold bundle_shape; eauto 8).
  revert H0 H. generalize [("research", PList []); ("videos", PList []);
                           ("tools", PList []); ("stats", PList [])].
  intros r0 H0 H.
  apply bind_ok_inv in H as (v1 & s1 & _ & H).
  apply bind_ok_inv in H as (r1 & s1' & Hc1 & H).
  apply collect_shape in Hc1 as [H1 ->]; [|unfold bundle_key; auto|assumption].
  apply bind_ok_inv in H as (v2 & s2 & _ & H).
  apply bind_ok_inv in H as (r2 & s2' & Hc2 & H).
  apply collect_shape in Hc2 as [H2 ->]; [|unfold bundle_key; auto|assumption].
  apply bind_ok_inv in H as (v3 & s3 & _ & H).
  apply bind_ok_inv in H as (r3 & s3' & Hc3 & H).
  apply collect_shape in Hc3 as [H3 ->]; [|unfold bundle_key; auto|assumption].
  apply bind_ok_inv in H as (v4 & s4 & _ & H).
  apply bind_ok_inv in H as (r4 & s4' & Hc4 & H).
  apply collect_shape in Hc4 as [H4 ->]; [|unfold bundle_key; auto|assumption].
  injection H as <- _. now exists r4.
Qed.

Lemma generate_resources_all_fail (E : env) (topic : string) (s : state) :
  searches_fail E ->
  exists s', generate_resources_for_topic E topic s = (Ok empty_bundle, s').
Proof.
  intros Hf. unfold generate_resources_for_topic.
  destruct (search_web_fails E (topic ++ " research papers articles") "scholar" s Hf)
    as [s1 H1].
  rewrite (bind_ok _ _ _ _ _ H1), (bind_ok _ _ _ _ _ (collect_empty _ _ _ _)).
  destruct (search_web_fails E (topic ++ " tutorial guide") "videos" s1 Hf) as [s2 H2].
  rewrite (bind_ok _ _ _ _ _ H2), (bind_ok _ _ _ _ _ (collect_empty _ _ _ _)).
  destruct (search_web_fails E (topic ++ " tools software applications") "general" s2 Hf)
    as [s3 H3].
  rewrite (bind_ok _ _ _ _ _ H3), (bind_ok _ _ _ _ _ (collect_empty _ _ _ _)).
  destruct (search_web_fails E (topic ++ " statistics data facts") "general" s3 Hf)
    as [s4 H4].
  rewrite (bind_ok _ _ _ _ _ H4), (bind_ok _ _ _ _ _ (collect_empty _ _ _ _)).
  now exists s4.
Qed.

Lemma resource_entry_dict (fields : list (string * string)) (d : list (string * pyval)) :
  exists entry, resource_entry fields (PDict d) = Ok entry.
Proof.
  induction fields as [|[out_key in_key] rest [more IH]]; simpl; [eauto|].
  rewrite IH. destruct (Py.dict_get d in_key); cbn [rbind]; eauto.
Qed.

Lemma for_results_dicts (key : string) (fields : list (string * string))
  (items : list pyval) (resources : list (string * pyval)) :
  Forall is_dict items -> exists out, for_results key fields items resources = Ok out.
Proof.
  intros H. revert resources. induction H as [|item rest [d ->] _ IH]; intros resources; simpl.
  - eauto.
  - destruct (resource_entry_dict fields d) as [entry ->]. cbn [rbind]. apply IH.
Qed.

Lemma search_web_well_shaped (E : env) (query search_type : string) (s : state) :
  results_well_shaped E ->
  exists items s',
    search_web E query search_type s = (Ok (PList items), s') /\ Forall is_dict items.
Proof.
  intros Hw.
  destruct (search_web_returns E query search_type s) as (v & s' & H).
  assert (Hv : fst (search_web E query search_type s) = Ok v) by now rewrite H.
  rewrite search_web_outcome in Hv. injection Hv as Hv.
  destruct (serpapi_get_dict E (searches s) (search_params E query search_type))
    as [results|e] eqn:Hs; cbn [rbind] in Hv.
  - destruct (Py.get results (results_key search_type) (PList [])) as [x|e] eqn:Hg.
    + destruct (Hw _ _ _ _ _ Hs Hg) as (items & -> & Hd). subst v. now exists items, s'.
    + subst v. exists [], s'. split; [assumption|constructor].
  - subst v. exists [], s'. split; [assumption|constructor].
Qed.

Lemma collect_dicts (key : string) (fields : list (string * string)) (items : list pyval)
  (resources : list (string * pyval)) (s : state) :
  Forall is_dict items ->
  exists out, collect key fields (PList items) resources s = (Ok out, s).
Proof.
  intros H. unfold collect, lift. cbn [Py.iter rbind].
  destruct (for_results_dicts key fields items resources H) as [out ->]. now exists out.
Qed.

(** With searches that fail or give lists of objects, a bundle is made. *)
Lemma generate_resources_returns (E : env) (topic : string) (s : state) :
  results_well_shaped E ->
  exists bundle s', generate_resources_for_topic E topic s = (Ok bundle, s').
Proof.
  intros Hw. unfold generate_resources_for_topic.
  generalize [("research", PList []); ("videos", PList []);
              ("tools", PList []); ("stats", PList [])].
  intros r0.
  destruct (search_web_well_shaped E (topic ++ " research papers articles") "scholar" s Hw)
    as (i1 & s1 & H1 & D1).
  rewrite (bind_ok _ _ _ _ _ H1).
  destruct (collect_dicts "research"
              [("title", "title"); ("link", "link"); ("snippet", "snippet")] i1 r0 s1 D1)
    as [r1 C1].
  rewrite (bind_ok _ _ _ _ _ C1).
  destruct (search_web_well_shaped E (topic ++ " tutorial guide") "videos" s1 Hw)
    as (i2 & s2 & H2 & D2).
  rewrite (bind_ok _ _ _ _ _ H2).
  destruct (collect_dicts "videos"
              [("title", "title"); ("link", "link"); ("thumbnail", "thumbnail")] i2 r1 s2 D2)
    as [r2 C2].
  rewrite (bind_ok _ _ _ _ _ C2).
  destruct (search_web_well_shaped E (topic ++ " tools software applications") "general"
              s2 Hw) as (i3 & s3 & H3 & D3).
  rewrite (bind_ok _ _ _ _ _ H3).
  destruct (collect_dicts "tools"
              [("name", "title"); ("link", "link"); ("description", "snippet")] i3 r2 s3 D3)
    as [r3 C3].
  rewrite (bind_ok _ _ _ _ _ C3).
  destruct (search_web_well_shaped E (topic ++ " statistics data facts") "general" s3 Hw)
    as (i4 & s4 & H4 & D4).
  rewrite (bind_ok _ _ _ _ _ H4).
  destruct (collect_dicts "stats"
              [("title", "title"); ("link", "link"); ("snippet", "snippet")] i4 r3 s4 D4)
    as [r4 C4].
  rewrite (bind_ok _ _ _ _ _ C4).
  now exists (PDict r4), s4.
Qed.

(* ===================================================================== *)
(** * Dictionaries *)
(* ===================================================================== *)

Lemma dict_get_set_same (d : list (string * pyval)) (k : string) (v : pyval) :
  Py.dict_get (Py.dict_set d k v) k = Some v.
Proof.
  induction d as [|[k' v'] rest IH]; simpl.
  - now rewrite String.eqb_refl.
  - destruct (String.eqb k' k) eqn:Hk; simpl; now rewrite Hk.
Qed.

Lemma dict_get_set_other (d : list (string * pyval)) (k k' : string) (v : pyval) :
  k' <> k -> Py.dict_get (Py.dict_set d k v) k' = Py.dict_get d k'.
Proof.
  intros Hne. induction d as [|[k0 v0] rest IH]; simpl.
  - destruct (String.eqb k k') eqn:H; [apply String.eqb_eq in H; congruence|reflexivity].
  - destruct (String.eqb k0 k) eqn:Hk; simpl.
    + apply String.eqb_eq in Hk. subst k0.
      destruct (String.eqb k k') eqn:H; [apply String.eqb_eq in H; congruence|reflexivity].
    + now rewrite IH.
Qed.

Lemma keys_dict_set (d : list (string * pyval)) (k : string) (v : pyval) :
  Py.keys (Py.dict_set d k v)
  = if existsb (String.eqb k) (Py.keys d) then Py.keys d else (Py.keys d ++ [k])%list.
Proof.
  unfold Py.keys. induction d as [|[k' v'] rest IH]; simpl; [reflexivity|].
  rewrite (String.eqb_sym k k'). destruct (String.eqb k' k); simpl; [reflexivity|].
  rewrite IH. now destruct (existsb (String.eqb k) (map fst rest)).
Qed.

Lemma existsb_eqb_In (k : string) (l : list string) :
  existsb (String.eqb k) l = true <-> In k l.
Proof.
  rewrite existsb_exists. split.
  - intros (x & Hin & Heq). apply String.eqb_eq in Heq. now subst.
  - intros H. exists k. split; [assumption|apply String.eqb_refl].
Qed.

(* ===================================================================== *)
(** * The orchestrator *)
(* ===================================================================== *)

Lemma bind_modify {B} (f : state -> state) (k : unit -> M B) (s : state) :
  bind (modify f) k s = k tt (f s).
Proof. reflexivity. Qed.

Lemma bind_lift {A B} (r : result A) (k : A -> M B) (s : state) :
  bind (lift r) k s = match r with Ok a => k a s | Raise e => (Raise e, s) end.
Proof. unfold bind, lift. now destruct r. Qed.

Lemma lift_ok_inv {A} (r : result A) (s s' : state) (a : A) :
  lift r s = (Ok a, s') -> r = Ok a /\ s' = s.
Proof. unfold lift. now intros [= -> <-]. Qed.

Lemma now_run (E : env) (s : state) :
  now E s = (Ok (datetime_now E (clock_reads s)), after_clock s).
Proof. reflexivity. Qed.

Lemma generate_content_state (E : env) (prompt : string) (temperature : pyval) (s : state) :
  snd (generate_content E prompt temperature s) = after_post s.
Proof.
  pose proof (fun e => generate_content_handled e) as Hh.
  unfold generate_content, try_finally, try_except, bind, create_session, session_post,
    lift, open_session.
  cbn [posts].
  destruct (http_post E (posts s) openrouter_url (openrouter_headers E)
              (openrouter_data prompt temperature)) as [resp|e].
  - destruct (raise_for_status resp) as [[]|e].
    + destruct (json resp) as [answer|e].
      * destruct (extract_completion answer) as [v|e]; [reflexivity|].
        specialize (Hh e).
        destruct (find _ generate_content_handlers) as [h|]; [|destruct Hh].
        now rewrite Hh.
      * specialize (Hh e).
        destruct (find _ generate_content_handlers) as [h|]; [|destruct Hh].
        now rewrite Hh.
    + specialize (Hh e).
      destruct (find _ generate_content_handlers) as [h|]; [|destruct Hh].
      now rewrite Hh.
  - specialize (Hh e).
    destruct (find _ generate_content_handlers) as [h|]; [|destruct Hh].
    now rewrite Hh.
Qed.

Lemma generate_content_answers (E : env) (completion : nat -> pyval)
  (prompt : string) (temperature : pyval) (s : state) :
  generation_answers E completion ->
  generate_content E prompt temperature s = (Ok (completion (posts s)), after_post s).
Proof.
  intros Ha.
  rewrite (surjective_pairing (generate_content E prompt temperature s)).
  rewrite generate_content_state, generate_content_outcome. f_equal.
  unfold generate_content_body.
  destruct (Ha (posts s) openrouter_url (openrouter_headers E)
              (openrouter_data prompt temperature))
    as (resp & answer & -> & Hs & Hj & Hx).
  cbn [rbind]. rewrite Hs. cbn [rbind]. rewrite Hj. cbn [rbind]. now rewrite Hx.
Qed.

(** C2. Every run of the orchestrator returns, without raising, a result of
    exactly one of two shapes: the five keys [trends], [strategy], [briefs],
    [resources], [execution_time] and no [error] key, or the single key
    [error] with a message. *)
Theorem create_content_calendar_result_shape (E : env)
  (industry target_audience content_goals : string) (s : state) :
  exists v,
    fst (create_content_calendar E industry target_audience content_goals s) = Ok v
    /\ ((is_success v /\ has_key v "error" = false)
        \/ (is_failure v /\ forall k, In k success_keys -> has_key v k = false)).
Proof.
  unfold create_content_calendar. rewrite try_except_Exception.
  match goal with
  | |- context [match ?b with _ => _ end] => destruct b as [[v|e] s'] eqn:H
  end.
  - exists v. split; [reflexivity|]. left.
    apply bind_ok_inv in H as (start_time & s0 & _ & H).
    apply bind_ok_inv in H as (trends & s1 & _ & H).
    apply bind_ok_inv in H as (u1 & s1' & _ & H).
    apply bind_ok_inv in H as (strategy & s2 & _ & H).
    apply bind_ok_inv in H as (u2 & s2' & _ & H).
    apply bind_ok_inv in H as (briefs & s3 & _ & H).
    apply bind_ok_inv in H as (u3 & s3' & _ & H).
    apply bind_ok_inv in H as (topics & s4 & _ & H).
    apply bind_ok_inv in H as (resources & s5 & _ & H).
    apply bind_ok_inv in H as (end_time & s6 & _ & H).
    injection H as <- _. split; [|reflexivity].
    eexists. split; reflexivity.
  - exists (PDict [("error", PStr (exn_msg e))]). split; [reflexivity|]. right. split.
    + now exists (exn_msg e).
    + intros k Hk. simpl in Hk.
      destruct Hk as [<-|[<-|[<-|[<-|[<-|[]]]]]]; reflexivity.
Qed.

(* ===================================================================== *)
(** * The resources of a run, keyed by topic *)
(* ===================================================================== *)

Lemma distinct_from_length_le (seen topics : list string) :
  (List.length (distinct_from seen topics) <= List.length seen + List.length topics)%nat.
Proof.
  revert seen. induction topics as [|t rest IH]; intros seen; simpl; [lia|].
  destruct (existsb (String.eqb t) seen).
  - specialize (IH seen). lia.
  - specialize (IH (seen ++ [t])%list). rewrite length_app in IH. simpl in IH. lia.
Qed.

Lemma distinct_from_full (seen topics : list string) :
  NoDup seen ->
  List.length (distinct_from seen topics) = (List.length seen + List.length topics)%nat ->
  NoDup (seen ++ topics)%list.
Proof.
  revert seen. induction topics as [|t rest IH]; intros seen Hnd; simpl.
  - now rewrite app_nil_r.
  - destruct (existsb (String.eqb t) seen) eqn:Ht.
    + pose proof (distinct_from_length_le seen rest). lia.
    + intros Hlen.
      assert (Hnot : ~ In t seen).
      { intros Hin. apply existsb_eqb_In in Hin. congruence. }
      change (t :: rest) with ([t] ++ rest)%list. rewrite app_assoc. apply IH.
      * apply NoDup_app; repeat split; try assumption.
        -- constructor; [intros []|constructor].
        -- intros x Hx [<-|[]]. contradiction.
      * rewrite length_app. simpl. lia.
Qed.

Lemma distinct_from_NoDup (seen topics : list string) :
  NoDup seen -> NoDup (distinct_from seen topics).
Proof.
  revert seen. induction topics as [|t rest IH]; intros seen Hnd; simpl; [assumption|].
  destruct (existsb (String.eqb t) seen) eqn:Ht; [now apply IH|].
  apply IH. apply NoDup_app; repeat split; try assumption.
  - constructor; [intros []|constructor].
  - intros x Hx [<-|[]]. apply existsb_eqb_In in Hx. congruence.
Qed.

Lemma distinct_from_In (seen topics : list string) (x : string) :
  In x (distinct_from seen topics) <-> In x seen \/ In x topics.
Proof.
  revert seen. induction topics as [|t rest IH]; intros seen; simpl; [tauto|].
  destruct (existsb (String.eqb t) seen) eqn:Ht; rewrite IH.
  - apply existsb_eqb_In in Ht. split; [tauto|]. intros [H|[<-|H]]; auto.
  - rewrite in_app_iff. simpl. tauto.
Qed.

(** The distinct topics are fewer than the topics as soon as one repeats. *)
Lemma distinct_shorter (topics : list string) :
  ~ NoDup topics -> (List.length (distinct topics) < List.length topics)%nat.
Proof.
  intros Hdup. pose proof (distinct_from_length_le [] topics) as Hle.
  unfold distinct. simpl in Hle.
  destruct (Nat.eq_dec (List.length (distinct_from [] topics)) (List.length topics))
    as [Heq|Hne]; [|lia].
  exfalso. apply Hdup. apply (distinct_from_full [] topics); [constructor|exact Heq].
Qed.

Lemma gather_resources_keys (E : env) (topics : list string)
  (resources rs : list (string * pyval)) (s s' : state) :
  gather_resources E topics resources s = (Ok rs, s') ->
  Py.keys rs = distinct_from (Py.keys resources) topics.
Proof.
  revert resources s. induction topics as [|topic rest IH]; intros resources s; simpl.
  - now intros [= <- _].
  - intros H.
    apply bind_ok_inv in H as (bundle & s1 & _ & H).
    apply bind_ok_inv in H as (u & s2 & _ & H).
    apply IH in H. rewrite H, keys_dict_set.
    now destruct (existsb (String.eqb topic) (Py.keys resources)).
Qed.

(** Topics not gathered again keep their bundle. *)
Lemma gather_resources_keeps (E : env) (topics : list string)
  (resources rs : list (string * pyval)) (s s' : state) (topic : string) :
  gather_resources E topics resources s = (Ok rs, s') ->
  ~ In topic topics ->
  Py.dict_get rs topic = Py.dict_get resources topic.
Proof.
  revert resources s. induction topics as [|t rest IH]; intros resources s; simpl.
  - now intros [= <- _].
  - intros H Hnot.
    apply bind_ok_inv in H as (bundle & s1 & _ & H).
    apply bind_ok_inv in H as (u & s2 & _ & H).
    rewrite (IH _ _ H) by tauto.
    apply dict_get_set_other. intros ->. tauto.
Qed.

(** The bundle stored for a topic is the one of its last aggregation. *)
Lemma gather_resources_last (E : env) (before after : list string) (topic : string)
  (resources rs : list (string * pyval)) (s s' : state) :
  gather_resources E (before ++ topic :: after)%list resources s = (Ok rs, s') ->
  ~ In topic after ->
  exists r1 s1 bundle s2,
    gather_resources E before resources s = (Ok r1, s1)
    /\ generate_resources_for_topic E topic s1 = (Ok bundle, s2)
    /\ Py.dict_get rs topic = Some bundle.
Proof.
  revert resources s. induction before as [|t rest IH]; intros resources s; simpl.
  - intros H Hnot.
    apply bind_ok_inv in H as (bundle & s1 & Hb & H).
    apply bind_ok_inv in H as (u & s2 & _ & H).
    exists resources, s, bundle, s1. repeat split; try assumption.
    rewrite (gather_resources_keeps _ _ _ _ _ _ _ H Hnot). apply dict_get_set_same.
  - intros H Hnot.
    apply bind_ok_inv in H as (bundle & s1 & Hb & H).
    apply bind_ok_inv in H as (u & s2 & Hu & H).
    destruct (IH _ _ H Hnot) as (r1 & s3 & b & s4 & Hg & Hgen & Hget).
    exists r1, s3, b, s4. repeat split; try assumption.
    rewrite (bind_ok _ _ _ _ _ Hb), (bind_ok _ _ _ _ _ Hu). exact Hg.
Qed.

(** One search: it returns, counts as one call, and gives the empty list
    when the backend fails. *)
Lemma search_web_run (E : env) (query search_type : string) (s : state) :
  exists v s',
    search_web E query search_type s = (Ok v, s')
    /\ searches s' = S (searches s)
    /\ (search_fails_at E (searches s) -> v = PList []).
Proof.
  destruct (search_web_returns E query search_type s) as (v & s' & H).
  exists v, s'. split; [assumption|]. split.
  - pose proof (search_web_searches E query search_type s) as Hs. now rewrite H in Hs.
  - intros Hf. pose proof (search_web_outcome E query search_type s) as Ho.
    rewrite H in Ho. cbn [fst] in Ho.
    destruct (Hf (search_params E query search_type)) as [e He].
    rewrite He in Ho. now injection Ho as ->.
Qed.

Lemma append_at_other (resources : list (string * pyval)) (key k : string) (item : pyval) :
  k <> key -> Py.dict_get (append_at resources key item) k = Py.dict_get resources k.
Proof.
  intros Hne. unfold append_at.
  destruct (Py.dict_get resources key) as [[| | | | |l|]|]; try reflexivity.
  now apply dict_get_set_other.
Qed.

Lemma for_results_other (key : string) (fields : list (string * string))
  (results : list pyval) (resources out : list (string * pyval)) (k : string) :
  k <> key ->
  for_results key fields results resources = Ok out ->
  Py.dict_get out k = Py.dict_get resources k.
Proof.
  intros Hne. revert resources. induction results as [|r rest IH]; intros resources; simpl.
  - now intros [= <-].
  - destruct (resource_entry fields r) as [entry|e]; cbn [rbind]; [|discriminate].
    intros H. rewrite (IH _ H). now apply append_at_other.
Qed.

(** One [for] loop of the aggregator touches the list of its key only, and
    nothing at all when the results are the empty list. *)
Lemma collect_key (key : string) (fields : list (string * string)) (results : pyval)
  (resources out : list (string * pyval)) (s s' : state) :
  collect key fields results resources s = (Ok out, s') ->
  s' = s
  /\ (forall k, k <> key -> Py.dict_get out k = Py.dict_get resources k)
  /\ (results = PList [] -> out = resources).
Proof.
  unfold collect, lift. intros [= H <-]. split; [reflexivity|]. split.
  - intros k Hne. destruct (Py.iter results) as [items|e]; cbn [rbind] in H; [|discriminate].
    now apply (for_results_other key fields items).
  - intros ->. cbn in H. now injection H as <-.
Qed.

(** A bundle that is produced took four calls of the search backend, and a
    call that failed left the list of its key empty. *)
Lemma generate_resources_inv (E : env) (topic : string) (s s' : state) (bundle : pyval) :
  generate_resources_for_topic E topic s = (Ok bundle, s') ->
  searches s' = S (S (S (S (searches s))))
  /\ exists resources,
       bundle = PDict resources
       /\ (search_fails_at E (searches s) ->
           Py.dict_get resources "research" = Some (PList []))
       /\ (search_fails_at E (S (searches s)) ->
           Py.dict_get resources "videos" = Some (PList []))
       /\ (search_fails_at E (S (S (searches s))) ->
           Py.dict_get resources "tools" = Some (PList []))
       /\ (search_fails_at E (S (S (S (searches s)))) ->
           Py.dict_get resources "stats" = Some (PList [])).
Proof.
  unfold generate_resources_for_topic. intros H.
  apply bind_ok_inv in H as (v1 & s1 & Hs1 & H).
  destruct (search_web_run E (topic ++ " research papers articles") "scholar" s)
    as (v1' & s1' & Hr1 & Hn1 & Hf1).
  rewrite Hs1 in Hr1. injection Hr1 as <- <-.
  apply bind_ok_inv in H as (r1 & t1 & Hc1 & H).
  apply collect_key in Hc1 as (-> & Ho1 & He1).
  apply bind_ok_inv in H as (v2 & s2 & Hs2 & H).
  destruct (search_web_run E (topic ++ " tutorial guide") "videos" s1)
    as (v2' & s2' & Hr2 & Hn2 & Hf2).
  rewrite Hs2 in Hr2. injection Hr2 as <- <-.
  apply bind_ok_inv in H as (r2 & t2 & Hc2 & H).
  apply collect_key in Hc2 as (-> & Ho2 & He2).
  apply bind_ok_inv in H as (v3 & s3 & Hs3 & H).
  destruct (search_web_run E (topic ++ " tools software applications") "general" s2)
    as (v3' & s3' & Hr3 & Hn3 & Hf3).
  rewrite Hs3 in Hr3. injection Hr3 as <- <-.
  apply bind_ok_inv in H as (r3 & t3 & Hc3 & H).
  apply collect_key in Hc3 as (-> & Ho3 & He3).
  apply bind_ok_inv in H as (v4 & s4 & Hs4 & H).
  destruct (search_web_run E (topic ++ " statistics data facts") "general" s3)
    as (v4' & s4' & Hr4 & Hn4 & Hf4).
  rewrite Hs4 in Hr4. injection Hr4 as <- <-.
  apply bind_ok_inv in H as (r4 & t4 & Hc4 & H).
  apply collect_key in Hc4 as (-> & Ho4 & He4).
  injection H as <- <-.
  rewrite Hn2 in *. rewrite Hn1 in *. rewrite Hn3 in *.
  split; [now rewrite Hn4|].
  exists r4. split; [reflexivity|]. repeat split.
  - intros Hf. rewrite Ho4, Ho3, Ho2 by discriminate. now rewrite (He1 (Hf1 Hf)).
  - intros Hf. rewrite Ho4, Ho3 by discriminate. rewrite (He2 (Hf2 Hf)).
    now rewrite Ho1 by discriminate.
  - intros Hf. rewrite Ho4 by discriminate. rewrite (He3 (Hf3 Hf)).
    rewrite Ho2, Ho1 by discriminate. reflexivity.
  - intros Hf. rewrite (He4 (Hf4 Hf)). rewrite Ho3, Ho2, Ho1 by discriminate. reflexivity.
Qed.

(** When the four searches of a topic fail, its bundle is the empty one. *)
Lemma generate_resources_four_fail (E : env) (topic : string) (s s' : state) (bundle : pyval) :
  generate_resources_for_topic E topic s = (Ok bundle, s') ->
  four_searches_fail E (searches s) ->
  bundle = empty_bundle.
Proof.
  intros H (F1 & F2 & F3 & F4).
  destruct (generate_resources_shape E topic s s' bundle H)
    as (resources & -> & (r & v & t & st & ->)).
  destruct (generate_resources_inv E topic s s' _ H)
    as (_ & resources & Hb & H1 & H2 & H3 & H4).
  injection Hb as <-.
  specialize (H1 F1). specialize (H2 F2). specialize (H3 F3). specialize (H4 F4).
  cbn in H1, H2, H3, H4.
  injection H1 as ->. injection H2 as ->. injection H3 as ->. injection H4 as ->.
  reflexivity.
Qed.

(** With well-shaped results the loop over the topics ends, four searches
    per topic. *)
Lemma gather_resources_returns (E : env) (topics : list string) :
  results_well_shaped E ->
  forall resources s,
  exists rs s',
    gather_resources E topics resources s = (Ok rs, s')
    /\ searches s' = (4 * List.length topics + searches s)%nat.
Proof.
  intros Hw. induction topics as [|topic rest IH]; intros resources s.
  - exists resources, s. split; reflexivity.
  - destruct (generate_resources_returns E topic s Hw) as (bundle & s1 & H1).
    destruct (generate_resources_inv E topic s s1 bundle H1) as (Hn & _).
    cbn [gather_resources]. rewrite (bind_ok _ _ _ _ _ H1).
    unfold time_sleep. rewrite bind_modify.
    match goal with
    | |- context [gather_resources E rest ?r ?s0] =>
        destruct (IH r s0) as (rs & s' & Hg & Hs)
    end.
    exists rs, s'. split; [assumption|].
    rewrite Hs. cbn [searches List.length]. rewrite Hn. lia.
Qed.

(** The topic whose searches failed ends with the empty bundle, and the loop
    goes on to the end. *)
Lemma gather_resources_failed_topic (E : env) (before after : list string) (topic : string)
  (resources : list (string * pyval)) (s : state) :
  results_well_shaped E ->
  ~ In topic after ->
  four_searches_fail E (4 * List.length before + searches s) ->
  exists rs s',
    gather_resources E (before ++ topic :: after)%list resources s = (Ok rs, s')
    /\ Py.dict_get rs topic = Some empty_bundle.
Proof.
  intros Hw Hnot Hfail.
  destruct (gather_resources_returns E (before ++ topic :: after)%list Hw resources s)
    as (rs & s' & Hg & _).
  exists rs, s'. split; [assumption|].
  destruct (gather_resources_last E before after topic resources rs s s' Hg Hnot)
    as (r1 & s1 & bundle & s2 & Hb & Hgen & Hget).
  destruct (gather_resources_returns E before Hw resources s) as (r1' & s1' & Hb' & Hn).
  rewrite Hb in Hb'. injection Hb' as <- <-.
  rewrite Hget. f_equal.
  apply (generate_resources_four_fail E topic s1 s2 bundle Hgen). now rewrite Hn.
Qed.

(** The run to [Done] when the generation backend answers, the searches
    give well-shaped results, and the four searches of one topic fail. *)
Lemma create_content_calendar_failed_topic (E : env) (completion : nat -> pyval)
  (industry target_audience content_goals : string) (s : state)
  (before after : list string) (topic : string) :
  generation_answers E completion ->
  results_well_shaped E ->
  extract_topics (completion (S (posts s))) = Ok (before ++ topic :: after)%list ->
  ~ In topic after ->
  four_searches_fail E (4 * List.length before + searches s) ->
  exists resources execution_time,
    fst (create_content_calendar E industry target_audience content_goals s)
    = Ok (PDict [("trends", completion (posts s));
                 ("strategy", completion (S (posts s)));
                 ("briefs", completion (S (S (posts s))));
                 ("resources", PDict resources);
                 ("execution_time", execution_time)])
    /\ Py.dict_get resources topic = Some empty_bundle.
Proof.
  intros Ha Hw Ht Hnot Hfail. unfold create_content_calendar.
  rewrite try_except_Exception.
  rewrite (bind_ok _ _ _ _ _ (now_run E s)).
  rewrite (bind_ok _ _ _ _ _ (generate_content_answers E completion _ _ _ Ha)).
  unfold time_sleep at 1. rewrite bind_modify.
  rewrite (bind_ok _ _ _ _ _ (generate_content_answers E completion _ _ _ Ha)).
  unfold time_sleep at 1. rewrite bind_modify.
  rewrite (bind_ok _ _ _ _ _ (generate_content_answers E completion _ _ _ Ha)).
  unfold time_sleep at 1. rewrite bind_modify.
  cbn [posts after_post after_clock].
  rewrite bind_lift, Ht.
  match goal with
  | |- context [bind (gather_resources E _ []) _ ?s0] =>
      destruct (gather_resources_failed_topic E before after topic [] s0 Hw Hnot Hfail)
        as (rs & s' & Hg & Hget)
  end.
  rewrite (bind_ok _ _ _ _ _ Hg), (bind_ok _ _ _ _ _ (now_run E s')).
  eexists. eexists. split; [reflexivity|assumption].
Qed.

(** C8. A bundle the aggregator produces always has the four keys
    [research], [videos], [tools], [stats], each with a list, and a search
    that failed left the list of its key empty; a bundle is produced whenever
    each search fails or gives a list of objects; and in a run whose
    generation calls are answered, a topic whose four searches fail gets the
    bundle of four empty lists while the run still ends in the success
    shape. *)
Theorem resource_bundle_complete (E : env) :
  (forall topic s s' bundle,
     generate_resources_for_topic E topic s = (Ok bundle, s') ->
     (exists research videos tools stats,
        bundle = PDict [("research", PList research); ("videos", PList videos);
                        ("tools", PList tools); ("stats", PList stats)])
     /\ (search_fails_at E (searches s) ->
         Py.getitem bundle "research" = Ok (PList []))
     /\ (search_fails_at E (S (searches s)) ->
         Py.getitem bundle "videos" = Ok (PList []))
     /\ (search_fails_at E (S (S (searches s))) ->
         Py.getitem bundle "tools" = Ok (PList []))
     /\ (search_fails_at E (S (S (S (searches s)))) ->
         Py.getitem bundle "stats" = Ok (PList []))
     /\ (four_searches_fail E (searches s) -> bundle = empty_bundle))
  /\ (results_well_shaped E ->
      (forall topic s, exists bundle,
         fst (generate_resources_for_topic E topic s) = Ok bundle)
      /\ forall completion industry target_audience content_goals s before topic after,
           generation_answers E completion ->
           extract_topics (completion (S (posts s))) = Ok (before ++ topic :: after)%list ->
           ~ In topic after ->
           four_searches_fail E (4 * List.length before + searches s) ->
           exists resources execution_time,
             fst (create_content_calendar E industry target_audience content_goals s)
             = Ok (PDict [("trends", completion (posts s));
                          ("strategy", completion (S (posts s)));
                          ("briefs", completion (S (S (posts s))));
                          ("resources", PDict resources);
                          ("execution_time", execution_time)])
             /\ Py.dict_get resources topic = Some empty_bundle).
Proof.
  split.
  - intros topic s s' bundle H.
    destruct (generate_resources_inv E topic s s' bundle H)
      as (_ & resources & -> & H1 & H2 & H3 & H4).
    split; [|repeat split].
    + destruct (generate_resources_shape E topic s s' _ H)
        as (resources' & [= <-] & (r & v & t & st & ->)).
      now exists r, v, t, st.
    + intros Hf. cbn [Py.getitem]. now rewrite (H1 Hf).
    + intros Hf. cbn [Py.getitem]. now rewrite (H2 Hf).
    + intros Hf. cbn [Py.getitem]. now rewrite (H3 Hf).
    + intros Hf. cbn [Py.getitem]. now rewrite (H4 Hf).
    + intros Hf. apply (generate_resources_four_fail E topic s s' _ H Hf).
  - intros Hw. split.
    + intros topic s.
      destruct (generate_resources_returns E topic s Hw) as (bundle & s' & H).
      exists bundle. now rewrite H.
    + intros completion industry target_audience content_goals s before topic after
        Ha Ht Hnot Hfail.
      exact (create_content_calendar_failed_topic E completion industry target_audience
               content_goals s before after topic Ha Hw Ht Hnot Hfail).
Qed.

Lemma answering_answers (completion : nat -> pyval) (search : nat -> result pyval) :
  generation_answers (sample_env (answering completion) search) completion.
Proof.
  intros n api_url headers data.
  exists (ok_response (PDict [("response", completion n)])),
         (PDict [("response", completion n)]).
  repeat split.
Qed.

Lemma second_topic_fails_well_shaped (post : nat -> result response) :
  results_well_shaped (sample_env post second_topic_fails).
Proof.
  intros n params v key x Hs Hg. cbn [sample_env serpapi_get_dict] in Hs.
  unfold second_topic_fails, numbered_results in Hs.
  destruct ((4 <=? n) && (n <? 8))%nat; [discriminate|].
  injection Hs as <-. cbn [Py.get Py.dict_get] in Hg.
  destruct (String.eqb "organic_results" key).
  - injection Hg as <-. eexists. split; [reflexivity|].
    constructor; [eexists; reflexivity|constructor].
  - destruct (String.eqb "video_results" key); injection Hg as <-;
      exists []; split; constructor.
Qed.

Lemma resource_bundle_complete_witness :
  exists resources execution_time,
    fst (create_content_calendar (sample_env (answering canned) second_topic_fails)
           "Fitness" "busy professionals" "increase brand awareness" initial_state)
    = Ok (PDict [("trends", canned 0); ("strategy", canned 1); ("briefs", canned 2);
                 ("resources", PDict resources); ("execution_time", execution_time)])
    /\ Py.dict_get resources "Protein myths" = Some empty_bundle.
Proof.
  pose (E := sample_env (answering canned) second_topic_fails).
  assert (Hf : four_searches_fail E (4 * 1 + 0))
    by (repeat split; intros params; eexists; reflexivity).
  apply (proj2 (proj2 (resource_bundle_complete E)
                  (second_topic_fails_well_shaped (answering canned)))
           canned "Fitness" "busy professionals" "increase brand awareness"
           initial_state ["Home workouts"] "Protein myths" ["Home workouts"]
           (answering_answers canned _) eq_refl).
  - intros [H|[]]. discriminate H.
  - exact Hf.
Defined.

(** The run of the witness: the first topic (its last aggregation, the
    searches of day 3) is populated, the second has the four empty lists. *)
Example failed_topic_among_others :
  match fst (create_content_calendar (sample_env (answering canned) second_topic_fails)
               "Fitness" "busy professionals" "increase brand awareness" initial_state) with
  | Ok (PDict d) =>
      match Py.dict_get d "resources" with
      | Some (PDict resources) =>
          Py.dict_get resources "Protein myths" = Some empty_bundle
          /\ Py.dict_get resources "Home workouts"
             = Some (PDict
                  [("research",
                    PList [PDict [("title", PStr "Result"); ("link", PInt 8);
                                  ("snippet", PStr "")]]);
                   ("videos", PList []);
                   ("tools",
                    PList [PDict [("name", PStr "Result"); ("link", PInt 10);
                                  ("description", PStr "")]]);
                   ("stats",
                    PList [PDict [("title", PStr "Result"); ("link", PInt 11);
                                  ("snippet", PStr "")]])])
      | _ => False
      end
  | _ => False
  end.
Proof. vm_compute. split; reflexivity. Qed.

(** C10. The resources of a successful run are keyed by topic: their keys
    are the distinct extracted topics, each at its first place, so there are
    as many keys as distinct topics, fewer than topics as soon as one topic
    is extracted twice; and the bundle stored for a topic is the one its
    last aggregation produced. *)
Theorem resources_keyed_by_topic (E : env) :
  (forall industry target_audience content_goals s d,
     fst (create_content_calendar E industry target_audience content_goals s)
     = Ok (PDict d) ->
     Py.keys d = success_keys ->
     exists strategy topics resources s0 s1,
       Py.dict_get d "strategy" = Some strategy
       /\ extract_topics strategy = Ok topics
       /\ Py.dict_get d "resources" = Some (PDict resources)
       /\ gather_resources E topics [] s0 = (Ok resources, s1)
       /\ Py.keys resources = distinct topics
       /\ List.length resources = List.length (distinct topics)
       /\ (List.length resources <= List.length topics)%nat
       /\ (~ NoDup topics -> (List.length resources < List.length topics)%nat))
  /\ (forall before topic after resources rs s s',
        gather_resources E (before ++ topic :: after)%list resources s = (Ok rs, s') ->
        ~ In topic after ->
        exists r1 s1 bundle s2,
          gather_resources E before resources s = (Ok r1, s1)
          /\ generate_resources_for_topic E topic s1 = (Ok bundle, s2)
          /\ Py.dict_get rs topic = Some bundle).
Proof.
  split; [|intros; eapply gather_resources_last; eauto].
  intros industry target_audience content_goals s d Hrun Hkeys.
  unfold create_content_calendar in Hrun. rewrite try_except_Exception in Hrun.
  match type of Hrun with
  | context [match ?b with _ => _ end] => destruct b as [[v|e] s'] eqn:H
  end.
  - cbn [fst] in Hrun. injection Hrun as ->.
    apply bind_ok_inv in H as (start_time & s0 & _ & H).
    apply bind_ok_inv in H as (trends & s1 & _ & H).
    apply bind_ok_inv in H as (u1 & s1' & _ & H).
    apply bind_ok_inv in H as (strategy & s2 & _ & H).
    apply bind_ok_inv in H as (u2 & s2' & _ & H).
    apply bind_ok_inv in H as (briefs & s3 & _ & H).
    apply bind_ok_inv in H as (u3 & s3' & _ & H).
    apply bind_ok_inv in H as (topics & s4 & Ht & H).
    apply lift_ok_inv in Ht as [Ht ->].
    apply bind_ok_inv in H as (resources & s5 & Hg & H).
    apply bind_ok_inv in H as (end_time & s6 & _ & H).
    injection H as <- _.
    exists strategy, topics, resources, s3', s5.
    pose proof (gather_resources_keys _ _ _ _ _ _ Hg) as Hk.
    change (Py.keys []) with (@nil string) in Hk. fold (distinct topics) in Hk.
    assert (Hlen : List.length resources = List.length (distinct topics)).
    { rewrite <- Hk. unfold Py.keys. now rewrite length_map. }
    repeat split; try assumption; try reflexivity.
    + rewrite Hlen. pose proof (distinct_from_length_le [] topics) as Hle.
      exact Hle.
    + intros Hdup. rewrite Hlen. now apply distinct_shorter.
  - cbn [fst ret] in Hrun. injection Hrun as <-. discriminate Hkeys.
Qed.

Lemma resources_keyed_by_topic_witness :
  exists topics resources,
    topics = ["Home workouts"; "Protein myths"; "Home workouts"]
    /\ Py.keys resources = ["Home workouts"; "Protein myths"]
    /\ (List.length resources < List.length topics)%nat.
Proof.
  pose (E := sample_env (answering canned) numbered_results).
  pose (d := match fst (create_content_calendar E "Fitness" "busy professionals"
                          "increase brand awareness" initial_state) with
             | Ok (PDict d) => d
             | _ => []
             end).
  assert (Hrun : fst (create_content_calendar E "Fitness" "busy professionals"
                        "increase brand awareness" initial_state) = Ok (PDict d))
    by (vm_compute; reflexivity).
  assert (Hkeys : Py.keys d = success_keys) by (vm_compute; reflexivity).
  destruct (proj1 (resources_keyed_by_topic E) _ _ _ _ d Hrun Hkeys)
    as (strategy & topics & resources & s0 & s1 & Hs & Ht & _ & _ & Hk & _ & _ & Hlt).
  vm_compute in Hs. injection Hs as <-.
  vm_compute in Ht. injection Ht as <-.
  exists ["Home workouts"; "Protein myths"; "Home workouts"], resources.
  split; [reflexivity|]. split; [exact Hk|].
  apply Hlt. intros Hnd. inversion Hnd as [|x l Hnot _]. apply Hnot. simpl. auto.
Defined.

(** The run of the witness: one entry for the topic of days 1 and 3, holding
    the results of the searches made for day 3 (the ninth to the twelfth). *)
Example duplicate_topic_keeps_last_bundle :
  match fst (create_content_calendar (sample_env (answering canned) numbered_results)
               "Fitness" "busy professionals" "increase brand awareness" initial_state) with
  | Ok (PDict d) =>
      match Py.dict_get d "resources" with
      | Some (PDict resources) =>
          Py.keys resources = ["Home workouts"; "Protein myths"]
          /\ Py.dict_get resources "Home workouts"
             = Some (PDict
                  [("research",
                    PList [PDict [("title", PStr "Result"); ("link", PInt 8);
                                  ("snippet", PStr "")]]);
                   ("videos", PList []);
                   ("tools",
                    PList [PDict [("name", PStr "Result"); ("link", PInt 10);
                                  ("description", PStr "")]]);
                   ("stats",
                    PList [PDict [("title", PStr "Result"); ("link", PInt 11);
                                  ("snippet", PStr "")]])])
      | _ => False
      end
  | _ => False
  end.
Proof. vm_compute. split; reflexivity. Qed.

(* ===================================================================== *)
(** * The retry policy *)
(* ===================================================================== *)

(** A response that is not tried again is handed back. *)
Lemma urlopen_returned (r : Retry) (m : Urllib3.http_method) (resp : response)
  (h : bool) (later : list Urllib3.attempt) :
  Urllib3.is_retry r m (status_code resp) h = false ->
  Urllib3.urlopen r m (Urllib3.Answered resp h :: later) = Some (Urllib3.Returned resp).
Proof. intros H. cbn [Urllib3.urlopen]. now rewrite H. Qed.

Lemma is_retry_listed (r : Retry) (resp : response) (h : bool) :
  listed r resp = true -> Urllib3.is_retry r Urllib3.GET (status_code resp) h = true.
Proof.
  unfold listed, Urllib3.is_retry. intros H. cbn [Urllib3.method_retryable negb].
  now rewrite H.
Qed.

Lemma is_retry_post (r : Retry) (status : Z) (h : bool) :
  Urllib3.is_retry r Urllib3.POST status h = false.
Proof. reflexivity. Qed.

(** The decision of the policy of [create_session] on a response to a GET,
    with [n] retries left. *)
Lemma is_retry_get (n : Z) (resp : response) (h : bool) :
  Urllib3.is_retry (retries_left n) Urllib3.GET (status_code resp) h
  = listed retry_strategy resp || (negb (n =? 0)%Z && h && retry_after_status resp).
Proof.
  unfold Urllib3.is_retry, listed, retry_after_status.
  cbn [Urllib3.method_retryable negb retries_left retry_strategy total status_forcelist].
  now destruct (existsb _ [500; 502; 503; 504]%Z).
Qed.

(** While retries are left, the listed statuses are passed over. *)
Lemma urlopen_retries (bad : list Urllib3.attempt) :
  forall (r : Retry) (good : response) (h : bool) (later : list Urllib3.attempt),
  Forall (fun a => listed_answer r a = true) bad ->
  Urllib3.is_retry
    {| total := total r - Z.of_nat (List.length bad);
       backoff_factor := backoff_factor r;
       status_forcelist := status_forcelist r |}
    Urllib3.GET (status_code good) h = false ->
  (Z.of_nat (List.length bad) <= total r)%Z ->
  Urllib3.urlopen r Urllib3.GET (bad ++ Urllib3.Answered good h :: later)%list
  = Some (Urllib3.Returned good).
Proof.
  induction bad as [|b rest IH]; intros r good h later Hbad Hgood Hlen.
  - cbn [List.length Z.of_nat] in Hgood. rewrite Z.sub_0_r in Hgood.
    destruct r as [t f l]. cbn [total backoff_factor status_forcelist] in Hgood.
    apply urlopen_returned, Hgood.
  - inversion Hbad as [|? ? Hb Hrest]; subst.
    destruct b as [resp hb| | | | |]; try discriminate Hb.
    cbn [listed_answer] in Hb.
    cbn [app Urllib3.urlopen]. rewrite (is_retry_listed _ _ _ Hb).
    unfold Urllib3.increment. cbn [Urllib3.is_read_error andb].
    cbn [List.length] in Hlen, Hgood.
    destruct (Z.ltb_spec (total r - 1) 0) as [Hneg|Hpos]; [lia|].
    apply IH; cbn [total backoff_factor status_forcelist]; try assumption; [|lia].
    replace (total r - 1 - Z.of_nat (List.length rest))%Z
      with (total r - Z.of_nat (S (List.length rest)))%Z by lia.
    exact Hgood.
Qed.

(** One listed status more than the retries allowed ends in [RetryError]. *)
Lemma urlopen_exhausted (bad : list Urllib3.attempt) :
  forall (r : Retry) (later : list Urllib3.attempt),
  Forall (fun a => listed_answer r a = true) bad ->
  (0 <= total r)%Z ->
  Z.of_nat (List.length bad) = (total r + 1)%Z ->
  Urllib3.urlopen r Urllib3.GET (bad ++ later)%list = Some (Urllib3.Raised RetryError).
Proof.
  induction bad as [|b rest IH]; intros r later Hbad Hpos Hlen.
  - cbn [List.length] in Hlen. lia.
  - inversion Hbad as [|? ? Hb Hrest]; subst.
    destruct b as [resp hb| | | | |]; try discriminate Hb.
    cbn [listed_answer] in Hb.
    cbn [app Urllib3.urlopen]. rewrite (is_retry_listed _ _ _ Hb).
    unfold Urllib3.increment. cbn [Urllib3.is_read_error andb].
    cbn [List.length] in Hlen.
    destruct (Z.ltb_spec (total r - 1) 0) as [Hneg|Hge].
    + reflexivity.
    + apply IH; cbn [total status_forcelist]; try assumption; lia.
Qed.

(** C7 (as amended). The session of [create_session] is set to 3 retries,
    backoff factor 1, on the statuses 500, 502, 503, 504, for both schemes.
    A GET sent through it is sent again when the response has one of those
    statuses, or has one of the statuses 413, 429, 503 and carries a
    [Retry-After] header, and for no other response.  Up to three responses
    with a listed status are passed over and the next response is handed
    back (so 503, 503, 200 gives the 200 response, and so does 503, 503,
    503, 200), unless it is to be tried again too; after three retries only
    a listed status is: four of them in a row fail with [RetryError], a
    [RequestException].  A POST is not sent again whatever the response. *)
Theorem create_session_retry_policy :
  (forall s, fst (create_session s) = Ok the_session)
  /\ total (https_adapter the_session) = 3%Z
  /\ backoff_factor (https_adapter the_session) = 1%Z
  /\ status_forcelist (https_adapter the_session) = [500; 502; 503; 504]%Z
  /\ http_adapter the_session = https_adapter the_session
  /\ (forall resp h later,
        Urllib3.send the_session Urllib3.GET (Urllib3.Answered resp h :: later)
        = if listed retry_strategy resp || (h && retry_after_status resp)
          then Urllib3.urlopen (retries_left 2) Urllib3.GET later
          else Some (Urllib3.Returned resp))
  /\ (forall bad good h later,
        Forall (fun a => listed_answer retry_strategy a = true) bad ->
        listed retry_strategy good = false ->
        h && retry_after_status good = false \/ List.length bad = 3%nat ->
        (List.length bad <= 3)%nat ->
        Urllib3.send the_session Urllib3.GET
          (bad ++ Urllib3.Answered good h :: later)%list
        = Some (Urllib3.Returned good))
  /\ (forall bad later,
        Forall (fun a => listed_answer retry_strategy a = true) bad ->
        List.length bad = 4%nat ->
        Urllib3.send the_session Urllib3.GET (bad ++ later)%list
        = Some (Urllib3.Raised RetryError))
  /\ issubclass RetryError RequestException = true
  /\ (forall resp h later,
        Urllib3.send the_session Urllib3.POST (Urllib3.Answered resp h :: later)
        = Some (Urllib3.Returned resp)).
Proof.
  split; [reflexivity|]. split; [reflexivity|]. split; [reflexivity|].
  split; [reflexivity|]. split; [reflexivity|].
  split; [|split; [|split; [|split; [reflexivity|reflexivity]]]].
  - intros resp h later. unfold Urllib3.send.
    cbn [the_session https_adapter Urllib3.urlopen].
    change retry_strategy with (retries_left 3) at 1.
    rewrite is_retry_get. cbn [Z.eqb negb andb].
    destruct (listed retry_strategy resp || h && retry_after_status resp);
      reflexivity.
  - intros bad good h later Hbad Hgood Hh Hlen. unfold Urllib3.send.
    apply urlopen_retries; try assumption;
      cbn [the_session https_adapter retry_strategy total backoff_factor status_forcelist];
      [|lia].
    fold (retries_left (3 - Z.of_nat (List.length bad))).
    rewrite is_retry_get, Hgood. cbn [orb].
    destruct Hh as [Hh|Hthree].
    + rewrite <- andb_assoc, Hh. apply andb_false_r.
    + rewrite Hthree. reflexivity.
  - intros bad later Hbad Hlen. unfold Urllib3.send.
    apply urlopen_exhausted; try assumption;
      cbn [the_session https_adapter retry_strategy total]; lia.
Qed.

Lemma create_session_retry_policy_witness :
  Urllib3.send the_session Urllib3.GET [answers 503; answers 503; answers 200]
  = Some (Urllib3.Returned (status_response 200))
  /\ Urllib3.send the_session Urllib3.GET
       [answers 503; answers 503; answers 503; answers 503; answers 200]
     = Some (Urllib3.Raised RetryError).
Proof.
  destruct create_session_retry_policy as (_ & _ & _ & _ & _ & _ & Hretry & Hfail & _).
  split.
  - apply (Hretry [answers 503; answers 503] (status_response 200) false []).
    + repeat constructor.
    + reflexivity.
    + left. reflexivity.
    + simpl. lia.
  - apply (Hfail [answers 503; answers 503; answers 503; answers 503] [answers 200]).
    + repeat constructor.
    + reflexivity.
Defined.

(** C7, as stated, fails: after three 503 in a row the retries are not
    exhausted, a fourth attempt is made and its response returned; a status
    that is not listed is tried again when the response carries
    [Retry-After]; and the POST of the generation adapter is not sent again
    at all. *)
Lemma three_503_then_200 :
  Urllib3.send the_session Urllib3.GET
    [answers 503; answers 503; answers 503; answers 200]
  = Some (Urllib3.Returned (status_response 200))
  /\ Urllib3.attempts retry_strategy Urllib3.GET
       [answers 503; answers 503; answers 503; answers 200]
     = 4%nat
  /\ Urllib3.send the_session Urllib3.GET
       [Urllib3.Answered (status_response 429) true; answers 200]
     = Some (Urllib3.Returned (status_response 200))
  /\ Urllib3.send the_session Urllib3.POST [answers 503; answers 200]
     = Some (Urllib3.Returned (status_response 503)).
Proof. repeat split. Qed.

(* ===================================================================== *)
(** * Reading back what [json.dumps] wrote: characters and strings *)
(* ===================================================================== *)

Lemma append_assoc (a b c : string) : ((a ++ b) ++ c = a ++ (b ++ c))%string.
Proof. induction a as [|x a IH]; simpl; [reflexivity|now rewrite IH]. Qed.

Lemma append_nil_r (a : string) : (a ++ "" = a)%string.
Proof. induction a as [|x a IH]; simpl; [reflexivity|now rewrite IH]. Qed.

Lemma length_append (a b : string) :
  String.length (a ++ b) = (String.length a + String.length b)%nat.
Proof. induction a as [|x a IH]; simpl; [reflexivity|now rewrite IH]. Qed.

(** One escaped character reads back as the character. *)
Lemma scanstring_escape_char (c : ascii) (tail : string) :
  JsonDecode.scanstring (Json.escape_char c ++ tail)
  = JsonDecode.cons_char c (JsonDecode.scanstring tail).
Proof.
  destruct c as [[] [] [] [] [] [] [] []]; reflexivity.
Qed.

Lemma scanstring_escape (s rest : string) :
  JsonDecode.scanstring (Json.escape s ++ String PyStr.dquote rest) = Some (s, rest).
Proof.
  induction s as [|c s IH]; [reflexivity|].
  cbn [Json.escape]. rewrite append_assoc, scanstring_escape_char, IH. reflexivity.
Qed.

Lemma scanstring_encode_string (s rest : string) :
  exists tail,
    (Json.encode_string s ++ rest)%string = String PyStr.dquote tail
    /\ JsonDecode.scanstring tail = Some (s, rest).
Proof.
  exists (Json.escape s ++ String PyStr.dquote rest)%string. split.
  - unfold Json.encode_string. cbn [append]. now rewrite append_assoc.
  - apply scanstring_escape.
Qed.

(* ===================================================================== *)
(** * White space and delimiters *)
(* ===================================================================== *)

Lemma skip_ws_all_ws (w s : string) :
  all_ws w = true -> JsonDecode.skip_ws (w ++ s) = JsonDecode.skip_ws s.
Proof.
  induction w as [|c w IH]; simpl; [reflexivity|].
  intros H. apply andb_true_iff in H as [Hc Hw]. rewrite Hc. now apply IH.
Qed.

Lemma skip_ws_token (c : ascii) (s : string) :
  JsonDecode.is_ws c = false -> JsonDecode.skip_ws (String c s) = String c s.
Proof. intros H. simpl. now rewrite H. Qed.

Lemma all_ws_spaces (n : nat) : all_ws (Json.spaces n) = true.
Proof. induction n; simpl; [reflexivity|assumption]. Qed.

Lemma all_ws_newline_indent (indent : option nat) (level : nat) :
  all_ws (Json.newline_indent indent level) = true.
Proof.
  destruct indent as [n|]; simpl; [apply all_ws_spaces|reflexivity].
Qed.

Lemma separator_comma (indent : option nat) (level : nat) :
  (Json.item_separator indent ++ Json.newline_indent indent level)%string
  = String "," (after_comma indent level).
Proof. destruct indent; reflexivity. Qed.

Lemma all_ws_after_comma (indent : option nat) (level : nat) :
  all_ws (after_comma indent level) = true.
Proof.
  destruct indent as [n|]; [apply (all_ws_newline_indent (Some n))|reflexivity].
Qed.

(** The text that closes a list or dict is delimited. *)
Lemma delimited_closing (indent : option nat) (level : nat) (c : ascii) (rest : string) :
  is_delim c = true ->
  delimited (Json.newline_indent indent level ++ String c rest) = true.
Proof. destruct indent; simpl; auto. Qed.

(* ===================================================================== *)
(** * Reading back numbers *)
(* ===================================================================== *)

Lemma is_delim_not_number (c : ascii) :
  is_delim c = true ->
  JsonDecode.is_digit c = false /\ Ascii.eqb c "." = false
  /\ Ascii.eqb c "e" = false /\ Ascii.eqb c "E" = false
  /\ Ascii.eqb c "+" = false /\ Ascii.eqb c "-" = false.
Proof.
  intros H. destruct c as [[] [] [] [] [] [] [] []];
    first [discriminate H | repeat split].
Qed.

Lemma take_digits_app (s rest d r : string) :
  JsonDecode.take_digits s = (d, r) ->
  delimited rest = true ->
  JsonDecode.take_digits (s ++ rest) = (d, (r ++ rest)%string).
Proof.
  intros H Hrest. revert d r H. induction s as [|c s IH]; intros d r H.
  - injection H as <- <-. simpl. destruct rest as [|c rest]; [reflexivity|].
    simpl in *. now destruct (is_delim_not_number c Hrest) as [-> _].
  - simpl in *. destruct (JsonDecode.is_digit c).
    + destruct (JsonDecode.take_digits s) as [d' r'].
      injection H as <- <-. now rewrite (IH d' r' eq_refl).
    + now injection H as <- <-.
Qed.

Lemma scan_int_app (s rest i r : string) :
  JsonDecode.scan_int s = Some (i, r) ->
  delimited rest = true ->
  JsonDecode.scan_int (s ++ rest) = Some (i, (r ++ rest)%string).
Proof.
  intros H Hrest. destruct s as [|c s]; [discriminate|].
  cbn [append]. unfold JsonDecode.scan_int in *.
  destruct (Ascii.eqb c "0").
  - now injection H as <- <-.
  - destruct (JsonDecode.is_digit c); [|discriminate].
    injection H as H. change (String c (s ++ rest)) with (String c s ++ rest)%string.
    f_equal. apply take_digits_app; assumption.
Qed.

Lemma scan_frac_app (s rest f r : string) :
  JsonDecode.scan_frac s = (f, r) ->
  delimited rest = true ->
  JsonDecode.scan_frac (s ++ rest) = (f, (r ++ rest)%string).
Proof.
  intros H Hrest. destruct s as [|c s].
  - injection H as <- <-. destruct rest as [|c rest]; [reflexivity|].
    simpl in *. now destruct (is_delim_not_number c Hrest) as (_ & -> & _).
  - cbn [append]. unfold JsonDecode.scan_frac in *.
    destruct (Ascii.eqb c ".").
    + destruct (JsonDecode.take_digits s) as [ds r1] eqn:Hd.
      rewrite (take_digits_app s rest ds r1 Hd Hrest).
      destruct ds; now injection H as <- <-.
    + now injection H as <- <-.
Qed.

Lemma scan_exp_app (s rest e r : string) :
  JsonDecode.scan_exp s = (e, r) ->
  delimited rest = true ->
  JsonDecode.scan_exp (s ++ rest) = (e, (r ++ rest)%string).
Proof.
  intros H Hrest. destruct s as [|c s].
  - injection H as <- <-. destruct rest as [|c rest]; [reflexivity|].
    simpl in *. destruct (is_delim_not_number c Hrest) as (_ & _ & -> & -> & _).
    reflexivity.
  - cbn [append]. unfold JsonDecode.scan_exp in *.
    destruct (Ascii.eqb c "e" || Ascii.eqb c "E"); [|now injection H as <- <-].
    destruct s as [|g s].
    + simpl in H. injection H as <- <-. cbn [append].
      destruct rest as [|d rest]; [reflexivity|].
      simpl in Hrest. destruct (is_delim_not_number d Hrest) as (Hd & _ & _ & _ & -> & ->).
      cbn [orb JsonDecode.take_digits]. now rewrite Hd.
    + cbn [append]. destruct (Ascii.eqb g "+" || Ascii.eqb g "-").
      * destruct (JsonDecode.take_digits s) as [ds r1] eqn:Hd.
        rewrite (take_digits_app s rest ds r1 Hd Hrest).
        destruct ds; now injection H as <- <-.
      * destruct (JsonDecode.take_digits (String g s)) as [ds r1] eqn:Hd.
        change (String g (s ++ rest)) with (String g s ++ rest)%string.
        rewrite (take_digits_app (String g s) rest ds r1 Hd Hrest).
        destruct ds; now injection H as <- <-.
Qed.

Lemma scan_unsigned_app (sign s rest : string) (v : pyval) (r : string) :
  JsonDecode.scan_unsigned sign s = Some (v, r) ->
  delimited rest = true ->
  JsonDecode.scan_unsigned sign (s ++ rest) = Some (v, (r ++ rest)%string).
Proof.
  unfold JsonDecode.scan_unsigned. intros H Hrest.
  destruct (JsonDecode.scan_int s) as [[i r1]|] eqn:Hi; [|discriminate].
  rewrite (scan_int_app s rest i r1 Hi Hrest).
  destruct (JsonDecode.scan_frac r1) as [f r2] eqn:Hf.
  rewrite (scan_frac_app r1 rest f r2 Hf Hrest).
  destruct (JsonDecode.scan_exp r2) as [e r3] eqn:He.
  rewrite (scan_exp_app r2 rest e r3 He Hrest).
  destruct f; destruct e;
    try (destruct (NilZero.int_of_string (sign ++ i)); [|discriminate]);
    now injection H as <- <-.
Qed.

(** A number followed by a delimiter is read as it is read alone. *)
Lemma scan_number_app (s rest : string) (v : pyval) (r : string) :
  JsonDecode.scan_number s = Some (v, r) ->
  delimited rest = true ->
  JsonDecode.scan_number (s ++ rest) = Some (v, (r ++ rest)%string).
Proof.
  intros H Hrest. destruct s as [|c s]; [discriminate|].
  cbn [append]. unfold JsonDecode.scan_number in *.
  destruct (Ascii.eqb c "-").
  - now apply scan_unsigned_app.
  - change (String c (s ++ rest)) with (String c s ++ rest)%string.
    now apply scan_unsigned_app.
Qed.

(** A number starts with a minus sign or a digit. *)
Lemma scan_number_first (c : ascii) (s : string) (x : pyval * string) :
  JsonDecode.scan_number (String c s) = Some x -> number_first c = true.
Proof.
  unfold JsonDecode.scan_number, number_first.
  destruct (Ascii.eqb c "-"); [reflexivity|].
  unfold JsonDecode.scan_unsigned, JsonDecode.scan_int.
  destruct (Ascii.eqb_spec c "0") as [->|_]; [reflexivity|].
  destruct (JsonDecode.is_digit c); [reflexivity|discriminate].
Qed.

(** The digits of a decimal number. *)
Lemma take_digits_uint (d : Decimal.uint) :
  JsonDecode.take_digits (NilEmpty.string_of_uint d)
  = (NilEmpty.string_of_uint d, EmptyString).
Proof.
  induction d; simpl; try reflexivity; now rewrite IHd.
Qed.

Lemma to_uint_no_leading_zero (p : positive) (d : Decimal.uint) :
  Pos.to_uint p <> Decimal.D0 d.
Proof.
  intros H.
  assert (Hn : Decimal.unorm (Pos.to_uint p) = Pos.to_uint p).
  { rewrite <- (DecimalPos.Unsigned.to_of (Pos.to_uint p)).
    now rewrite DecimalPos.Unsigned.of_to. }
  unfold Decimal.unorm in Hn.
  destruct (Decimal.nzhead (Pos.to_uint p)) eqn:Hz;
    try (rewrite <- Hn in H; rewrite <- Hz in H;
         exact (DecimalFacts.nzhead_nonzero _ _ H)).
  apply (DecimalPos.Unsigned.to_uint_nonzero p). now rewrite <- Hn.
Qed.

Lemma scan_int_uint (p : positive) :
  JsonDecode.scan_int (NilEmpty.string_of_uint (Pos.to_uint p))
  = Some (NilEmpty.string_of_uint (Pos.to_uint p), EmptyString).
Proof.
  pose proof (to_uint_no_leading_zero p) as Hz.
  pose proof (DecimalPos.Unsigned.to_uint_nonnil p) as Hn.
  pose proof (take_digits_uint (Pos.to_uint p)) as Ht.
  destruct (Pos.to_uint p) as [|d|d|d|d|d|d|d|d|d|d];
    [congruence | exfalso; exact (Hz d eq_refl) | ..];
    unfold JsonDecode.scan_int; cbn [NilEmpty.string_of_uint] in *;
    cbn [Ascii.eqb Bool.eqb JsonDecode.is_digit]; now rewrite Ht.
Qed.

Lemma string_of_uint_pos (p : positive) :
  NilZero.string_of_uint (Pos.to_uint p) = NilEmpty.string_of_uint (Pos.to_uint p).
Proof.
  pose proof (DecimalPos.Unsigned.to_uint_nonnil p) as Hn.
  now destruct (Pos.to_uint p).
Qed.

Lemma uint_first_digit (p : positive) :
  exists c r, NilEmpty.string_of_uint (Pos.to_uint p) = String c r
              /\ Ascii.eqb c "-" = false.
Proof.
  pose proof (DecimalPos.Unsigned.to_uint_nonnil p) as Hn.
  destruct (Pos.to_uint p); [congruence|..]; cbn [NilEmpty.string_of_uint];
    eexists; eexists; split; reflexivity.
Qed.

Lemma scan_number_int (z : Z) :
  JsonDecode.scan_number (PyRepr.str_int z) = Some (PInt z, EmptyString).
Proof.
  unfold PyRepr.str_int.
  assert (Hround : NilZero.int_of_string (NilZero.string_of_int (Z.to_int z))
                   = Some (Z.to_int z)).
  { apply NilZero.isi; destruct z; simpl; try discriminate;
      intros [= H]; exact (DecimalPos.Unsigned.to_uint_nonnil _ H). }
  destruct z as [|p|p].
  - reflexivity.
  - cbn [Z.to_int NilZero.string_of_int] in *. rewrite string_of_uint_pos in *.
    destruct (uint_first_digit p) as (c & r & Hc & Hm).
    unfold JsonDecode.scan_number. rewrite Hc, Hm, <- Hc.
    unfold JsonDecode.scan_unsigned. rewrite scan_int_uint.
    cbn [JsonDecode.scan_frac JsonDecode.scan_exp append].
    rewrite Hround. now rewrite <- (DecimalZ.of_to (Z.pos p)).
  - cbn [Z.to_int NilZero.string_of_int] in *. rewrite string_of_uint_pos in *.
    unfold JsonDecode.scan_number. cbn [Ascii.eqb Bool.eqb].
    unfold JsonDecode.scan_unsigned. rewrite scan_int_uint.
    cbn [JsonDecode.scan_frac JsonDecode.scan_exp append].
    rewrite Hround. now rewrite <- (DecimalZ.of_to (Z.neg p)).
Qed.

(* ===================================================================== *)
(** * Reading back values *)
(* ===================================================================== *)

(** Induction on values, with the hypothesis for every element of a list and
    every value of a dict. *)
Lemma pyval_induction (P : pyval -> Prop) :
  P PNone -> (forall b, P (PBool b)) -> (forall z, P (PInt z)) ->
  (forall r, P (PFloat r)) -> (forall s, P (PStr s)) ->
  (forall l, Forall P l -> P (PList l)) ->
  (forall d, Forall (fun kv => P (snd kv)) d -> P (PDict d)) ->
  forall v, P v.
Proof.
  intros HNone HBool HInt HFloat HStr HList HDict.
  fix IH 1. intros [| b | z | r | s | l | d].
  - exact HNone.
  - apply HBool.
  - apply HInt.
  - apply HFloat.
  - apply HStr.
  - apply HList. induction l as [|x l IHl]; constructor; [apply IH | exact IHl].
  - apply HDict. induction d as [|[k x] d IHd]; constructor; [apply IH | exact IHd].
Qed.

Lemma number_first_dispatch (c : ascii) :
  number_first c = true ->
  Ascii.eqb c PyStr.dquote = false /\ Ascii.eqb c "{" = false
  /\ Ascii.eqb c "[" = false /\ Ascii.eqb c "n" = false
  /\ Ascii.eqb c "t" = false /\ Ascii.eqb c "f" = false
  /\ value_first c = true.
Proof.
  intros H. destruct c as [[] [] [] [] [] [] [] []];
    first [discriminate H | repeat split].
Qed.

(** [scan_once] hands a text that starts like a number to [scan_number]. *)
Lemma scan_once_number (fuel : nat) (s : string) (x : pyval * string) :
  JsonDecode.scan_number s = Some x -> JsonDecode.scan_once (S fuel) s = Some x.
Proof.
  intros H. destruct s as [|c s]; [discriminate|].
  pose proof (scan_number_first c s x H) as Hc.
  destruct (number_first_dispatch c Hc) as (H1 & H2 & H3 & H4 & H5 & H6 & _).
  cbn [JsonDecode.scan_once]. now rewrite H1, H2, H3, H4, H5, H6.
Qed.

Lemma float_literal_scan (r : string) :
  float_literal r = true -> JsonDecode.scan_number r = Some (PFloat r, EmptyString).
Proof.
  unfold float_literal.
  destruct (JsonDecode.scan_number r) as [[[| | |r'| | |] [|c t]]|]; try discriminate.
  intros H. apply String.eqb_eq in H. now subst.
Qed.

Lemma number_text_first (s : string) (v : pyval) :
  JsonDecode.scan_number s = Some (v, EmptyString) ->
  exists c r, s = String c r /\ value_first c = true.
Proof.
  intros H. destruct s as [|c r]; [discriminate|].
  exists c, r. split; [reflexivity|].
  apply number_first_dispatch. eapply scan_number_first; eauto.
Qed.

(** An encoded value starts with a character that is neither white space nor
    a closing bracket. *)
Lemma encode_first (indent : option nat) (level : nat) (v : pyval) :
  json_value v = true ->
  exists c r, Json.encode indent level v = String c r /\ value_first c = true.
Proof.
  destruct v as [| [] | z | r | s | [|x l] | [|kv d]]; intros Hv;
    try (eexists; eexists; split; reflexivity).
  - apply (number_text_first _ _ (scan_number_int z)).
  - apply (number_text_first _ _ (float_literal_scan r Hv)).
Qed.

Lemma skip_ws_value (w s : string) (c : ascii) (r : string) :
  all_ws w = true -> s = String c r -> value_first c = true ->
  JsonDecode.skip_ws (w ++ s) = String c r.
Proof.
  intros Hw -> Hc. rewrite skip_ws_all_ws by assumption.
  apply skip_ws_token. unfold value_first in Hc.
  apply andb_true_iff in Hc as [Hc _]. apply andb_true_iff in Hc as [Hc _].
  now apply negb_true_iff in Hc.
Qed.

Lemma value_first_not_closing (c : ascii) :
  value_first c = true -> Ascii.eqb c "]" = false /\ Ascii.eqb c "}" = false.
Proof.
  unfold value_first. intros H.
  apply andb_true_iff in H as [H H2]. apply andb_true_iff in H as [_ H1].
  now apply negb_true_iff in H1; apply negb_true_iff in H2.
Qed.

Lemma skip_ws_before_value (w : string) (indent : option nat) (level : nat) (v : pyval)
  (rest : string) :
  all_ws w = true -> json_value v = true ->
  JsonDecode.skip_ws (w ++ (Json.encode indent level v ++ rest))
  = (Json.encode indent level v ++ rest)%string.
Proof.
  intros Hw Hv. destruct (encode_first indent level v Hv) as (c & r & Hc & Hf).
  rewrite Hc. cbn [append]. now apply skip_ws_value.
Qed.

Lemma skip_ws_space_value (indent : option nat) (level : nat) (v : pyval) (rest : string) :
  json_value v = true ->
  JsonDecode.skip_ws (String " " (Json.encode indent level v ++ rest))
  = (Json.encode indent level v ++ rest)%string.
Proof. intros Hv. exact (skip_ws_before_value " " indent level v rest eq_refl Hv). Qed.

Section Containers.

Variable indent : option nat.
Variable level : nat.

Let enc := Json.encode indent (S level).
Let sep := (Json.item_separator indent ++ Json.newline_indent indent (S level))%string.
Let closing (c : ascii) (rest : string) :=
  (Json.newline_indent indent level ++ String c rest)%string.

Lemma skip_ws_closing (c : ascii) (rest : string) :
  JsonDecode.is_ws c = false -> JsonDecode.skip_ws (closing c rest) = String c rest.
Proof.
  intros H. unfold closing. rewrite skip_ws_all_ws by apply all_ws_newline_indent.
  now apply skip_ws_token.
Qed.

(** The items of a list, up to the closing bracket. *)
Lemma scan_items_reads_back (l : list pyval) :
  l <> [] ->
  Forall (fun x => json_value x = true /\ reads_back x) l ->
  forall fuel rest,
    (list_sum (map (fun x => S (size x)) l) <= fuel)%nat ->
    delimited rest = true ->
    JsonDecode.scan_items fuel (Json.join sep (map enc l) ++ closing "]" rest)
    = Some (l, rest).
Proof.
  induction l as [|x l IH]; [congruence|]. intros _ Hall fuel rest Hfuel Hrest.
  inversion Hall as [|? ? [Hx Hread] Hl]; subst.
  destruct fuel as [|f]; [simpl in Hfuel; lia|].
  cbn [map list_sum fold_right] in Hfuel.
  destruct l as [|y l].
  - cbn [map Json.join JsonDecode.scan_items]. unfold enc.
    rewrite (Hread indent (S level) f (closing "]" rest)).
    + now rewrite skip_ws_closing.
    + simpl in Hfuel. lia.
    + now apply delimited_closing.
  - cbn [map list_sum fold_right] in Hfuel.
    change (Json.join sep (map enc (x :: y :: l)))
      with (enc x ++ sep ++ Json.join sep (map enc (y :: l)))%string.
    rewrite !append_assoc. unfold sep at 1. rewrite separator_comma.
    cbn [append JsonDecode.scan_items]. unfold enc at 1.
    rewrite (Hread indent (S level) f).
    + cbn [JsonDecode.skip_ws JsonDecode.is_ws nat_of_ascii Ascii.eqb Bool.eqb].
      change (JsonDecode.is_ws ",") with false. cbv iota.
      inversion Hl as [|? ? [Hy _] _]; subst.
      destruct (encode_first indent (S level) y Hy) as (c & r & Hc & Hf).
      assert (Hstart : exists r', (Json.join sep (map enc (y :: l)) ++ closing "]" rest)%string
                                  = String c r').
      { destruct l as [|z l]; cbn [map Json.join]; unfold enc at 1; rewrite Hc;
          eexists; reflexivity. }
      destruct Hstart as [r' Hr'].
      rewrite (skip_ws_value _ _ c r' (all_ws_after_comma indent (S level)) Hr' Hf).
      rewrite <- Hr'. rewrite IH; [reflexivity|discriminate|assumption| |assumption].
      cbn [map list_sum fold_right] in Hfuel |- *. lia.
    + lia.
    + reflexivity.
Qed.

(** The entries of a dict from after the opening quote of the first key, up
    to the closing brace. *)
Lemma scan_pairs_reads_back (d : list (string * pyval)) :
  d <> [] ->
  Forall (fun kv => json_value (snd kv) = true /\ reads_back (snd kv)) d ->
  forall fuel rest tail,
    (list_sum (map (fun kv => S (size (snd kv))) d) <= fuel)%nat ->
    delimited rest = true ->
    (Json.join sep (map (encode_item indent (S level)) d) ++ closing "}" rest)%string
    = String PyStr.dquote tail ->
    JsonDecode.scan_pairs fuel tail = Some (d, rest).
Proof.
  induction d as [|[k v] d IH]; [congruence|].
  intros _ Hall fuel rest tail Hfuel Hrest Htail.
  inversion Hall as [|? ? [Hv Hread] Hd]; subst. cbn [snd] in *.
  destruct fuel as [|f]; [simpl in Hfuel; lia|].
  cbn [map list_sum fold_right snd] in Hfuel.
  assert (Hv' := encode_first indent (S level) v Hv).
  destruct Hv' as (cv & rv & Hcv & Hfv).
  destruct d as [|[k2 v2] d].
  - cbn [map Json.join] in Htail. unfold encode_item in Htail. cbn [fst snd] in Htail.
    unfold Json.encode_string in Htail. cbn [append] in Htail.
    rewrite !append_assoc in Htail. cbn [append] in Htail.
    injection Htail as <-.
    cbn [JsonDecode.scan_pairs]. rewrite scanstring_escape.
    cbn [JsonDecode.skip_ws]. change (JsonDecode.is_ws ":") with false. cbv iota.
    change (":" =? ":")%char with true. cbv iota.
    rewrite (skip_ws_space_value indent (S level) v _ Hv).
    rewrite (Hread indent (S level) f (closing "}" rest)).
    + now rewrite skip_ws_closing.
    + simpl in Hfuel. lia.
    + now apply delimited_closing.
  - cbn [map list_sum fold_right snd] in Hfuel.
    change (Json.join sep (map (encode_item indent (S level)) ((k, v) :: (k2, v2) :: d)))
      with (encode_item indent (S level) (k, v) ++ sep
            ++ Json.join sep (map (encode_item indent (S level)) ((k2, v2) :: d)))%string
      in Htail.
    remember (Json.join sep (map (encode_item indent (S level)) ((k2, v2) :: d))) as J eqn:HJ.
    unfold encode_item at 1 in Htail. cbn [fst snd] in Htail.
    unfold Json.encode_string at 1 in Htail. cbn [append] in Htail.
    rewrite !append_assoc in Htail. cbn [append] in Htail.
    unfold sep at 1 in Htail. rewrite separator_comma in Htail.
    injection Htail as <-.
    cbn [JsonDecode.scan_pairs]. rewrite scanstring_escape.
    cbn [JsonDecode.skip_ws]. change (JsonDecode.is_ws ":") with false. cbv iota.
    change (":" =? ":")%char with true. cbv iota.
    rewrite (skip_ws_space_value indent (S level) v _ Hv).
    rewrite (Hread indent (S level) f); [|lia|reflexivity].
    cbn [JsonDecode.skip_ws]. change (JsonDecode.is_ws ",") with false. cbv iota.
    change ("," =? "}")%char with false. change ("," =? ",")%char with true. cbv iota.
    assert (Hstart : exists tail2,
               (J ++ closing "}" rest)%string = String PyStr.dquote tail2).
    { rewrite HJ. destruct d as [|kv3 d]; cbn [map Json.join]; unfold encode_item at 1;
        unfold Json.encode_string; cbn [append]; eexists; reflexivity. }
    destruct Hstart as [tail2 Ht2].
    rewrite (skip_ws_value _ _ PyStr.dquote tail2
               (all_ws_after_comma indent (S level)) Ht2 eq_refl).
    change (PyStr.dquote =? PyStr.dquote)%char with true. cbv iota.
    rewrite (IH ltac:(discriminate) Hd f rest tail2); [reflexivity| |assumption|assumption].
    cbn [map list_sum fold_right snd] in Hfuel |- *. lia.
Qed.

Lemma encode_list_cons (x : pyval) (l : list pyval) :
  Json.encode indent level (PList (x :: l))
  = ("[" ++ Json.newline_indent indent (S level)
     ++ Json.join sep (map enc (x :: l)) ++ Json.newline_indent indent level ++ "]")%string.
Proof. reflexivity. Qed.

Lemma encode_dict_cons (kv : string * pyval) (d : list (string * pyval)) :
  Json.encode indent level (PDict (kv :: d))
  = ("{" ++ Json.newline_indent indent (S level)
     ++ Json.join sep (map (encode_item indent (S level)) (kv :: d))
     ++ Json.newline_indent indent level ++ "}")%string.
Proof. reflexivity. Qed.

Lemma scan_once_list (f : nat) (r : string) :
  JsonDecode.scan_once (S f) (String "[" r)
  = match JsonDecode.skip_ws r with
    | String c1 r1 =>
        if Ascii.eqb c1 "]" then Some (PList [], r1)
        else match JsonDecode.scan_items f (String c1 r1) with
             | Some (items, rest) => Some (PList items, rest)
             | None => None
             end
    | EmptyString => None
    end.
Proof. reflexivity. Qed.

Lemma scan_once_dict (f : nat) (r : string) :
  JsonDecode.scan_once (S f) (String "{" r)
  = match JsonDecode.skip_ws r with
    | String c1 r1 =>
        if Ascii.eqb c1 "}" then Some (PDict [], r1)
        else if Ascii.eqb c1 PyStr.dquote then
          match JsonDecode.scan_pairs f r1 with
          | Some (pairs, rest) => Some (PDict (JsonDecode.dict_of_pairs pairs []), rest)
          | None => None
          end
        else None
    | EmptyString => None
    end.
Proof. reflexivity. Qed.

Lemma scan_list_reads_back (x : pyval) (l : list pyval) (fuel : nat) (rest : string) :
  Forall (fun x => json_value x = true /\ reads_back x) (x :: l) ->
  (size (PList (x :: l)) <= fuel)%nat ->
  delimited rest = true ->
  JsonDecode.scan_once fuel (Json.encode indent level (PList (x :: l)) ++ rest)
  = Some (PList (x :: l), rest).
Proof.
  intros Hall Hfuel Hrest.
  destruct fuel as [|f]; [simpl in Hfuel; lia|].
  cbn [size] in Hfuel.
  rewrite encode_list_cons, !append_assoc.
  change ("[" ++ ?s)%string with (String "[" s). rewrite scan_once_list.
  change ("]" ++ rest)%string with (String "]" rest).
  fold (closing "]" rest).
  inversion Hall as [|? ? [Hx _] _]; subst.
  destruct (encode_first indent (S level) x Hx) as (c & r & Hc & Hf).
  assert (Hstart : exists r', (Json.join sep (map enc (x :: l)) ++ closing "]" rest)%string
                              = String c r').
  { destruct l as [|z l]; cbn [map Json.join]; unfold enc at 1; rewrite Hc;
      eexists; reflexivity. }
  destruct Hstart as [r' Hr'].
  rewrite (skip_ws_value _ _ c r' (all_ws_newline_indent indent (S level)) Hr' Hf).
  rewrite (proj1 (value_first_not_closing c Hf)), <- Hr'.
  rewrite scan_items_reads_back; [reflexivity|discriminate|assumption|lia|assumption].
Qed.

Lemma scan_dict_reads_back (kv : string * pyval) (d : list (string * pyval))
  (fuel : nat) (rest : string) :
  Forall (fun kv => json_value (snd kv) = true /\ reads_back (snd kv)) (kv :: d) ->
  (size (PDict (kv :: d)) <= fuel)%nat ->
  delimited rest = true ->
  JsonDecode.scan_once fuel (Json.encode indent level (PDict (kv :: d)) ++ rest)
  = Some (PDict (JsonDecode.dict_of_pairs (kv :: d) []), rest).
Proof.
  intros Hall Hfuel Hrest.
  destruct fuel as [|f]; [simpl in Hfuel; lia|].
  cbn [size] in Hfuel.
  rewrite encode_dict_cons, !append_assoc.
  change ("{" ++ ?s)%string with (String "{" s). rewrite scan_once_dict.
  change ("}" ++ rest)%string with (String "}" rest).
  fold (closing "}" rest).
  assert (Hstart : exists tail,
             (Json.join sep (map (encode_item indent (S level)) (kv :: d))
              ++ closing "}" rest)%string = String PyStr.dquote tail).
  { destruct d as [|kv2 d]; cbn [map Json.join]; unfold encode_item at 1;
      unfold Json.encode_string; cbn [append]; eexists; reflexivity. }
  destruct Hstart as [tail Ht].
  rewrite (skip_ws_value _ _ PyStr.dquote tail
             (all_ws_newline_indent indent (S level)) Ht eq_refl).
  change (PyStr.dquote =? "}")%char with false.
  change (PyStr.dquote =? PyStr.dquote)%char with true. cbv iota.
  rewrite (scan_pairs_reads_back (kv :: d) ltac:(discriminate) Hall f rest tail);
    [reflexivity|lia|assumption|assumption].
Qed.

End Containers.

(* ===================================================================== *)
(** * [json.loads] after [json.dumps] *)
(* ===================================================================== *)

Lemma dict_set_fresh (d : list (string * pyval)) (k : string) (v : pyval) :
  existsb (String.eqb k) (Py.keys d) = false ->
  Py.dict_set d k v = (d ++ [(k, v)])%list.
Proof.
  unfold Py.keys. induction d as [|[k' v'] d IH]; simpl; [reflexivity|].
  intros H. apply orb_false_iff in H as [Hk Hd].
  rewrite String.eqb_sym, Hk. now rewrite IH.
Qed.

(** Pairs with distinct keys make the dict that lists them. *)
Lemma dict_of_pairs_distinct (pairs d : list (string * pyval)) :
  no_dup_keys (map fst pairs) = true ->
  (forall k, In k (map fst pairs) -> existsb (String.eqb k) (Py.keys d) = false) ->
  JsonDecode.dict_of_pairs pairs d = (d ++ pairs)%list.
Proof.
  revert d. induction pairs as [|[k v] pairs IH]; intros d Hnd Hfresh; simpl.
  - now rewrite app_nil_r.
  - simpl in Hnd. apply andb_true_iff in Hnd as [Hk Hnd]. apply negb_true_iff in Hk.
    rewrite dict_set_fresh by (apply Hfresh; simpl; auto).
    rewrite IH; [now rewrite <- app_assoc|assumption|].
    intros k' Hin. unfold Py.keys. rewrite map_app, existsb_app.
    fold (Py.keys d). rewrite (Hfresh k') by (simpl; auto). simpl.
    rewrite orb_false_r. apply String.eqb_neq. intros ->.
    assert (Ht : existsb (String.eqb k) (map fst pairs) = true)
      by (apply existsb_eqb_In, Hin).
    congruence.
Qed.

(** Every JSON value reads back from its encoding, whatever the indent. *)
Lemma encode_reads_back (v : pyval) : json_value v = true -> reads_back v.
Proof.
  induction v as [| b | z | r | s | l IH | d IH] using pyval_induction; intros Hv.
  - intros indent level [|f] rest Hf Hr; [simpl in Hf; lia|reflexivity].
  - intros indent level [|f] rest Hf Hr; [simpl in Hf; lia|]. now destruct b.
  - intros indent level [|f] rest Hf Hr; [simpl in Hf; lia|].
    cbn [Json.encode]. apply scan_once_number.
    apply (scan_number_app _ rest _ _ (scan_number_int z) Hr).
  - intros indent level [|f] rest Hf Hr; [simpl in Hf; lia|].
    cbn [Json.encode]. apply scan_once_number.
    apply (scan_number_app _ rest _ _ (float_literal_scan r Hv) Hr).
  - intros indent level [|f] rest Hf Hr; [simpl in Hf; lia|].
    cbn [Json.encode].
    destruct (scanstring_encode_string s rest) as (tail & -> & Ht).
    cbn [JsonDecode.scan_once]. change (PyStr.dquote =? PyStr.dquote)%char with true.
    cbv iota. now rewrite Ht.
  - assert (Hall : Forall (fun x => json_value x = true /\ reads_back x) l).
    { cbn [json_value] in Hv. rewrite forallb_forall in Hv.
      rewrite Forall_forall in *. intros x Hx. split; [now apply Hv|].
      apply IH; [assumption|now apply Hv]. }
    intros indent level fuel rest Hf Hr. destruct l as [|x l].
    + destruct fuel as [|f]; [simpl in Hf; lia|reflexivity].
    + now apply scan_list_reads_back.
  - cbn [json_value] in Hv. apply andb_true_iff in Hv as [Hnd Hv].
    assert (Hall : Forall (fun kv => json_value (snd kv) = true /\ reads_back (snd kv)) d).
    { rewrite forallb_forall in Hv. rewrite Forall_forall in *.
      intros kv Hkv. split; [now apply Hv|]. apply IH; [assumption|now apply Hv]. }
    intros indent level fuel rest Hf Hr. destruct d as [|kv d].
    + destruct fuel as [|f]; [simpl in Hf; lia|reflexivity].
    + rewrite scan_dict_reads_back by assumption.
      rewrite dict_of_pairs_distinct; [reflexivity|assumption|reflexivity].
Qed.

Lemma join_length (A : Type) (f : A -> string) (w : A -> nat) (sep : string) (l : list A) :
  Forall (fun x => (w x <= String.length (f x))%nat) l ->
  (1 <= String.length sep)%nat ->
  (list_sum (map (fun x => S (w x)) l) <= S (String.length (Json.join sep (map f l))))%nat.
Proof.
  intros Hall Hsep. induction Hall as [|x l Hx Hl IH]; [simpl; lia|].
  destruct l as [|y l].
  - simpl. lia.
  - change (Json.join sep (map f (x :: y :: l)))
      with (f x ++ sep ++ Json.join sep (map f (y :: l)))%string.
    rewrite !length_append. cbn [map list_sum fold_right] in IH |- *. lia.
Qed.

Lemma separator_length (indent : option nat) (level : nat) :
  (1 <= String.length (Json.item_separator indent ++ Json.newline_indent indent level))%nat.
Proof. rewrite separator_comma. simpl. lia. Qed.

(** The fuel a value needs is no more than the length of its encoding. *)
Lemma size_le_length (v : pyval) :
  json_value v = true ->
  forall indent level, (size v <= String.length (Json.encode indent level v))%nat.
Proof.
  induction v as [| b | z | r | s | l IH | d IH] using pyval_induction; intros Hv indent level;
    try (destruct (encode_first indent level _ Hv) as (c & t & -> & _); simpl; lia).
  - destruct l as [|x l]; [simpl; lia|].
    rewrite (encode_list_cons indent level x l), !length_append. cbn [size].
    assert (Hb : Forall (fun y => (size y <= String.length (Json.encode indent (S level) y))%nat)
               (x :: l)).
    { cbn [json_value] in Hv. rewrite forallb_forall in Hv. rewrite Forall_forall in *.
      intros y Hy. apply IH; [assumption|now apply Hv]. }
    pose proof (join_length _ _ _ _ _ Hb (separator_length indent (S level))) as Hj.
    change (String.length "[") with 1%nat. change (String.length "]") with 1%nat. lia.
  - destruct d as [|kv d]; [simpl; lia|].
    rewrite (encode_dict_cons indent level kv d), !length_append. cbn [size].
    assert (Hb : Forall (fun y => (size (snd y)
                                   <= String.length (encode_item indent (S level) y))%nat)
               (kv :: d)).
    { cbn [json_value] in Hv. apply andb_true_iff in Hv as [_ Hv].
      rewrite forallb_forall in Hv. rewrite Forall_forall in *.
      intros y Hy. unfold encode_item. rewrite !length_append.
      specialize (IH y Hy (Hv y Hy) indent (S level)). lia. }
    pose proof (join_length _ _ _ _ _ Hb (separator_length indent (S level))) as Hj.
    change (String.length "{") with 1%nat. change (String.length "}") with 1%nat. lia.
Qed.

(** [json.loads(json.dumps(v, indent=...)) == v]. *)
Lemma loads_encode (indent : option nat) (v : pyval) :
  json_value v = true -> JsonDecode.loads (Json.encode indent 0 v) = Some v.
Proof.
  intros Hv. unfold JsonDecode.loads.
  destruct (encode_first indent 0 v Hv) as (c & r & Hc & Hf).
  assert (Hskip : JsonDecode.skip_ws (Json.encode indent 0 v) = Json.encode indent 0 v)
    by (rewrite Hc; exact (skip_ws_value EmptyString _ c r eq_refl eq_refl Hf)).
  rewrite Hskip.
  rewrite <- (append_nil_r (Json.encode indent 0 v)) at 2.
  rewrite (encode_reads_back v Hv indent 0 _ EmptyString (size_le_length v Hv indent 0) eq_refl).
  reflexivity.
Qed.

(* ===================================================================== *)
(** * Persistence *)
(* ===================================================================== *)

Lemma read_write_same (fs : list (string * string)) (filename text : string) :
  read_entry (write_entry fs filename text) filename = Some text.
Proof.
  induction fs as [|[n t] fs IH]; simpl.
  - now rewrite String.eqb_refl.
  - destruct (String.eqb n filename) eqn:Hn; simpl; now rewrite Hn.
Qed.

Lemma read_write_other (fs : list (string * string)) (filename other text : string) :
  other <> filename ->
  read_entry (write_entry fs filename text) other = read_entry fs other.
Proof.
  intros Hne. induction fs as [|[n t] fs IH]; simpl.
  - destruct (String.eqb filename other) eqn:H; [apply String.eqb_eq in H; congruence|].
    reflexivity.
  - destruct (String.eqb n filename) eqn:Hn; simpl.
    + apply String.eqb_eq in Hn. subst n.
      destruct (String.eqb filename other) eqn:H; [apply String.eqb_eq in H; congruence|].
      reflexivity.
    + now rewrite IH.
Qed.

Lemma forall_from_spec (f : Z -> bool) (n : nat) :
  forall start, forall_from f start n = true ->
  forall z, (start <= z < start + Z.of_nat n)%Z -> f z = true.
Proof.
  induction n as [|n IH]; intros start H z Hz; [lia|].
  cbn [forall_from] in H. apply andb_true_iff in H as [H0 H1].
  destruct (Z.eq_dec z start) as [->|Hne]; [assumption|].
  apply (IH (start + 1)%Z H1). lia.
Qed.

Lemma zero_pad_two (z : Z) :
  (0 <= z < 100)%Z -> two_digit_form (Datetime.zero_pad 2 z) = true.
Proof.
  intros Hz.
  assert (Hall : forall_from (fun n => two_digit_form (Datetime.zero_pad 2 n))
                             0 (Z.to_nat 100) = true) by (vm_compute; reflexivity).
  apply (forall_from_spec _ _ _ Hall). rewrite Z2Nat.id; lia.
Qed.

Lemma zero_pad_four (z : Z) :
  (1000 <= z <= 9999)%Z -> four_digit_form (Datetime.zero_pad 4 z) = true.
Proof.
  intros Hz.
  assert (Hall : forall_from (fun n => four_digit_form (Datetime.zero_pad 4 n))
                             1000 (Z.to_nat 9000) = true) by (vm_compute; reflexivity).
  apply (forall_from_spec _ _ _ Hall). rewrite Z2Nat.id; lia.
Qed.

(** The time stamp of a date with a four-digit year has the shape
    [YYYYMMDD_HHMMSS]. *)
Lemma strftime_stamp_shape (t : datetime) :
  valid_datetime t -> stamp_shape (Datetime.strftime_stamp t) = true.
Proof.
  intros (Hy & Hm & Hd & Hh & Hmi & Hs). unfold Datetime.strftime_stamp.
  pose proof (zero_pad_four (year t) Hy) as Py.
  pose proof (zero_pad_two (month t) ltac:(lia)) as Pm.
  pose proof (zero_pad_two (day t) ltac:(lia)) as Pd.
  pose proof (zero_pad_two (hour t) ltac:(lia)) as Ph.
  pose proof (zero_pad_two (minute t) ltac:(lia)) as Pmi.
  pose proof (zero_pad_two (second t) ltac:(lia)) as Ps.
  destruct (Datetime.zero_pad 4 (year t)) as [|y1 [|y2 [|y3 [|y4 [|? ?]]]]]; try discriminate.
  destruct (Datetime.zero_pad 2 (month t)) as [|m1 [|m2 [|? ?]]]; try discriminate.
  destruct (Datetime.zero_pad 2 (day t)) as [|d1 [|d2 [|? ?]]]; try discriminate.
  destruct (Datetime.zero_pad 2 (hour t)) as [|h1 [|h2 [|? ?]]]; try discriminate.
  destruct (Datetime.zero_pad 2 (minute t)) as [|i1 [|i2 [|? ?]]]; try discriminate.
  destruct (Datetime.zero_pad 2 (second t)) as [|s1 [|s2 [|? ?]]]; try discriminate.
  cbn [two_digit_form four_digit_form] in *.
  repeat match goal with
         | H : _ && _ = true |- _ => apply andb_true_iff in H as [? ?]
         end.
  unfold stamp_shape. cbn [append String.length Nat.eqb substring all_digits andb].
  repeat match goal with
         | H : JsonDecode.is_digit _ = true |- _ => rewrite H; clear H
         end.
  reflexivity.
Qed.

(* ===================================================================== *)
(** * The result of a run is a JSON value *)
(* ===================================================================== *)

Lemma dict_get_json (d : list (string * pyval)) (k : string) (x : pyval) :
  json_value (PDict d) = true -> Py.dict_get d k = Some x -> json_value x = true.
Proof.
  cbn [json_value]. intros H. apply andb_true_iff in H as [_ H].
  induction d as [|[k' v'] d IH]; simpl in *; [discriminate|].
  apply andb_true_iff in H as [Hv Hd].
  destruct (String.eqb k' k); [now intros [= <-]|now apply IH].
Qed.

Lemma getitem_json (v : pyval) (k : string) (x : pyval) :
  json_value v = true -> Py.getitem v k = Ok x -> json_value x = true.
Proof.
  intros Hv. destruct v; simpl; try discriminate.
  destruct (Py.dict_get d k) eqn:Hd; [|discriminate].
  intros [= <-]. eapply dict_get_json; eauto.
Qed.

Lemma getitem0_json (v x : pyval) :
  json_value v = true -> Py.getitem0 v = Ok x -> json_value x = true.
Proof.
  intros Hv. destruct v as [| | | | s | [|y l] | d]; simpl; try discriminate.
  - destruct s; [discriminate|]. now intros [= <-].
  - intros [= <-]. cbn [json_value forallb] in Hv. now apply andb_true_iff in Hv as [Hv _].
Qed.

Lemma get_json (v : pyval) (k : string) (default x : pyval) :
  json_value v = true -> json_value default = true ->
  Py.get v k default = Ok x -> json_value x = true.
Proof.
  intros Hv Hd. destruct v; simpl; try discriminate.
  destruct (Py.dict_get d k) eqn:Hg; intros [= <-]; [|assumption].
  eapply dict_get_json; eauto.
Qed.

Lemma iter_json (v : pyval) (items : list pyval) :
  json_value v = true -> Py.iter v = Ok items -> Forall (fun x => json_value x = true) items.
Proof.
  intros Hv. destruct v; simpl; try discriminate; intros [= <-].
  - rewrite Forall_forall. intros x Hx. apply in_map_iff in Hx as (c & <- & _). reflexivity.
  - cbn [json_value] in Hv. rewrite forallb_forall in Hv. now rewrite Forall_forall.
  - rewrite Forall_forall. intros x Hx. apply in_map_iff in Hx as (kv & <- & _). reflexivity.
Qed.

Ltac split_bind H :=
  match type of H with
  | rbind ?r _ = Ok _ =>
      let E := fresh "E" in
      destruct r eqn:E; cbn [rbind] in H; [|discriminate H]
  end.

(** What the adapter extracts from a JSON answer is a JSON value. *)
Lemma extract_completion_json (answer x : pyval) :
  json_value answer = true -> extract_completion answer = Ok x -> json_value x = true.
Proof.
  intros Hv H. unfold extract_completion in H.
  split_bind H. split_bind H.
  destruct a0.
  - split_bind H. split_bind H. split_bind H.
    eapply getitem_json; [|exact H].
    eapply getitem_json; [|exact E3].
    eapply getitem0_json; [|exact E2].
    eapply getitem_json; eauto.
  - split_bind H. destruct a0; [eapply getitem_json; eauto|].
    split_bind H. destruct a0; [eapply getitem_json; eauto|].
    split_bind H. destruct a0; [eapply getitem_json; eauto|discriminate].
Qed.

Lemma generate_content_json (E : env) (prompt : string) (temperature : pyval)
  (s : state) (x : pyval) :
  env_json E ->
  fst (generate_content E prompt temperature s) = Ok x -> json_value x = true.
Proof.
  intros [Hpost _]. rewrite generate_content_outcome. unfold generate_content_body.
  destruct (http_post E (posts s) openrouter_url (openrouter_headers E)
              (openrouter_data prompt temperature)) as [resp|e] eqn:Hp; [|discriminate].
  cbn [rbind]. destruct (raise_for_status resp) as [[]|e]; [|discriminate].
  cbn [rbind]. destruct (json resp) as [answer|e] eqn:Hj; [|discriminate].
  cbn [rbind]. destruct (extract_completion answer) as [v|e] eqn:Hx; [|discriminate].
  intros [= <-]. eapply extract_completion_json; eauto.
Qed.

Lemma search_web_json (E : env) (query search_type : string) (s : state) (v : pyval) :
  env_json E ->
  fst (search_web E query search_type s) = Ok v -> json_value v = true.
Proof.
  intros [_ Hserp]. rewrite search_web_outcome. intros [= <-].
  destruct (serpapi_get_dict E (searches s) (search_params E query search_type))
    as [results|e] eqn:Hs; cbn [rbind]; [|reflexivity].
  destruct (Py.get results (results_key search_type) (PList [])) as [x|e] eqn:Hg;
    [|reflexivity].
  apply (get_json results (results_key search_type) (PList []) x);
    [eapply Hserp; eauto|reflexivity|exact Hg].
Qed.

(** Dicts that are JSON values. *)
Lemma json_dict_iff (d : list (string * pyval)) :
  json_value (PDict d) = true
  <-> no_dup_keys (Py.keys d) = true /\ Forall (fun kv => json_value (snd kv) = true) d.
Proof.
  cbn [json_value]. unfold Py.keys. rewrite andb_true_iff, forallb_forall, Forall_forall.
  reflexivity.
Qed.

Lemma no_dup_keys_snoc (l : list string) (k : string) :
  no_dup_keys l = true -> existsb (String.eqb k) l = false ->
  no_dup_keys (l ++ [k]) = true.
Proof.
  induction l as [|x l IH]; simpl; [reflexivity|].
  intros H Hk. apply andb_true_iff in H as [Hx Hl]. apply orb_false_iff in Hk as [Hkx Hkl].
  rewrite existsb_app. simpl. rewrite String.eqb_sym, Hkx, orb_false_r.
  apply negb_true_iff in Hx. rewrite Hx. simpl. now apply IH.
Qed.

Lemma dict_set_values (d : list (string * pyval)) (k : string) (v : pyval) :
  Forall (fun kv => json_value (snd kv) = true) d -> json_value v = true ->
  Forall (fun kv => json_value (snd kv) = true) (Py.dict_set d k v).
Proof.
  intros Hd Hv. induction Hd as [|[k' v'] d Hx Hd IH]; simpl.
  - constructor; [assumption|constructor].
  - destruct (String.eqb k' k); constructor; assumption.
Qed.

Lemma dict_set_json (d : list (string * pyval)) (k : string) (v : pyval) :
  json_value (PDict d) = true -> json_value v = true ->
  json_value (PDict (Py.dict_set d k v)) = true.
Proof.
  rewrite !json_dict_iff. intros [Hk Hd] Hv. split; [|now apply dict_set_values].
  rewrite keys_dict_set.
  destruct (existsb (String.eqb k) (Py.keys d)) eqn:He; [assumption|].
  now apply no_dup_keys_snoc.
Qed.

Lemma resource_entry_json (fields : list (string * string)) (item : pyval)
  (entry : list (string * pyval)) :
  json_value item = true ->
  resource_entry fields item = Ok entry ->
  Py.keys entry = map fst fields
  /\ Forall (fun kv => json_value (snd kv) = true) entry.
Proof.
  intros Hi. revert entry. induction fields as [|[out_key in_key] rest IH]; intros entry; simpl.
  - intros [= <-]. split; [reflexivity|constructor].
  - destruct (Py.get item in_key (PStr "")) as [v|e] eqn:Hg; cbn [rbind]; [|discriminate].
    destruct (resource_entry rest item) as [more|e]; cbn [rbind]; [|discriminate].
    intros [= <-]. destruct (IH more eq_refl) as [Hk Hv]. split.
    + unfold Py.keys in *. simpl. now rewrite Hk.
    + constructor; [|assumption].
      apply (get_json item in_key (PStr "") v Hi eq_refl Hg).
Qed.

Lemma append_at_json (resources : list (string * pyval)) (key : string) (item : pyval) :
  json_value (PDict resources) = true -> json_value item = true ->
  json_value (PDict (append_at resources key item)) = true.
Proof.
  intros Hr Hi. unfold append_at.
  destruct (Py.dict_get resources key) as [[| | | | |l|]|] eqn:Hg; try assumption.
  apply dict_set_json; [assumption|].
  pose proof (dict_get_json _ _ _ Hr Hg) as Hl. cbn [json_value] in *.
  rewrite forallb_app, Hl. simpl. now rewrite Hi.
Qed.

Lemma for_results_json (key : string) (fields : list (string * string))
  (results : list pyval) (resources out : list (string * pyval)) :
  no_dup_keys (map fst fields) = true ->
  Forall (fun x => json_value x = true) results ->
  json_value (PDict resources) = true ->
  for_results key fields results resources = Ok out ->
  json_value (PDict out) = true.
Proof.
  intros Hf Hall. revert resources.
  induction Hall as [|r rest Hr _ IH]; intros resources Hres; simpl.
  - now intros [= <-].
  - destruct (resource_entry fields r) as [entry|e] eqn:He; cbn [rbind]; [|discriminate].
    apply IH. apply append_at_json; [assumption|].
    destruct (resource_entry_json fields r entry Hr He) as [Hk Hv].
    apply json_dict_iff. split; [now rewrite Hk|assumption].
Qed.

Lemma collect_json (key : string) (fields : list (string * string)) (results : pyval)
  (resources out : list (string * pyval)) (s s' : state) :
  no_dup_keys (map fst fields) = true ->
  json_value results = true ->
  json_value (PDict resources) = true ->
  collect key fields results resources s = (Ok out, s') ->
  json_value (PDict out) = true.
Proof.
  intros Hf Hr Hres. unfold collect, lift. intros [= H _].
  destruct (Py.iter results) as [items|e] eqn:Hi; cbn [rbind] in H; [|discriminate].
  apply (for_results_json key fields items resources out Hf (iter_json _ _ Hr Hi) Hres H).
Qed.

Lemma generate_resources_json (E : env) (topic : string) (s s' : state) (bundle : pyval) :
  env_json E ->
  generate_resources_for_topic E topic s = (Ok bundle, s') -> json_value bundle = true.
Proof.
  intros HE H. unfold generate_resources_for_topic in H.
  assert (H0 : json_value (PDict [("research", PList []); ("videos", PList []);
                                  ("tools", PList []); ("stats", PList [])]) = true)
    by reflexivity.
  revert H0 H. generalize [("research", PList []); ("videos", PList []);
                           ("tools", PList []); ("stats", PList [])].
  intros r0 H0 H.
  apply bind_ok_inv in H as (v1 & s1 & Hs1 & H).
  apply bind_ok_inv in H as (r1 & t1 & Hc1 & H).
  apply bind_ok_inv in H as (v2 & s2 & Hs2 & H).
  apply bind_ok_inv in H as (r2 & t2 & Hc2 & H).
  apply bind_ok_inv in H as (v3 & s3 & Hs3 & H).
  apply bind_ok_inv in H as (r3 & t3 & Hc3 & H).
  apply bind_ok_inv in H as (v4 & s4 & Hs4 & H).
  apply bind_ok_inv in H as (r4 & t4 & Hc4 & H).
  injection H as <- _.
  pose proof (search_web_json E _ _ _ v1 HE (f_equal fst Hs1)) as J1.
  pose proof (search_web_json E _ _ _ v2 HE (f_equal fst Hs2)) as J2.
  pose proof (search_web_json E _ _ _ v3 HE (f_equal fst Hs3)) as J3.
  pose proof (search_web_json E _ _ _ v4 HE (f_equal fst Hs4)) as J4.
  eapply collect_json in Hc1; [|reflexivity|exact J1|exact H0].
  eapply collect_json in Hc2; [|reflexivity|exact J2|exact Hc1].
  eapply collect_json in Hc3; [|reflexivity|exact J3|exact Hc2].
  eapply collect_json in Hc4; [|reflexivity|exact J4|exact Hc3].
  exact Hc4.
Qed.

Lemma gather_resources_json (E : env) (topics : list string)
  (resources rs : list (string * pyval)) (s s' : state) :
  env_json E ->
  json_value (PDict resources) = true ->
  gather_resources E topics resources s = (Ok rs, s') ->
  json_value (PDict rs) = true.
Proof.
  intros HE. revert resources s. induction topics as [|topic rest IH]; intros resources s Hr.
  - simpl. now intros [= <- _].
  - cbn [gather_resources]. intros H.
    apply bind_ok_inv in H as (bundle & s1 & Hb & H).
    apply bind_ok_inv in H as (u & s2 & _ & H).
    apply (IH _ _ (dict_set_json _ _ _ Hr (generate_resources_json _ _ _ _ _ HE Hb)) H).
Qed.

(* ===================================================================== *)
(** * The elapsed time is a float literal *)
(* ===================================================================== *)

Lemma take_digits_stop (s rest d r : string) :
  JsonDecode.take_digits s = (d, r) ->
  not_digit_start rest = true ->
  JsonDecode.take_digits (s ++ rest) = (d, (r ++ rest)%string).
Proof.
  intros H Hrest. revert d r H. induction s as [|c s IH]; intros d r H.
  - injection H as <- <-. simpl. destruct rest as [|c rest]; [reflexivity|].
    simpl in *. apply negb_true_iff in Hrest. now rewrite Hrest.
  - simpl in *. destruct (JsonDecode.is_digit c).
    + destruct (JsonDecode.take_digits s) as [d' r'].
      injection H as <- <-. now rewrite (IH d' r' eq_refl).
    + now injection H as <- <-.
Qed.

Lemma scan_int_stop (s rest i r : string) :
  JsonDecode.scan_int s = Some (i, r) ->
  not_digit_start rest = true ->
  JsonDecode.scan_int (s ++ rest) = Some (i, (r ++ rest)%string).
Proof.
  intros H Hrest. destruct s as [|c s]; [discriminate|].
  cbn [append]. unfold JsonDecode.scan_int in *.
  destruct (Ascii.eqb c "0").
  - now injection H as <- <-.
  - destruct (JsonDecode.is_digit c); [|discriminate].
    injection H as H. change (String c (s ++ rest)) with (String c s ++ rest)%string.
    f_equal. apply take_digits_stop; assumption.
Qed.

Lemma all_digits_uint (d : Decimal.uint) : all_digits (NilEmpty.string_of_uint d) = true.
Proof. induction d; simpl; auto. Qed.

Lemma all_digits_app (a b : string) :
  all_digits (a ++ b) = all_digits a && all_digits b.
Proof.
  induction a as [|c a IH]; simpl; [reflexivity|]. now rewrite IH, andb_assoc.
Qed.

Lemma take_digits_all (d : string) :
  all_digits d = true -> JsonDecode.take_digits d = (d, EmptyString).
Proof.
  induction d as [|c d IH]; simpl; [reflexivity|].
  intros H. apply andb_true_iff in H as [Hc Hd]. now rewrite Hc, (IH Hd).
Qed.

(** The decimal text of a natural number: digits, and read as itself. *)
Lemma str_int_nonneg (z : Z) :
  (0 <= z)%Z ->
  all_digits (PyRepr.str_int z) = true
  /\ JsonDecode.scan_int (PyRepr.str_int z) = Some (PyRepr.str_int z, EmptyString)
  /\ exists c r, PyRepr.str_int z = String c r /\ Ascii.eqb c "-" = false.
Proof.
  intros Hz. unfold PyRepr.str_int. destruct z as [|p|p]; [| |lia].
  - repeat split. now exists "0"%char, EmptyString.
  - cbn [Z.to_int NilZero.string_of_int]. rewrite string_of_uint_pos.
    split; [apply all_digits_uint|]. split; [apply scan_int_uint|apply uint_first_digit].
Qed.

Lemma all_digits_zeros (n : nat) : all_digits (String.concat "" (repeat "0" n)) = true.
Proof.
  induction n as [|n IH]; [reflexivity|].
  destruct n; [reflexivity|].
  change (all_digits ("0" ++ "" ++ String.concat "" (repeat "0" (S n))) = true).
  exact IH.
Qed.

Lemma all_digits_strip (s : string) :
  all_digits s = true -> all_digits (Datetime.strip_zeros_right s) = true.
Proof.
  induction s as [|c s IH]; simpl; [reflexivity|].
  intros H. apply andb_true_iff in H as [Hc Hs]. specialize (IH Hs).
  destruct (Datetime.strip_zeros_right s).
  - destruct (Ascii.eqb c "0"); simpl; [reflexivity|now rewrite Hc].
  - simpl in *. now rewrite Hc, IH.
Qed.

(** A natural number, a dot and digits make a float literal, with or without
    a minus sign. *)
Lemma float_literal_fixed (negative : bool) (q : Z) (F : string) :
  (0 <= q)%Z -> all_digits F = true -> F <> EmptyString ->
  float_literal ((if negative then "-" else "") ++ PyRepr.str_int q ++ "." ++ F) = true.
Proof.
  intros Hq HF Hne.
  destruct (str_int_nonneg q Hq) as (_ & Hint & c & r & Hc & Hm).
  assert (Hscan : forall sign,
             JsonDecode.scan_unsigned sign (PyRepr.str_int q ++ "." ++ F)
             = Some (PFloat (sign ++ PyRepr.str_int q ++ "." ++ F), EmptyString)).
  { intros sign. unfold JsonDecode.scan_unsigned.
    rewrite (scan_int_stop _ ("." ++ F) _ _ Hint eq_refl).
    cbn [append JsonDecode.scan_frac Ascii.eqb Bool.eqb].
    rewrite (take_digits_all F HF).
    destruct F as [|f F]; [congruence|].
    cbn [JsonDecode.scan_exp]. now rewrite append_nil_r. }
  unfold float_literal. destruct negative.
  - cbn [append JsonDecode.scan_number Ascii.eqb Bool.eqb].
    rewrite Hscan. apply String.eqb_refl.
  - assert (Hnum : forall X,
               JsonDecode.scan_number (PyRepr.str_int q ++ X)
               = JsonDecode.scan_unsigned "" (PyRepr.str_int q ++ X)).
    { intros X. rewrite Hc. cbn [append]. unfold JsonDecode.scan_number. now rewrite Hm. }
    cbn [append]. rewrite Hnum, Hscan. apply String.eqb_refl.
Qed.

(** [repr] of an elapsed time is a float literal. *)
Lemma float_literal_repr_seconds (us : Z) :
  float_literal (Datetime.repr_seconds us) = true.
Proof.
  destruct (Z_lt_ge_dec (Z.abs us) 100) as [Hsmall|Hbig].
  - assert (Hall : forall_from (fun z => float_literal (Datetime.repr_seconds z))
                               (-99) (Z.to_nat 199) = true) by (vm_compute; reflexivity).
    apply (forall_from_spec _ _ _ Hall). rewrite Z2Nat.id; lia.
  - unfold Datetime.repr_seconds.
    destruct (Z.eqb_spec (Z.abs us) 0) as [H0|_]; [lia|].
    destruct (Z.ltb_spec (Z.abs us) 10) as [H1|_]; [lia|].
    destruct (Z.ltb_spec (Z.abs us) 100) as [H2|_]; [lia|].
    assert (Hfrac : all_digits (Datetime.strip_zeros_right
                                  (Datetime.zero_pad 6 (Z.abs us mod 1000000))) = true).
    { apply all_digits_strip. unfold Datetime.zero_pad.
      rewrite all_digits_app, all_digits_zeros.
      apply (str_int_nonneg (Z.abs us mod 1000000)). apply Z.mod_pos_bound. lia. }
    assert (Hq : (0 <= Z.abs us / 1000000)%Z) by (apply Z.div_pos; lia).
    destruct (Datetime.strip_zeros_right (Datetime.zero_pad 6 (Z.abs us mod 1000000)))
      as [|f F] eqn:HF.
    + destruct (us <? 0)%Z.
      * exact (float_literal_fixed true _ "0" Hq eq_refl ltac:(discriminate)).
      * exact (float_literal_fixed false _ "0" Hq eq_refl ltac:(discriminate)).
    + destruct (us <? 0)%Z.
      * exact (float_literal_fixed true _ (String f F) Hq Hfrac ltac:(discriminate)).
      * exact (float_literal_fixed false _ (String f F) Hq Hfrac ltac:(discriminate)).
Qed.

(** The result of a run, of either shape, is a JSON value when the backends
    answer with JSON values. *)
Lemma create_content_calendar_json (E : env)
  (industry target_audience content_goals : string) (s : state) (v : pyval) :
  env_json E ->
  fst (create_content_calendar E industry target_audience content_goals s) = Ok v ->
  json_value v = true.
Proof.
  intros HE. unfold create_content_calendar. rewrite try_except_Exception.
  match goal with
  | |- context [match ?b with _ => _ end] => destruct b as [[x|e] s'] eqn:H
  end.
  - cbn [fst]. intros [= <-].
    apply bind_ok_inv in H as (start_time & s0 & _ & H).
    apply bind_ok_inv in H as (trends & s1 & Ht & H).
    apply bind_ok_inv in H as (u1 & s1' & _ & H).
    apply bind_ok_inv in H as (strategy & s2 & Hs & H).
    apply bind_ok_inv in H as (u2 & s2' & _ & H).
    apply bind_ok_inv in H as (briefs & s3 & Hb & H).
    apply bind_ok_inv in H as (u3 & s3' & _ & H).
    apply bind_ok_inv in H as (topics & s4 & _ & H).
    apply bind_ok_inv in H as (resources & s5 & Hg & H).
    apply bind_ok_inv in H as (end_time & s6 & _ & H).
    injection H as <- _.
    pose proof (generate_content_json E _ _ _ trends HE (f_equal fst Ht)) as J1.
    pose proof (generate_content_json E _ _ _ strategy HE (f_equal fst Hs)) as J2.
    pose proof (generate_content_json E _ _ _ briefs HE (f_equal fst Hb)) as J3.
    pose proof (gather_resources_json E topics [] resources s4 s5 HE eq_refl Hg) as J4.
    apply json_dict_iff. split; [reflexivity|].
    repeat constructor; cbn [snd]; try assumption.
    apply float_literal_repr_seconds.
  - cbn [fst ret]. now intros [= <-].
Qed.

(** C9. [save_content_calendar] writes one file, named
    [content_calendar_<stamp>.json] with [stamp] the time of the call in the
    form [YYYYMMDD_HHMMSS]; the file holds the JSON document with the fields
    [industry], [target_audience], [content_goals], [timestamp],
    [content_calendar], and [json.load] of that file gives those five fields
    back, [content_calendar] equal to the result that was saved.  This holds
    for the result of any run, and for any other JSON value. *)
Theorem save_content_calendar_round_trip (E : env)
  (industry target_audience content_goals : string) (result : pyval) (s : state) :
  run_result E result \/ json_value result = true ->
  let stamp := Datetime.strftime_stamp (datetime_now E (clock_reads s)) in
  let filename := ("content_calendar_" ++ stamp ++ ".json")%string in
  let s' := snd (save_content_calendar E industry target_audience content_goals result s) in
  fst (save_content_calendar E industry target_audience content_goals result s) = Ok filename
  /\ read_entry (files s') filename
     = Some (Json.dumps_indent 4
               (persisted_run industry target_audience content_goals stamp result))
  /\ load_file s' filename
     = Some (persisted_run industry target_audience content_goals stamp result)
  /\ (exists doc, load_file s' filename = Some doc
                  /\ Py.getitem doc "content_calendar" = Ok result)
  /\ (forall other, other <> filename ->
        read_entry (files s') other = read_entry (files s) other)
  /\ (valid_datetime (datetime_now E (clock_reads s)) -> stamp_shape stamp = true).
Proof.
  intros Hres stamp filename s'.
  assert (Hv : json_value result = true).
  { destruct Hres as [(HE & i & a & g & s0 & Hrun)|Hv]; [|assumption].
    exact (create_content_calendar_json E i a g s0 result HE Hrun). }
  assert (Hdoc : json_value
                   (persisted_run industry target_audience content_goals stamp result)
                 = true).
  { unfold persisted_run. cbn [json_value map fst snd forallb]. rewrite Hv. reflexivity. }
  assert (Hfile : read_entry (files s') filename
                  = Some (Json.dumps_indent 4
                            (persisted_run industry target_audience content_goals stamp
                               result)))
    by apply read_write_same.
  assert (Hload : load_file s' filename
                  = Some (persisted_run industry target_audience content_goals stamp result)).
  { unfold load_file. rewrite Hfile. now apply loads_encode. }
  repeat split; try assumption.
  - exists (persisted_run industry target_audience content_goals stamp result).
    split; [assumption|reflexivity].
  - intros other Hne. now apply read_write_other.
  - apply strftime_stamp_shape.
Qed.

Lemma sample_env_json : env_json (sample_env (answering canned) numbered_results).
Proof.
  split.
  - intros n api_url headers data resp answer Hp Hj.
    cbn [sample_env http_post] in Hp. unfold answering in Hp. injection Hp as <-.
    cbn [ok_response json] in Hj. injection Hj as <-.
    destruct n as [|[|n]]; reflexivity.
  - intros n params v Hs. cbn [sample_env serpapi_get_dict] in Hs.
    unfold numbered_results in Hs. now injection Hs as <-.
Qed.

Lemma save_content_calendar_round_trip_witness :
  let E := sample_env (answering canned) numbered_results in
  let run := create_content_calendar E "Fitness" "busy professionals"
               "increase brand awareness" initial_state in
  exists result,
    fst run = Ok result
    /\ load_file (snd (save_content_calendar E "Fitness" "busy professionals"
                         "increase brand awareness" result (snd run)))
                 "content_calendar_20240301_100010.json"
       = Some (persisted_run "Fitness" "busy professionals" "increase brand awareness"
                 "20240301_100010" result).
Proof.
  intros E run.
  pose (result := match fst run with Ok r => r | Raise _ => PNone end).
  assert (Hrun : fst run = Ok result) by (vm_compute; reflexivity).
  exists result. split; [exact Hrun|].
  assert (Hres : run_result E result).
  { split; [exact sample_env_json|].
    exists "Fitness", "busy professionals", "increase brand awareness", initial_state.
    exact Hrun. }
  pose proof (save_content_calendar_round_trip E "Fitness" "busy professionals"
                "increase brand awareness" result (snd run) (or_introl Hres))
    as (_ & _ & Hload & _).
  assert (Hstamp : Datetime.strftime_stamp (datetime_now E (clock_reads (snd run)))
                   = "20240301_100010") by (vm_compute; reflexivity).
  rewrite Hstamp in Hload. exact Hload.
Defined.
(* ===================================================================== *)
(** * Further properties: the topics *)
(* ===================================================================== *)

Lemma before_first_no_sep (sep : ascii) (s : string) :
  PyStr.contains sep (PyStr.before_first sep s) = false.
Proof.
  induction s as [|c r IH]; simpl; [reflexivity|].
  destruct (Ascii.eqb c sep) eqn:Hc; simpl; [reflexivity|].
  now rewrite Hc.
Qed.

Lemma split_pieces_no_sep (sep : ascii) (s p : string) :
  In p (PyStr.split sep s) -> PyStr.contains sep p = false.
Proof.
  revert p. induction s as [|c r IH]; intros p; simpl.
  - intros [<-|[]]. reflexivity.
  - destruct (Ascii.eqb c sep) eqn:Hc.
    + intros [<-|H]; [reflexivity|now apply IH].
    + destruct (PyStr.split sep r) as [|h t] eqn:Hs.
      * intros [<-|[]]. simpl. now rewrite Hc.
      * intros [<-|H].
        -- simpl. rewrite Hc. apply IH. now left.
        -- apply IH. now right.
Qed.

Lemma contains_lstrip (c : ascii) (s : string) :
  PyStr.contains c s = false -> PyStr.contains c (PyStr.lstrip s) = false.
Proof.
  induction s as [|d r IH]; simpl; [easy|].
  intros H. apply orb_false_iff in H as [Hd Hr].
  destruct (PyStr.isspace d); [now apply IH|].
  simpl. now rewrite Hd, Hr.
Qed.

Lemma contains_rstrip (c : ascii) (s : string) :
  PyStr.contains c s = false -> PyStr.contains c (PyStr.rstrip s) = false.
Proof.
  induction s as [|d r IH]; simpl; [easy|].
  intros H. apply orb_false_iff in H as [Hd Hr]. specialize (IH Hr).
  destruct (PyStr.rstrip r) as [|e r'].
  - destruct (PyStr.isspace d); simpl; [reflexivity|now rewrite Hd].
  - cbn [PyStr.contains]. cbn [PyStr.contains] in IH. now rewrite Hd, IH.
Qed.

Lemma contains_strip (c : ascii) (s : string) :
  PyStr.contains c s = false -> PyStr.contains c (PyStr.strip s) = false.
Proof. intros H. unfold PyStr.strip. now apply contains_rstrip, contains_lstrip. Qed.

Lemma lstrip_length (s : string) : (String.length (PyStr.lstrip s) <= String.length s)%nat.
Proof.
  induction s as [|c r IH]; simpl; [lia|].
  destruct (PyStr.isspace c); simpl; lia.
Qed.

(** What [lstrip] returns is empty or starts with a character that is not
    white space. *)
Lemma lstrip_head (s : string) :
  match PyStr.lstrip s with
  | EmptyString => True
  | String c _ => PyStr.isspace c = false
  end.
Proof.
  induction s as [|c r IH]; simpl; [exact I|].
  destruct (PyStr.isspace c) eqn:Hc; [exact IH|exact Hc].
Qed.

Lemma rstrip_idempotent (s : string) : PyStr.rstrip (PyStr.rstrip s) = PyStr.rstrip s.
Proof.
  induction s as [|c r IH]; simpl; [reflexivity|].
  destruct (PyStr.rstrip r) as [|d r'] eqn:Hr.
  - destruct (PyStr.isspace c) eqn:Hc; simpl; [reflexivity|now rewrite Hc].
  - cbn [PyStr.rstrip]. cbn [PyStr.rstrip] in IH. now rewrite IH.
Qed.

Lemma lstrip_rstrip_head (s : string) :
  match s with
  | EmptyString => True
  | String c _ => PyStr.isspace c = false
  end ->
  PyStr.lstrip (PyStr.rstrip s) = PyStr.rstrip s.
Proof.
  destruct s as [|c r]; [reflexivity|]. intros Hc. simpl.
  destruct (PyStr.rstrip r); [rewrite Hc|]; simpl; now rewrite Hc.
Qed.

(** Trimming twice is trimming once. *)
Lemma strip_idempotent (s : string) : PyStr.strip (PyStr.strip s) = PyStr.strip s.
Proof.
  unfold PyStr.strip.
  rewrite (lstrip_rstrip_head (PyStr.lstrip s) (lstrip_head s)).
  apply rstrip_idempotent.
Qed.

(** The loop of lines 322-325, read backwards: when it ends, every day line
    had its colon and gave its topic. *)
Lemma extract_loop_ok_inv (lines : list string) :
  forall topics out,
  extract_loop lines topics = Ok out ->
  out = (topics ++ map topic_text (filter is_day_line lines))%list
  /\ (forall line, In line lines -> is_day_line line = true ->
      PyStr.contains ":" line = true).
Proof.
  induction lines as [|line rest IH]; intros topics out H; simpl in H.
  - injection H as <-. simpl. rewrite app_nil_r. split; [reflexivity|intros ? []].
  - unfold is_day_line at 1. simpl filter. unfold is_day_line at 1.
    destruct (PyStr.startswith line "Day") eqn:Hd.
    + destruct (PyStr.contains ":" line) eqn:Hc.
      * rewrite (topic_of_line_with_colon line Hc) in H. cbn [rbind] in H.
        apply IH in H as [-> Hall]. split.
        -- simpl. now rewrite <- app_assoc.
        -- intros l [<-|Hl] Hl'; [assumption|now apply Hall].
      * rewrite (topic_of_line_without_colon line Hc) in H. discriminate H.
    + apply IH in H as [-> Hall]. split; [reflexivity|].
      intros l [<-|Hl] Hl'; [|now apply Hall].
      unfold is_day_line in Hl'. congruence.
Qed.

Lemma topic_text_clean (line : string) :
  PyStr.contains PyStr.newline line = false -> clean_topic (topic_text line).
Proof.
  intros Hn. unfold clean_topic, topic_text. repeat split.
  - apply strip_idempotent.
  - apply contains_strip, contains_before_first, before_first_no_sep.
  - apply contains_strip, before_first_no_sep.
  - apply contains_strip, contains_before_first, contains_before_first,
      contains_after_first, Hn.
Qed.

(** X1. Every topic the extractor returns is trimmed and holds no colon, no
    hyphen and no line break: it is a piece of one line, cut at the colons
    and hyphens, with the white space at both ends removed. *)
Theorem extracted_topics_clean (strategy : pyval) (topics : list string) :
  extract_topics strategy = Ok topics -> Forall clean_topic topics.
Proof.
  intros H. destruct strategy; try discriminate H.
  unfold extract_topics in H. cbn [Py.split rbind] in H.
  apply extract_loop_ok_inv in H as [-> _]. simpl.
  apply Forall_forall. intros t Ht.
  apply in_map_iff in Ht as (line & <- & Hl).
  apply filter_In in Hl as [Hl _].
  apply topic_text_clean. now apply (split_pieces_no_sep PyStr.newline s).
Qed.

Lemma extracted_topics_clean_witness :
  Forall clean_topic ["Home workouts"; "Protein myths"; "Home workouts"].
Proof.
  apply (extracted_topics_clean (canned 1)). reflexivity.
Defined.

Lemma display_topics_loop_spec (lines : list string) :
  forall topics,
  display_topics_loop lines topics
  = (topics ++ map topic_text (filter shown_line lines))%list.
Proof.
  induction lines as [|line rest IH]; intros topics; simpl.
  - now rewrite app_nil_r.
  - unfold shown_line at 1, is_day_line.
    destruct (PyStr.startswith line "Day") eqn:Hd; simpl andb.
    + destruct (PyStr.contains ":" line) eqn:Hc.
      * rewrite (topic_of_line_with_colon line Hc), IH. simpl.
        now rewrite <- app_assoc.
      * rewrite (topic_of_line_without_colon line Hc). apply IH.
    + apply IH.
Qed.

Lemma filter_agree {A} (f g : A -> bool) (l : list A) :
  (forall x, In x l -> f x = g x) -> filter f l = filter g l.
Proof.
  induction l as [|x l IH]; intros H; simpl; [reflexivity|].
  rewrite (H x (or_introl eq_refl)), IH; [reflexivity|].
  intros y Hy. apply H. now right.
Qed.

Lemma display_topics_text (text : string) :
  display_topics (PStr text)
  = Ok (map topic_text (filter shown_line (PyStr.split PyStr.newline text))).
Proof.
  unfold display_topics. cbn [Py.split rbind]. now rewrite display_topics_loop_spec.
Qed.

Lemma display_topics_of_extracted (text : string) (topics : list string) :
  extract_topics (PStr text) = Ok topics -> display_topics (PStr text) = Ok topics.
Proof.
  intros H. rewrite display_topics_text.
  unfold extract_topics in H. cbn [Py.split rbind] in H.
  apply extract_loop_ok_inv in H as [-> Hall]. simpl. do 2 f_equal.
  apply filter_agree. intros line Hl. unfold shown_line.
  destruct (is_day_line line) eqn:Hday; [|reflexivity].
  now rewrite (Hall line Hl Hday).
Qed.

Lemma dict_get_In_keys (d : list (string * pyval)) (k : string) :
  In k (Py.keys d) <-> exists v, Py.dict_get d k = Some v.
Proof.
  induction d as [|[k' v'] d IH]; simpl.
  - split; [intros []|intros [v H]; discriminate H].
  - destruct (String.eqb k' k) eqn:Hk.
    + apply String.eqb_eq in Hk. split; [intros _; now exists v'|intros _; now left].
    + apply String.eqb_neq in Hk. rewrite <- IH. unfold Py.keys. tauto.
Qed.

(** X2. The topic list of the Resources tab never fails on a text: a day
    line without a colon is skipped, every other day line gives its topic.
    Whenever the extraction of the pipeline succeeds on the same text, the
    two lists are the same. *)
Theorem display_topics_skips_lines_without_colon (text : string) :
  display_topics (PStr text)
  = Ok (map topic_text (filter shown_line (PyStr.split PyStr.newline text)))
  /\ (forall topics, extract_topics (PStr text) = Ok topics ->
      display_topics (PStr text) = Ok topics).
Proof.
  split; [apply display_topics_text|apply display_topics_of_extracted].
Qed.

(* ===================================================================== *)
(** * Further properties: the adapters *)
(* ===================================================================== *)

Lemma generate_content_run (E : env) (prompt : string) (temperature : pyval) (s : state) :
  generate_content E prompt temperature s
  = (match generate_content_body E prompt temperature s with
     | Ok v => Ok v
     | Raise e => Raise (mkExn Exception (failure_message e))
     end, after_post s).
Proof.
  rewrite <- (generate_content_outcome E prompt temperature s),
    <- (generate_content_state E prompt temperature s).
  now destruct (generate_content E prompt temperature s).
Qed.

Lemma search_web_full (E : env) (query search_type : string) (s : state) :
  search_web E query search_type s
  = match search_answer E query search_type s with
    | Ok v => (Ok v, after_search s [])
    | Raise e => (Ok (PList []), after_search s ["Error in web search: " ++ exn_msg e])
    end.
Proof.
  unfold search_web, search_answer. rewrite try_except_Exception.
  unfold bind at 1, GoogleSearch_get_dict, after_search, results_key.
  destruct (serpapi_get_dict E (searches s) (search_params E query search_type))
    as [results|e]; cbn [rbind].
  - assert (Hk : (if String.eqb search_type "scholar"
                  then lift (Py.get results "organic_results" (PList []))
                  else if String.eqb search_type "videos"
                       then lift (Py.get results "video_results" (PList []))
                       else lift (Py.get results "organic_results" (PList [])))
                 = lift (Py.get results
                           (if String.eqb search_type "videos"
                            then "video_results" else "organic_results") (PList []))).
    { destruct (String.eqb search_type "scholar") eqn:Hs.
      - apply String.eqb_eq in Hs. subst search_type. reflexivity.
      - now destruct (String.eqb search_type "videos"). }
    rewrite Hk. clear Hk. unfold lift.
    destruct (Py.get results _ (PList [])) as [v|e].
    + now rewrite app_nil_r.
    + unfold st_error. rewrite bind_modify. reflexivity.
  - unfold st_error. rewrite bind_modify. reflexivity.
Qed.

(** X3. What [search_web] does with each answer of the backend.  An object
    gives the value under the key read, or the empty list when the key is
    absent, and nothing is shown.  An exception of the backend, or an answer
    that is not an object, gives the empty list and exactly one message
    shown with [st.error].  In every case one call is made and nothing else
    of the state changes. *)
Theorem search_web_answers_and_log (E : env) (query search_type : string) (s : state) :
  let answer := serpapi_get_dict E (searches s) (search_params E query search_type) in
  exists v log,
    search_web E query search_type s = (Ok v, after_search s log)
    /\ (forall d, answer = Ok (PDict d) ->
        log = []
        /\ v = match Py.dict_get d (results_key search_type) with
               | Some x => x
               | None => PList []
               end)
    /\ (forall e, answer = Raise e ->
        v = PList [] /\ log = ["Error in web search: " ++ exn_msg e])
    /\ (forall x, answer = Ok x -> (forall d, x <> PDict d) ->
        v = PList []
        /\ log = ["Error in web search: '" ++ PyRepr.type_name x
                  ++ "' object has no attribute 'get'"]).
Proof.
  intros answer. rewrite search_web_full. unfold search_answer. fold answer.
  destruct answer as [x|e]; cbn [rbind].
  - destruct x; cbn [Py.get Py.no_attribute Py.raise];
      try (eexists; eexists; split; [reflexivity|];
           split; [intros d H; discriminate H|];
           split; [intros e H; discriminate H|];
           intros x H Hx; injection H as <-; split; reflexivity).
    destruct (Py.dict_get d (results_key search_type)) as [x|] eqn:Hg;
      (eexists; eexists; split; [reflexivity|];
       split; [intros d' H; injection H as <-; rewrite Hg; split; reflexivity|];
       split; [intros e H; discriminate H|];
       intros y H Hy; injection H as <-; now destruct (Hy d eq_refl)).
  - eexists; eexists; split; [reflexivity|].
    split; [intros d H; discriminate H|].
    split; [intros e' H; injection H as <-; split; reflexivity|].
    intros x H; discriminate H.
Qed.

Lemma search_pixabay_full (E : env) (query : string) (count : Z) (s : state) :
  search_pixabay E query count s
  = match pixabay_answer E query count s with
    | Ok v => (Ok v, after_get s [])
    | Raise e => (Ok (PList []), after_get s ["Error searching Pixabay: " ++ exn_msg e])
    end.
Proof.
  unfold search_pixabay, pixabay_answer, try_finally. rewrite try_except_Exception.
  unfold bind at 1, create_session. unfold bind at 1, session_get, open_session.
  cbn [gets].
  destruct (http_get E (gets s) pixabay_url (pixabay_params query count)) as [resp|e];
    cbn [rbind].
  - rewrite bind_lift.
    destruct (raise_for_status resp) as [[]|e].
    + rewrite bind_lift. destruct (json resp) as [hits|e].
      * unfold lift, after_get, session_close, print. cbn.
        destruct hits; cbn; try reflexivity.
        destruct (Py.dict_get d "hits"); cbn; now rewrite ?app_nil_r.
      * unfold print. rewrite bind_modify. reflexivity.
    + unfold print. rewrite bind_modify. reflexivity.
  - unfold print. rewrite bind_modify. reflexivity.
Qed.

(** X4. Both HTTP adapters release the session they open and send exactly
    one request, whatever the outcome.  After [generate_content] one more
    POST is counted and nothing else of the state has changed.  After
    [search_pixabay] one more GET is counted, nothing is shown with
    [st.error], and one line is printed exactly when the search failed. *)
Theorem adapters_release_their_session (E : env) (s : state) :
  (forall prompt temperature,
     let s' := snd (generate_content E prompt temperature s) in
     sessions_open s' = sessions_open s /\ posts s' = S (posts s)
     /\ gets s' = gets s /\ searches s' = searches s
     /\ clock_reads s' = clock_reads s /\ slept s' = slept s
     /\ st_errors s' = st_errors s /\ stdout s' = stdout s /\ files s' = files s)
  /\ (forall query count,
        let s' := snd (search_pixabay E query count s) in
        sessions_open s' = sessions_open s /\ gets s' = S (gets s)
        /\ posts s' = posts s /\ searches s' = searches s
        /\ clock_reads s' = clock_reads s /\ slept s' = slept s
        /\ st_errors s' = st_errors s /\ files s' = files s
        /\ match pixabay_answer E query count s with
           | Ok v => stdout s' = stdout s
                     /\ fst (search_pixabay E query count s) = Ok v
           | Raise e => stdout s' = (stdout s ++ [("Error searching Pixabay: " ++ exn_msg e)%string])%list
                        /\ fst (search_pixabay E query count s) = Ok (PList [])
           end).
Proof.
  split.
  - intros prompt temperature. rewrite generate_content_state.
    repeat split; reflexivity.
  - intros query count. rewrite search_pixabay_full.
    destruct (pixabay_answer E query count s) as [v|e]; cbn;
      repeat split; try reflexivity. apply app_nil_r.
Qed.

Lemma raise_for_status_error (resp : response) :
  error_status resp = true ->
  raise_for_status resp = Raise (mkExn HTTPError (status_message resp)).
Proof.
  unfold error_status, raise_for_status, status_message. intros H.
  apply andb_true_iff in H as [H1 H2].
  destruct (status_code resp <? 500)%Z eqn:H5.
  - now rewrite H1.
  - assert (H6 : (500 <=? status_code resp)%Z = true) by lia.
    rewrite H1, H6, H2. reflexivity.
Qed.

(** X5. An answer with an error status (400 to 599) is never read for a
    completion: whatever its body holds, [generate_content] raises
    [Exception] with the text of the HTTP error after
    [Error making request: ]. *)
Theorem generate_content_error_status (E : env) (prompt : string) (temperature : pyval)
  (s : state) (resp : response) :
  http_post E (posts s) openrouter_url (openrouter_headers E)
    (openrouter_data prompt temperature) = Ok resp ->
  error_status resp = true ->
  fst (generate_content E prompt temperature s)
  = Raise (mkExn Exception ("Error making request: " ++ status_message resp)).
Proof.
  intros Hp Hs. rewrite generate_content_run. cbn [fst].
  unfold generate_content_body. rewrite Hp. cbn [rbind].
  rewrite (raise_for_status_error resp Hs). reflexivity.
Qed.

Lemma generate_content_error_status_witness :
  fst (generate_content
         (sample_env
            (fun _ => Ok (mkResponse 429 "Too Many Requests" openrouter_url
                            (Ok (PDict [("response", PStr "a completion")]))))
            numbered_results)
         "prompt" default_temperature initial_state)
  = Raise (mkExn Exception
      ("Error making request: 429 Client Error: Too Many Requests for url: "
       ++ openrouter_url)).
Proof.
  apply (generate_content_error_status
           (sample_env
              (fun _ => Ok (mkResponse 429 "Too Many Requests" openrouter_url
                              (Ok (PDict [("response", PStr "a completion")]))))
              numbered_results)
           "prompt" default_temperature initial_state
           (mkResponse 429 "Too Many Requests" openrouter_url
              (Ok (PDict [("response", PStr "a completion")])))); reflexivity.
Defined.

Lemma extract_completion_not_dict (answer : pyval) :
  (forall d, answer <> PDict d) ->
  exists e, extract_completion answer = Raise e
            /\ (exn_class e = TypeError \/ exn_class e = Exception).
Proof.
  intros Hd. unfold extract_completion.
  destruct answer as [|b|z|r|t|l|d]; try (eexists; split; [reflexivity|now left]).
  - cbn [Py.contains rbind].
    destruct (PyStr.has_substring "choices" t);
      [eexists; split; [reflexivity|now left]|].
    cbn [rbind].
    destruct (PyStr.has_substring "response" t);
      [eexists; split; [reflexivity|now left]|].
    destruct (PyStr.has_substring "text" t);
      [eexists; split; [reflexivity|now left]|].
    destruct (PyStr.has_substring "content" t);
      [eexists; split; [reflexivity|now left]|].
    eexists; split; [reflexivity|now right].
  - cbn [Py.contains rbind].
    destruct (existsb (fun x => Py.eq_str x "choices") l);
      [eexists; split; [reflexivity|now left]|].
    cbn [rbind].
    destruct (existsb (fun x => Py.eq_str x "response") l);
      [eexists; split; [reflexivity|now left]|].
    destruct (existsb (fun x => Py.eq_str x "text") l);
      [eexists; split; [reflexivity|now left]|].
    destruct (existsb (fun x => Py.eq_str x "content") l);
      [eexists; split; [reflexivity|now left]|].
    eexists; split; [reflexivity|now right].
  - now destruct (Hd d).
Qed.

(** X6. A completion is only ever taken from a JSON object: when the body
    of a successful answer is any other JSON value (a list, a text, a
    number, [null]), [generate_content] raises [Exception] with a message
    that starts with [Error generating content: ]. *)
Theorem generate_content_needs_an_object (E : env) (prompt : string)
  (temperature : pyval) (s : state) (resp : response) (answer : pyval) :
  http_post E (posts s) openrouter_url (openrouter_headers E)
    (openrouter_data prompt temperature) = Ok resp ->
  raise_for_status resp = Ok tt ->
  json resp = Ok answer ->
  (forall d, answer <> PDict d) ->
  exists msg,
    fst (generate_content E prompt temperature s)
    = Raise (mkExn Exception ("Error generating content: " ++ msg)).
Proof.
  intros Hp Hs Hj Hd. rewrite generate_content_run. cbn [fst].
  unfold generate_content_body. rewrite Hp. cbn [rbind]. rewrite Hs. cbn [rbind].
  rewrite Hj. cbn [rbind].
  destruct (extract_completion_not_dict answer Hd) as (e & -> & Hc).
  exists (exn_msg e). destruct e as [c m]. cbn [exn_class exn_msg] in *.
  destruct Hc as [->| ->]; reflexivity.
Qed.

Lemma generate_content_needs_an_object_witness :
  exists msg,
    fst (generate_content
           (sample_env (fun _ => Ok (ok_response (PList [PStr "response"])))
              numbered_results)
           "prompt" default_temperature initial_state)
    = Raise (mkExn Exception ("Error generating content: " ++ msg)).
Proof.
  apply (generate_content_needs_an_object
           (sample_env (fun _ => Ok (ok_response (PList [PStr "response"])))
              numbered_results)
           "prompt" default_temperature initial_state
           (ok_response (PList [PStr "response"])) (PList [PStr "response"]));
    try reflexivity.
  intros d H. discriminate H.
Defined.

(** X7. When the answer is a JSON object with none of the keys [choices],
    [response], [text], [content], the message of the exception carries the
    whole answer: after the fixed prefix comes a JSON document that decodes
    to the answer itself. *)
Theorem unexpected_answer_is_reported_whole (E : env) (prompt : string)
  (temperature : pyval) (s : state) (resp : response) (d : list (string * pyval)) :
  http_post E (posts s) openrouter_url (openrouter_headers E)
    (openrouter_data prompt temperature) = Ok resp ->
  raise_for_status resp = Ok tt ->
  json resp = Ok (PDict d) ->
  json_value (PDict d) = true ->
  Py.dict_get d "choices" = None -> Py.dict_get d "response" = None ->
  Py.dict_get d "text" = None -> Py.dict_get d "content" = None ->
  exists document,
    fst (generate_content E prompt temperature s)
    = Raise (mkExn Exception
        ("Error generating content: Unexpected API response format: " ++ document))
    /\ JsonDecode.loads document = Some (PDict d).
Proof.
  intros Hp Hs Hj Hv H1 H2 H3 H4. exists (Json.dumps (PDict d)). split.
  - rewrite generate_content_run. cbn [fst].
    unfold generate_content_body. rewrite Hp. cbn [rbind]. rewrite Hs. cbn [rbind].
    rewrite Hj. cbn [rbind].
    unfold extract_completion. cbn [Py.contains]. rewrite H1, H2, H3, H4.
    reflexivity.
  - unfold Json.dumps. now apply loads_encode.
Qed.

Lemma unexpected_answer_is_reported_whole_witness :
  exists document,
    fst (generate_content
           (sample_env
              (fun _ => Ok (ok_response
                 (PDict [("error", PDict [("code", PInt 402);
                                          ("message", PStr "Insufficient credits")])])))
              numbered_results)
           "prompt" default_temperature initial_state)
    = Raise (mkExn Exception
        ("Error generating content: Unexpected API response format: " ++ document))
    /\ JsonDecode.loads document
       = Some (PDict [("error", PDict [("code", PInt 402);
                                       ("message", PStr "Insufficient credits")])]).
Proof.
  apply (unexpected_answer_is_reported_whole
           (sample_env
              (fun _ => Ok (ok_response
                 (PDict [("error", PDict [("code", PInt 402);
                                          ("message", PStr "Insufficient credits")])])))
              numbered_results)
           "prompt" default_temperature initial_state
           (ok_response
              (PDict [("error", PDict [("code", PInt 402);
                                       ("message", PStr "Insufficient credits")])])));
    reflexivity.
Defined.

(* ===================================================================== *)
(** * Further properties: what a run costs *)
(* ===================================================================== *)

Lemma search_web_step (E : env) (query search_type : string) (s : state) :
  exists v log, search_web E query search_type s = (Ok v, after_search s log).
Proof.
  rewrite search_web_full.
  destruct (search_answer E query search_type s); eexists; eexists; reflexivity.
Qed.

Lemma quiet_refl (s : state) : quiet s s.
Proof. repeat split. Qed.

Lemma quiet_trans (s1 s2 s3 : state) : quiet s1 s2 -> quiet s2 s3 -> quiet s1 s3.
Proof. unfold quiet. intuition congruence. Qed.

Lemma quiet_after_search (s : state) (log : list string) : quiet s (after_search s log).
Proof. repeat split. Qed.

Ltac search_step H E s :=
  match type of H with
  | context [bind (search_web E ?q ?t) ?k s] =>
      let v := fresh "v" in
      let log := fresh "log" in
      let Hs := fresh "Hs" in
      destruct (search_web_step E q t s) as (v & log & Hs);
      rewrite (bind_ok _ _ _ _ _ Hs) in H; clear Hs;
      unfold collect at 1 in H; rewrite bind_lift in H
  end.

Ltac collect_cases H :=
  match type of H with
  | context [match ?r with Ok _ => _ | Raise _ => _ end] =>
      destruct r;
      [|injection H as _ <-; cbn; repeat split; try reflexivity; lia]
  end.

(** The searches of one topic: at least one, at most four, and nothing but
    the count of searches and the messages shown changes. *)
Lemma generate_resources_steps (E : env) (topic : string) (s s' : state)
  (r : result pyval) :
  generate_resources_for_topic E topic s = (r, s') ->
  quiet s s' /\ slept s' = slept s
  /\ (searches s < searches s' <= 4 + searches s)%nat.
Proof.
  intros H. unfold generate_resources_for_topic in H.
  search_step H E s. collect_cases H.
  match type of H with context [bind _ _ ?s0] => search_step H E s0 end.
  collect_cases H.
  match type of H with context [bind _ _ ?s0] => search_step H E s0 end.
  collect_cases H.
  match type of H with context [bind _ _ ?s0] => search_step H E s0 end.
  collect_cases H.
  injection H as _ <-. cbn. repeat split; try reflexivity; lia.
Qed.

Lemma generate_resources_state (E : env) (topic : string) (s : state) :
  let s' := snd (generate_resources_for_topic E topic s) in
  quiet s s' /\ slept s' = slept s
  /\ (searches s < searches s' <= 4 + searches s)%nat.
Proof.
  cbn zeta. destruct (generate_resources_for_topic E topic s) as [r s'] eqn:H.
  cbn [snd]. eapply generate_resources_steps. exact H.
Qed.

Lemma gather_resources_steps (E : env) (topics : list string) :
  forall resources s r s',
  gather_resources E topics resources s = (r, s') ->
  quiet s s'
  /\ (slept s <= slept s' <= slept s + 2 * Z.of_nat (List.length topics))%Z
  /\ (searches s <= searches s' <= 4 * List.length topics + searches s)%nat.
Proof.
  induction topics as [|topic rest IH]; intros resources s r s' H.
  - cbn in H. injection H as _ <-. cbn. repeat split; try reflexivity; lia.
  - cbn [gather_resources] in H. unfold bind at 1 in H.
    destruct (generate_resources_for_topic E topic s) as [[bundle|e] s1] eqn:Hb;
      apply generate_resources_steps in Hb as (Hq & Hs & Hn).
    + unfold time_sleep in H. rewrite bind_modify in H.
      apply IH in H as (Hq' & Hs' & Hn'). cbn [slept searches] in Hs', Hn'.
      split; [|split].
      * eapply quiet_trans; [exact Hq|].
        eapply quiet_trans; [|exact Hq']. repeat split.
      * cbn [List.length]. lia.
      * cbn [List.length]. lia.
    + injection H as _ <-. split; [exact Hq|]. cbn [List.length]. split; lia.
Qed.

Lemma gather_resources_ok_state (E : env) (topics : list string) :
  forall resources s rs s',
  gather_resources E topics resources s = (Ok rs, s') ->
  slept s' = (slept s + 2 * Z.of_nat (List.length topics))%Z
  /\ searches s' = (4 * List.length topics + searches s)%nat.
Proof.
  induction topics as [|topic rest IH]; intros resources s rs s' H.
  - cbn in H. injection H as _ <-. cbn. split; lia.
  - cbn [gather_resources] in H.
    apply bind_ok_inv in H as (bundle & s1 & Hb & H).
    unfold time_sleep in H. rewrite bind_modify in H.
    apply IH in H as [Hs Hn]. cbn [slept searches] in Hs, Hn.
    pose proof (generate_resources_state E topic s) as Hst. cbn zeta in Hst.
    rewrite Hb in Hst. cbn [snd] in Hst. destruct Hst as (_ & Hs1 & _).
    apply generate_resources_inv in Hb as [Hn1 _].
    cbn [List.length]. split; lia.
Qed.

Lemma generate_content_ok_inv (E : env) (prompt : string) (temperature : pyval)
  (s s' : state) (r : result pyval) :
  generate_content E prompt temperature s = (r, s') -> s' = after_post s.
Proof.
  intros H. rewrite <- (generate_content_state E prompt temperature s), H. reflexivity.
Qed.

(** A run that ends in the success shape, taken apart. *)
Lemma run_success_inv (E : env) (industry target_audience content_goals : string)
  (s s' : state) (d : list (string * pyval)) :
  create_content_calendar E industry target_audience content_goals s = (Ok (PDict d), s') ->
  Py.keys d = success_keys ->
  exists trends strategy briefs topics resources s5,
    d = [("trends", trends); ("strategy", strategy); ("briefs", briefs);
         ("resources", PDict resources);
         ("execution_time",
          Datetime.total_seconds_between (datetime_now E (clock_reads s))
            (datetime_now E (clock_reads s5)))]
    /\ extract_topics strategy = Ok topics
    /\ gather_resources E topics [] (after_generation s) = (Ok resources, s5)
    /\ s' = after_clock s5.
Proof.
  intros Hrun Hkeys.
  unfold create_content_calendar in Hrun. rewrite try_except_Exception in Hrun.
  match type of Hrun with
  | context [match ?b with _ => _ end] => destruct b as [[v|e] s1] eqn:H
  end.
  - injection Hrun as -> ->.
    rewrite (bind_ok _ _ _ _ _ (now_run E s)) in H.
    apply bind_ok_inv in H as (trends & s2 & H1 & H).
    apply generate_content_ok_inv in H1 as ->.
    unfold time_sleep at 1 in H. rewrite bind_modify in H.
    apply bind_ok_inv in H as (strategy & s3 & H2 & H).
    apply generate_content_ok_inv in H2 as ->.
    unfold time_sleep at 1 in H. rewrite bind_modify in H.
    apply bind_ok_inv in H as (briefs & s4 & H3 & H).
    apply generate_content_ok_inv in H3 as ->.
    unfold time_sleep at 1 in H. rewrite bind_modify in H.
    apply bind_ok_inv in H as (topics & s4 & Ht & H).
    apply lift_ok_inv in Ht as [Ht ->].
    apply bind_ok_inv in H as (resources & s5 & Hg & H).
    rewrite (bind_ok _ _ _ _ _ (now_run E s5)) in H.
    injection H as <- <-.
    exists trends, strategy, briefs, topics, resources, s5.
    split; [reflexivity|]. split; [exact Ht|]. split; [exact Hg|reflexivity].
  - cbn [ret] in Hrun. injection Hrun as <- _. discriminate Hkeys.
Qed.

(** X8. What a run that succeeds has cost.  With [topics] the topics
    extracted from its strategy: three POSTs, four searches for each topic,
    three seconds of pause after the generations and two after each topic,
    and two readings of the clock, whose difference in seconds is the
    [execution_time] of the result.  No GET was sent, no session is left
    open, nothing was printed and no file was written. *)
Theorem successful_run_cost (E : env) (industry target_audience content_goals : string)
  (s s' : state) (d : list (string * pyval)) :
  create_content_calendar E industry target_audience content_goals s = (Ok (PDict d), s') ->
  Py.keys d = success_keys ->
  exists strategy topics,
    Py.dict_get d "strategy" = Some strategy
    /\ extract_topics strategy = Ok topics
    /\ posts s' = (3 + posts s)%nat
    /\ searches s' = (4 * List.length topics + searches s)%nat
    /\ slept s' = (slept s + 3 + 2 * Z.of_nat (List.length topics))%Z
    /\ clock_reads s' = (2 + clock_reads s)%nat
    /\ Py.dict_get d "execution_time"
       = Some (Datetime.total_seconds_between (datetime_now E (clock_reads s))
                 (datetime_now E (S (clock_reads s))))
    /\ gets s' = gets s /\ sessions_open s' = sessions_open s
    /\ stdout s' = stdout s /\ files s' = files s.
Proof.
  intros Hrun Hkeys.
  destruct (run_success_inv _ _ _ _ _ _ _ Hrun Hkeys)
    as (trends & strategy & briefs & topics & resources & s5 & -> & Ht & Hg & ->).
  exists strategy, topics. split; [reflexivity|]. split; [exact Ht|].
  pose proof (gather_resources_ok_state _ _ _ _ _ _ Hg) as [Hs Hn].
  pose proof (gather_resources_steps _ _ _ _ _ _ Hg) as ((Hp & Hgets & Hc & Ho & Hout & Hf) & _).
  unfold after_generation in Hs, Hn, Hp, Hgets, Hc, Ho, Hout, Hf.
  cbn [posts searches slept clock_reads gets sessions_open stdout files]
    in Hs, Hn, Hp, Hgets, Hc, Ho, Hout, Hf.
  unfold after_clock.
  cbn [posts searches slept clock_reads gets sessions_open stdout files].
  repeat split; try assumption; try lia.
  cbn. now rewrite Hc.
Qed.

Lemma successful_run_cost_witness :
  exists s' d strategy topics,
    create_content_calendar (sample_env (answering canned) numbered_results)
      "Fitness" "busy professionals" "increase brand awareness" initial_state
    = (Ok (PDict d), s')
    /\ Py.dict_get d "strategy" = Some strategy
    /\ extract_topics strategy = Ok topics
    /\ List.length topics = 3%nat
    /\ posts s' = 3%nat /\ searches s' = 12%nat /\ slept s' = 9%Z.
Proof.
  pose (E := sample_env (answering canned) numbered_results).
  pose (run := create_content_calendar E "Fitness" "busy professionals"
                 "increase brand awareness" initial_state).
  pose (d := match fst run with Ok (PDict d) => d | _ => [] end).
  assert (Hrun : run = (Ok (PDict d), snd run)) by (vm_compute; reflexivity).
  assert (Hkeys : Py.keys d = success_keys) by (vm_compute; reflexivity).
  destruct (successful_run_cost E _ _ _ _ _ d Hrun Hkeys)
    as (strategy & topics & Hs & Ht & Hp & Hn & Hsl & _).
  exists (snd run), d, strategy, topics.
  split; [exact Hrun|]. split; [exact Hs|]. split; [exact Ht|].
  vm_compute in Hs. injection Hs as <-.
  vm_compute in Ht. injection Ht as <-.
  split; [reflexivity|]. split; [exact Hp|]. split; [exact Hn|exact Hsl].
Defined.

(** X9. In a run that succeeds, the topics of the Resources tab are the
    topics the resources were gathered for: the tab's own extraction gives
    the list the pipeline extracted, each of them has an entry among the
    resources of the result, and there is no other entry. *)
Theorem shown_topics_have_resources (E : env)
  (industry target_audience content_goals : string)
  (s s' : state) (d : list (string * pyval)) :
  create_content_calendar E industry target_audience content_goals s = (Ok (PDict d), s') ->
  Py.keys d = success_keys ->
  exists strategy resources shown,
    Py.dict_get d "strategy" = Some strategy
    /\ Py.dict_get d "resources" = Some (PDict resources)
    /\ display_topics strategy = Ok shown
    /\ Py.keys resources = distinct shown
    /\ (forall topic, In topic shown <-> exists bundle, Py.dict_get resources topic = Some bundle).
Proof.
  intros Hrun Hkeys.
  destruct (run_success_inv _ _ _ _ _ _ _ Hrun Hkeys)
    as (trends & strategy & briefs & topics & resources & s5 & -> & Ht & Hg & ->).
  exists strategy, resources, topics.
  split; [reflexivity|]. split; [reflexivity|].
  assert (Hd : display_topics strategy = Ok topics).
  { destruct strategy; try discriminate Ht.
    now apply display_topics_of_extracted. }
  split; [exact Hd|].
  pose proof (gather_resources_keys _ _ _ _ _ _ Hg) as Hk.
  change (Py.keys []) with (@nil string) in Hk. fold (distinct topics) in Hk.
  split; [exact Hk|].
  intros topic.
  assert (Hin : In topic topics <-> In topic (Py.keys resources)).
  { rewrite Hk. unfold distinct. rewrite distinct_from_In. simpl. tauto. }
  rewrite Hin. apply dict_get_In_keys.
Qed.

Lemma shown_topics_have_resources_witness :
  exists resources,
    Py.keys resources = ["Home workouts"; "Protein myths"]
    /\ (exists bundle, Py.dict_get resources "Protein myths" = Some bundle).
Proof.
  pose (E := sample_env (answering canned) numbered_results).
  pose (run := create_content_calendar E "Fitness" "busy professionals"
                 "increase brand awareness" initial_state).
  pose (d := match fst run with Ok (PDict d) => d | _ => [] end).
  assert (Hrun : run = (Ok (PDict d), snd run)) by (vm_compute; reflexivity).
  assert (Hkeys : Py.keys d = success_keys) by (vm_compute; reflexivity).
  destruct (shown_topics_have_resources E _ _ _ _ _ d Hrun Hkeys)
    as (strategy & resources & shown & Hs & _ & Hd & Hk & Hin).
  vm_compute in Hs. injection Hs as <-.
  vm_compute in Hd. injection Hd as <-.
  exists resources. split; [exact Hk|].
  apply Hin. simpl. auto.
Defined.

(** The body of [generate_content] looks at the state only for the number
    of the POST. *)
Lemma generate_content_body_posts (E : env) (prompt : string) (temperature : pyval)
  (s1 s2 : state) :
  posts s1 = posts s2 ->
  generate_content_body E prompt temperature s1
  = generate_content_body E prompt temperature s2.
Proof. intros H. unfold generate_content_body. now rewrite H. Qed.

(** Two readings of the outcome of one call agree; a goal on the state of
    a run that stopped. *)
Ltac same_call :=
  intros;
  repeat match goal with
         | H1 : ?t = _, H2 : ?t = _ |- _ => rewrite H1 in H2
         | H : Ok _ = Ok _ |- _ => injection H as <-
         | H : Raise _ = Raise _ |- _ => injection H as <-
         | H : Ok _ = Raise _ |- _ => discriminate H
         | H : Raise _ = Ok _ |- _ => discriminate H
         end.

Ltac stopped :=
  unfold stopped_at, after_post, after_clock; cbn; do 2 f_equal; lia.

(** X10. A generation call that fails stops the run at once.  When the
    first, the second or the third call of [generate_content] fails (the
    calls before it having given their completions), the run returns the
    message of that failure as its [error] and ends in the state of that
    call: no further POST, no search, only the pauses that followed the
    calls answered.  When the three calls are answered, three POSTs were
    made and at least three seconds slept.  In every run no GET was sent,
    no session is left open, nothing was printed and no file was written. *)
Theorem failed_generation_stops_run (E : env)
  (industry target_audience content_goals : string) (s : state) :
  let run := create_content_calendar E industry target_audience content_goals s in
  let first :=
    generation_call E s 0 (research_prompt industry target_audience content_goals) in
  let second trends := generation_call E s 1 (strategy_prompt trends target_audience) in
  let third strategy := generation_call E s 2 (brief_prompt strategy) in
  (forall cause,
     first = Raise cause ->
     run = (Ok (PDict [("error", PStr (failure_message cause))]), stopped_at s 0))
  /\ (forall trends cause,
        first = Ok trends -> second trends = Raise cause ->
        run = (Ok (PDict [("error", PStr (failure_message cause))]), stopped_at s 1))
  /\ (forall trends strategy cause,
        first = Ok trends -> second trends = Ok strategy ->
        third strategy = Raise cause ->
        run = (Ok (PDict [("error", PStr (failure_message cause))]), stopped_at s 2))
  /\ (forall trends strategy briefs,
        first = Ok trends -> second trends = Ok strategy ->
        third strategy = Ok briefs ->
        posts (snd run) = (3 + posts s)%nat
        /\ (slept s + 3 <= slept (snd run))%Z
        /\ (S (clock_reads s) <= clock_reads (snd run) <= 2 + clock_reads s)%nat)
  /\ gets (snd run) = gets s /\ sessions_open (snd run) = sessions_open s
  /\ stdout (snd run) = stdout s /\ files (snd run) = files s.
Proof.
  cbn zeta.
  destruct (create_content_calendar E industry target_audience content_goals s)
    as [r s'] eqn:H.
  cbn [fst snd].
  unfold create_content_calendar in H. rewrite try_except_Exception in H.
  rewrite (bind_ok _ _ _ _ _ (now_run E s)) in H.
  unfold bind at 1 in H. rewrite generate_content_run in H.
  match type of H with context [generate_content_body E ?p ?t ?s0] =>
    rewrite (generate_content_body_posts E p t s0 (before_call s 0) eq_refl) in H end.
  fold (generation_call E s 0
          (research_prompt industry target_audience content_goals)) in H.
  destruct (generation_call E s 0 _) as [trends|c1] eqn:H1.
  2:{ injection H as <- <-. repeat split; same_call; try reflexivity; stopped. }
  unfold time_sleep at 1 in H. rewrite bind_modify in H.
  unfold bind at 1 in H. rewrite generate_content_run in H.
  match type of H with context [generate_content_body E ?p ?t ?s0] =>
    rewrite (generate_content_body_posts E p t s0 (before_call s 1) eq_refl) in H end.
  fold (generation_call E s 1 (strategy_prompt trends target_audience)) in H.
  destruct (generation_call E s 1 _) as [strategy|c2] eqn:H2.
  2:{ injection H as <- <-. repeat split; same_call; try reflexivity; stopped. }
  unfold time_sleep at 1 in H. rewrite bind_modify in H.
  unfold bind at 1 in H. rewrite generate_content_run in H.
  match type of H with context [generate_content_body E ?p ?t ?s0] =>
    rewrite (generate_content_body_posts E p t s0 (before_call s 2) eq_refl) in H end.
  fold (generation_call E s 2 (brief_prompt strategy)) in H.
  destruct (generation_call E s 2 _) as [briefs|c3] eqn:H3.
  2:{ injection H as <- <-. repeat split; same_call; try reflexivity; stopped. }
  unfold time_sleep at 1 in H. rewrite bind_modify in H.
  rewrite bind_lift in H.
  destruct (extract_topics strategy) as [topics|e].
  2:{ injection H as <- <-. repeat split; same_call; cbn; try reflexivity; lia. }
  unfold bind at 1 in H.
  match type of H with context [gather_resources E topics [] ?s0] =>
    destruct (gather_resources E topics [] s0) as [[resources|e] s5] eqn:Hg end;
    apply gather_resources_steps in Hg
      as ((Hp & Hgets & Hc & Ho & Hout & Hf) & Hs & Hn);
    cbn [posts gets clock_reads sessions_open stdout files slept searches after_post
         after_clock] in Hp, Hgets, Hc, Ho, Hout, Hf, Hs, Hn.
  - rewrite (bind_ok _ _ _ _ _ (now_run E s5)) in H. injection H as <- <-.
    unfold after_clock.
    cbn [posts gets clock_reads sessions_open stdout files slept searches].
    repeat split; same_call; try assumption; try lia.
  - injection H as <- <-.
    repeat split; same_call; try assumption; try lia.
Qed.

(** A backend that answers the first generation call and is unreachable at
    the second. *)
Lemma failed_generation_stops_run_witness :
  create_content_calendar
    (sample_env (fun n => if Nat.eqb n 1
                          then Py.raise ConnectionError "unreachable"
                          else answering canned n)
                numbered_results)
    "Fitness" "busy professionals" "increase brand awareness" initial_state
  = (Ok (PDict [("error",
                 PStr "Network connection error. Please check your internet connection and try again.")]),
     stopped_at initial_state 1).
Proof.
  set (E := sample_env _ _).
  exact (proj1 (proj2 (failed_generation_stops_run E "Fitness" "busy professionals"
                         "increase brand awareness" initial_state))
           (canned 0) (mkExn ConnectionError "unreachable") eq_refl eq_refl).
Defined.

(** X11. The strategy has to be a text.  When the second completion is any
    other JSON value, the run makes its three generation calls and then
    fails on the extraction of the topics: the result holds the message of
    the [AttributeError] and no search was made. *)
Theorem strategy_must_be_text (E : env) (completion : nat -> pyval)
  (industry target_audience content_goals : string) (s : state) :
  generation_answers E completion ->
  (forall text, completion (S (posts s)) <> PStr text) ->
  let run := create_content_calendar E industry target_audience content_goals s in
  fst run
  = Ok (PDict [("error",
                PStr ("'" ++ PyRepr.type_name (completion (S (posts s)))
                      ++ "' object has no attribute 'split'"))])
  /\ posts (snd run) = (3 + posts s)%nat
  /\ searches (snd run) = searches s.
Proof.
  intros Ha Hs run.
  assert (H : run
              = (Ok (PDict [("error",
                             PStr ("'" ++ PyRepr.type_name (completion (S (posts s)))
                                   ++ "' object has no attribute 'split'"))]),
                 after_generation s)).
  { subst run. unfold create_content_calendar.
    rewrite try_except_Exception.
    rewrite (bind_ok _ _ _ _ _ (now_run E s)).
    rewrite (bind_ok _ _ _ _ _ (generate_content_answers E completion _ _ _ Ha)).
    unfold time_sleep at 1. rewrite bind_modify.
    rewrite (bind_ok _ _ _ _ _ (generate_content_answers E completion _ _ _ Ha)).
    unfold time_sleep at 1. rewrite bind_modify.
    rewrite (bind_ok _ _ _ _ _ (generate_content_answers E completion _ _ _ Ha)).
    unfold time_sleep at 1. rewrite bind_modify.
    cbn [posts after_post after_clock].
    rewrite bind_lift.
    destruct (completion (S (posts s))) as [|b|z|r|t|l|d] eqn:Hc;
      try reflexivity.
    now destruct (Hs t). }
  rewrite H. repeat split.
Qed.

Lemma strategy_must_be_text_witness :
  fst (create_content_calendar
         (sample_env (answering (fun n => PList [PStr "Day 1: Home workouts"]))
            numbered_results)
         "Fitness" "busy professionals" "increase brand awareness" initial_state)
  = Ok (PDict [("error", PStr "'list' object has no attribute 'split'")]).
Proof.
  apply (strategy_must_be_text
           (sample_env (answering (fun n => PList [PStr "Day 1: Home workouts"]))
              numbered_results)
           (fun n => PList [PStr "Day 1: Home workouts"])
           "Fitness" "busy professionals" "increase brand awareness" initial_state).
  - apply answering_answers.
  - intros text H. discriminate H.
Defined.

(* ===================================================================== *)
(** * Further properties: the files of two saves *)
(* ===================================================================== *)

Lemma pad_two_value (z : Z) :
  (0 <= z < 100)%Z -> digits_value 0 (Datetime.zero_pad 2 z) = z.
Proof.
  intros Hz.
  assert (Hall : forall_from (fun n => Z.eqb (digits_value 0 (Datetime.zero_pad 2 n)) n)
                             0 (Z.to_nat 100) = true) by (vm_compute; reflexivity).
  apply Z.eqb_eq. apply (forall_from_spec _ _ _ Hall). rewrite Z2Nat.id; lia.
Qed.

Lemma pad_four_value (z : Z) :
  (1000 <= z <= 9999)%Z -> digits_value 0 (Datetime.zero_pad 4 z) = z.
Proof.
  intros Hz.
  assert (Hall : forall_from (fun n => Z.eqb (digits_value 0 (Datetime.zero_pad 4 n)) n)
                             1000 (Z.to_nat 9000) = true) by (vm_compute; reflexivity).
  apply Z.eqb_eq. apply (forall_from_spec _ _ _ Hall). rewrite Z2Nat.id; lia.
Qed.

Lemma pad_two_inj (a b : Z) :
  (0 <= a < 100)%Z -> (0 <= b < 100)%Z ->
  Datetime.zero_pad 2 a = Datetime.zero_pad 2 b -> a = b.
Proof.
  intros Ha Hb H. rewrite <- (pad_two_value a Ha), <- (pad_two_value b Hb). now rewrite H.
Qed.

Lemma pad_four_inj (a b : Z) :
  (1000 <= a <= 9999)%Z -> (1000 <= b <= 9999)%Z ->
  Datetime.zero_pad 4 a = Datetime.zero_pad 4 b -> a = b.
Proof.
  intros Ha Hb H. rewrite <- (pad_four_value a Ha), <- (pad_four_value b Hb). now rewrite H.
Qed.

(** The time stamp tells two times apart as soon as they differ in a field
    down to the second. *)
Lemma strftime_stamp_inj (t1 t2 : datetime) :
  valid_datetime t1 -> valid_datetime t2 ->
  Datetime.strftime_stamp t1 = Datetime.strftime_stamp t2 -> same_second t1 t2.
Proof.
  intros (Hy1 & Hm1 & Hd1 & Hh1 & Hi1 & Hs1) (Hy2 & Hm2 & Hd2 & Hh2 & Hi2 & Hs2).
  unfold Datetime.strftime_stamp. intros H.
  pose proof (zero_pad_four (year t1) Hy1) as Py1.
  pose proof (zero_pad_two (month t1) ltac:(lia)) as Pm1.
  pose proof (zero_pad_two (day t1) ltac:(lia)) as Pd1.
  pose proof (zero_pad_two (hour t1) ltac:(lia)) as Ph1.
  pose proof (zero_pad_two (minute t1) ltac:(lia)) as Pi1.
  pose proof (zero_pad_two (second t1) ltac:(lia)) as Ps1.
  pose proof (zero_pad_four (year t2) Hy2) as Py2.
  pose proof (zero_pad_two (month t2) ltac:(lia)) as Pm2.
  pose proof (zero_pad_two (day t2) ltac:(lia)) as Pd2.
  pose proof (zero_pad_two (hour t2) ltac:(lia)) as Ph2.
  pose proof (zero_pad_two (minute t2) ltac:(lia)) as Pi2.
  pose proof (zero_pad_two (second t2) ltac:(lia)) as Ps2.
  assert (Hall : Datetime.zero_pad 4 (year t1) = Datetime.zero_pad 4 (year t2)
                 /\ Datetime.zero_pad 2 (month t1) = Datetime.zero_pad 2 (month t2)
                 /\ Datetime.zero_pad 2 (day t1) = Datetime.zero_pad 2 (day t2)
                 /\ Datetime.zero_pad 2 (hour t1) = Datetime.zero_pad 2 (hour t2)
                 /\ Datetime.zero_pad 2 (minute t1) = Datetime.zero_pad 2 (minute t2)
                 /\ Datetime.zero_pad 2 (second t1) = Datetime.zero_pad 2 (second t2)).
  { destruct (Datetime.zero_pad 4 (year t1)) as [|a1 [|a2 [|a3 [|a4 [|? ?]]]]];
      try discriminate.
    destruct (Datetime.zero_pad 2 (month t1)) as [|b1 [|b2 [|? ?]]]; try discriminate.
    destruct (Datetime.zero_pad 2 (day t1)) as [|c1 [|c2 [|? ?]]]; try discriminate.
    destruct (Datetime.zero_pad 2 (hour t1)) as [|d1 [|d2 [|? ?]]]; try discriminate.
    destruct (Datetime.zero_pad 2 (minute t1)) as [|e1 [|e2 [|? ?]]]; try discriminate.
    destruct (Datetime.zero_pad 2 (second t1)) as [|f1 [|f2 [|? ?]]]; try discriminate.
    destruct (Datetime.zero_pad 4 (year t2)) as [|a1' [|a2' [|a3' [|a4' [|? ?]]]]];
      try discriminate.
    destruct (Datetime.zero_pad 2 (month t2)) as [|b1' [|b2' [|? ?]]]; try discriminate.
    destruct (Datetime.zero_pad 2 (day t2)) as [|c1' [|c2' [|? ?]]]; try discriminate.
    destruct (Datetime.zero_pad 2 (hour t2)) as [|d1' [|d2' [|? ?]]]; try discriminate.
    destruct (Datetime.zero_pad 2 (minute t2)) as [|e1' [|e2' [|? ?]]]; try discriminate.
    destruct (Datetime.zero_pad 2 (second t2)) as [|f1' [|f2' [|? ?]]]; try discriminate.
    cbn [append] in H. injection H as -> -> -> -> -> -> -> -> -> -> -> -> -> ->.
    repeat split. }
  destruct Hall as (Ey & Em & Ed & Eh & Ei & Es).
  unfold same_second. repeat split.
  - now apply pad_four_inj.
  - apply pad_two_inj; [lia|lia|assumption].
  - apply pad_two_inj; [lia|lia|assumption].
  - apply pad_two_inj; [lia|lia|assumption].
  - apply pad_two_inj; [lia|lia|assumption].
  - apply pad_two_inj; [lia|lia|assumption].
Qed.

Lemma append_inv_head (p a b : string) : (p ++ a = p ++ b -> a = b)%string.
Proof.
  induction p as [|c p IH]; simpl; [easy|]. intros H. injection H as H. now apply IH.
Qed.

Lemma append_inv_tail (a : string) :
  forall b c, (a ++ c = b ++ c -> a = b)%string.
Proof.
  induction a as [|x a IH]; intros [|y b] c H; simpl in H.
  - reflexivity.
  - apply (f_equal String.length) in H. simpl in H. rewrite length_append in H. lia.
  - apply (f_equal String.length) in H. simpl in H. rewrite length_append in H. lia.
  - injection H as -> H. f_equal. now apply (IH b c).
Qed.

Lemma calendar_file_inj (t1 t2 : datetime) :
  valid_datetime t1 -> valid_datetime t2 ->
  calendar_file t1 = calendar_file t2 -> same_second t1 t2.
Proof.
  intros H1 H2 H. apply strftime_stamp_inj; try assumption.
  unfold calendar_file in H. apply append_inv_head in H.
  now apply append_inv_tail in H.
Qed.

Lemma same_second_stamp (t1 t2 : datetime) :
  same_second t1 t2 -> Datetime.strftime_stamp t1 = Datetime.strftime_stamp t2.
Proof.
  intros (Hy & Hm & Hd & Hh & Hi & Hs). unfold Datetime.strftime_stamp.
  now rewrite Hy, Hm, Hd, Hh, Hi, Hs.
Qed.

Lemma save_content_calendar_run (E : env)
  (industry target_audience content_goals : string) (result : pyval) (s : state) :
  let t := datetime_now E (clock_reads s) in
  save_content_calendar E industry target_audience content_goals result s
  = (Ok (calendar_file t),
     mkState (posts s) (gets s) (searches s) (S (clock_reads s)) (sessions_open s)
             (slept s) (st_errors s) (stdout s)
             (write_entry (files s) (calendar_file t)
                (Json.dumps_indent 4
                   (persisted_run industry target_audience content_goals
                      (Datetime.strftime_stamp t) result)))).
Proof.
  cbn zeta. unfold save_content_calendar.
  rewrite (bind_ok _ _ _ _ _ (now_run E s)).
  unfold write_file. rewrite bind_modify. reflexivity.
Qed.

Lemma persisted_run_json (industry target_audience content_goals stamp : string)
  (result : pyval) :
  json_value result = true ->
  json_value (persisted_run industry target_audience content_goals stamp result) = true.
Proof.
  intros Hv. unfold persisted_run. cbn [json_value map fst snd forallb].
  rewrite Hv. reflexivity.
Qed.

(** X12. Two saves and their files.  The name of the file tells the time
    of the save down to the second.  Of two saves made at times that differ
    in a field down to the second, each has its own file, and both read
    back.  Two saves within the same second have the same file name: the
    second replaces what the first wrote, and only the second reads back. *)
Theorem saves_collide_within_a_second (E : env)
  (i1 a1 g1 i2 a2 g2 : string) (r1 r2 : pyval) (s s1 : state) :
  let t1 := datetime_now E (clock_reads s) in
  let t2 := datetime_now E (clock_reads s1) in
  let first := save_content_calendar E i1 a1 g1 r1 s in
  let second := save_content_calendar E i2 a2 g2 r2 s1 in
  valid_datetime t1 -> valid_datetime t2 ->
  json_value r1 = true -> json_value r2 = true ->
  files s1 = files (snd first) ->
  fst first = Ok (calendar_file t1)
  /\ fst second = Ok (calendar_file t2)
  /\ load_file (snd second) (calendar_file t2)
     = Some (persisted_run i2 a2 g2 (Datetime.strftime_stamp t2) r2)
  /\ (calendar_file t1 = calendar_file t2 <-> same_second t1 t2)
  /\ (~ same_second t1 t2 ->
      load_file (snd second) (calendar_file t1)
      = Some (persisted_run i1 a1 g1 (Datetime.strftime_stamp t1) r1)).
Proof.
  intros t1 t2 first second Hv1 Hv2 Hj1 Hj2 Hfiles.
  subst first second.
  pose proof (save_content_calendar_run E i1 a1 g1 r1 s) as R1.
  pose proof (save_content_calendar_run E i2 a2 g2 r2 s1) as R2.
  cbn zeta in R1, R2. fold t1 in R1. fold t2 in R2.
  rewrite R1 in Hfiles |- *. rewrite R2. cbn [fst snd files] in Hfiles |- *.
  split; [reflexivity|]. split; [reflexivity|]. split; [|split].
  - unfold load_file. cbn [files]. rewrite read_write_same.
    unfold Json.dumps_indent. apply loads_encode. now apply persisted_run_json.
  - split; [now apply calendar_file_inj|].
    intros Hsame. unfold calendar_file. now rewrite (same_second_stamp t1 t2 Hsame).
  - intros Hdiff. unfold load_file. cbn [files].
    rewrite read_write_other.
    + rewrite Hfiles, read_write_same.
      unfold Json.dumps_indent. apply loads_encode. now apply persisted_run_json.
    + intros Heq. apply Hdiff. now apply calendar_file_inj.
Qed.

Lemma saves_collide_within_a_second_witness :
  let E := sample_env (answering canned) numbered_results in
  let first := save_content_calendar E "Fitness" "runners" "reach" (PInt 1) initial_state in
  let second := save_content_calendar E "Fitness" "runners" "reach" (PInt 2) (snd first) in
  load_file (snd second) "content_calendar_20240301_100000.json"
  = Some (persisted_run "Fitness" "runners" "reach" "20240301_100000" (PInt 1))
  /\ load_file (snd second) "content_calendar_20240301_100005.json"
     = Some (persisted_run "Fitness" "runners" "reach" "20240301_100005" (PInt 2)).
Proof.
  intros E first second.
  assert (Hv1 : valid_datetime (datetime_now E (clock_reads initial_state)))
    by (unfold valid_datetime; cbn; lia).
  assert (Hv2 : valid_datetime (datetime_now E (clock_reads (snd first))))
    by (unfold valid_datetime; cbn; lia).
  destruct (saves_collide_within_a_second E "Fitness" "runners" "reach"
              "Fitness" "runners" "reach" (PInt 1) (PInt 2) initial_state (snd first)
              Hv1 Hv2 eq_refl eq_refl eq_refl)
    as (_ & _ & Hsecond & _ & Hfirst).
  split.
  - apply Hfirst. intros (_ & _ & _ & _ & _ & Hs). vm_compute in Hs. discriminate Hs.
  - exact Hsecond.
Defined.

(* ===================================================================== *)
(** * Further properties: the check of the environment *)
(* ===================================================================== *)

Lemma In_required (var : string) :
  In var required_env_vars ->
  var = "OPENROUTER_API_KEY" \/ var = "SITE_URL" \/ var = "SITE_NAME"
  \/ var = "SERPAPI_KEY".
Proof. simpl. intuition. Qed.

(** X13. The check made when the module is loaded passes exactly when each
    of the four variables is set to a value that is not empty.  When it
    fails it raises [ValueError], and a variable is named in the message
    exactly when it is missing. *)
Theorem check_environment_names_missing (E : env) :
  (check_environment E = Ok tt
   <-> forall var, In var required_env_vars -> truthy (getenv E var) = true)
  /\ (forall e, check_environment E = Raise e ->
      exn_class e = ValueError
      /\ forall var, In var required_env_vars ->
           (PyStr.has_substring var (exn_msg e) = true
            <-> truthy (getenv E var) = false)).
Proof.
  unfold check_environment, missing_vars, required_env_vars. cbn [filter].
  destruct (truthy (getenv E "OPENROUTER_API_KEY")) eqn:H1;
  destruct (truthy (getenv E "SITE_URL")) eqn:H2;
  destruct (truthy (getenv E "SITE_NAME")) eqn:H3;
  destruct (truthy (getenv E "SERPAPI_KEY")) eqn:H4;
  cbn [negb];
  [ split;
    [ split; [|reflexivity];
      intros _ var Hvar; apply In_required in Hvar as [->|[->|[->| ->]]]; assumption
    | intros e He; discriminate He ]
  | split;
    [ split;
      [ intros H; discriminate H
      | intros H;
        first [ rewrite (H "OPENROUTER_API_KEY") in H1 by (simpl; auto); discriminate H1
              | rewrite (H "SITE_URL") in H2 by (simpl; auto); discriminate H2
              | rewrite (H "SITE_NAME") in H3 by (simpl; auto); discriminate H3
              | rewrite (H "SERPAPI_KEY") in H4 by (simpl; auto); discriminate H4 ] ]
    | intros e He; injection He as <-;
      split; [reflexivity|];
      intros var Hvar; apply In_required in Hvar as [->|[->|[->| ->]]];
      (split;
       [ intros Hsub; first [assumption | vm_compute in Hsub; discriminate Hsub]
       | intros Hf; first [vm_compute; reflexivity | congruence] ]) ] .. ].
Qed.

(* ===================================================================== *)
(** * Further properties: the contents of a bundle *)
(* ===================================================================== *)

Lemma resource_entry_of_dict (fields : list (string * string)) (d : list (string * pyval)) :
  resource_entry fields (PDict d)
  = Ok (map (fun f => (fst f,
                       match Py.dict_get d (snd f) with
                       | Some x => x
                       | None => PStr ""
                       end)) fields).
Proof.
  induction fields as [|[out_key in_key] rest IH]; [reflexivity|].
  cbn [resource_entry Py.get map fst snd]. rewrite IH.
  destruct (Py.dict_get d in_key); reflexivity.
Qed.

Lemma dict_set_twice (d : list (string * pyval)) (k : string) (v w : pyval) :
  Py.dict_set (Py.dict_set d k v) k w = Py.dict_set d k w.
Proof.
  induction d as [|[k' v'] d IH]; simpl.
  - now rewrite String.eqb_refl.
  - destruct (String.eqb k' k) eqn:Hk; simpl; rewrite Hk; [reflexivity|now rewrite IH].
Qed.

Lemma dict_set_same_value (d : list (string * pyval)) (k : string) (v : pyval) :
  Py.dict_get d k = Some v -> Py.dict_set d k v = d.
Proof.
  induction d as [|[k' v'] d IH]; simpl; [discriminate|].
  destruct (String.eqb k' k) eqn:Hk.
  - now intros [= ->].
  - intros H. now rewrite IH.
Qed.

(** The loop over the results of one search: each result that is an object
    gives one record, appended in order. *)
Lemma for_results_objects (key : string) (fields : list (string * string))
  (items : list pyval) :
  Forall is_dict items ->
  forall resources l,
  Py.dict_get resources key = Some (PList l) ->
  for_results key fields items resources
  = Ok (Py.dict_set resources key (PList (l ++ map (entry_of fields) items)%list)).
Proof.
  induction 1 as [|item items [d ->] _ IH]; intros resources l Hl.
  - cbn [for_results map]. rewrite app_nil_r. now rewrite dict_set_same_value.
  - cbn [for_results]. rewrite resource_entry_of_dict. cbn [rbind].
    unfold append_at. rewrite Hl.
    rewrite (IH _ (l ++ [PDict (map (fun f => (fst f,
                                      match Py.dict_get d (snd f) with
                                      | Some x => x
                                      | None => PStr ""
                                      end)) fields)])%list)
      by apply dict_get_set_same.
    rewrite dict_set_twice. cbn [map entry_of]. now rewrite <- app_assoc.
Qed.

Lemma collect_objects (key : string) (fields : list (string * string))
  (items : list pyval) (resources : list (string * pyval)) (l : list pyval) (s : state) :
  Forall is_dict items ->
  Py.dict_get resources key = Some (PList l) ->
  collect key fields (PList items) resources s
  = (Ok (Py.dict_set resources key (PList (l ++ map (entry_of fields) items)%list)), s).
Proof.
  intros Hd Hl. unfold collect, lift. cbn [Py.iter rbind].
  now rewrite (for_results_objects key fields items Hd resources l Hl).
Qed.

(** X14. The contents of a bundle.  When the four searches made for a topic
    return lists of objects, the bundle holds, under each of its four keys,
    one record for each result of the search of that key, in the order of
    the results; a record has the three fields of its list, each with the
    value the result has for it, or the empty text when the result has no
    such field. *)
Theorem bundle_lists_follow_results (E : env) (topic : string)
  (s s1 s2 s3 s4 : state) (r1 r2 r3 r4 : list pyval) :
  search_web E (topic ++ " research papers articles") "scholar" s = (Ok (PList r1), s1) ->
  search_web E (topic ++ " tutorial guide") "videos" s1 = (Ok (PList r2), s2) ->
  search_web E (topic ++ " tools software applications") "general" s2
  = (Ok (PList r3), s3) ->
  search_web E (topic ++ " statistics data facts") "general" s3 = (Ok (PList r4), s4) ->
  Forall is_dict r1 -> Forall is_dict r2 -> Forall is_dict r3 -> Forall is_dict r4 ->
  generate_resources_for_topic E topic s
  = (Ok (PDict [("research", PList (map (entry_of research_fields) r1));
                ("videos", PList (map (entry_of video_fields) r2));
                ("tools", PList (map (entry_of tool_fields) r3));
                ("stats", PList (map (entry_of research_fields) r4))]),
     s4).
Proof.
  intros H1 H2 H3 H4 D1 D2 D3 D4. unfold generate_resources_for_topic.
  rewrite (bind_ok _ _ _ _ _ H1).
  rewrite (bind_ok _ _ _ _ _ (collect_objects "research" _ r1
               [("research", PList []); ("videos", PList []); ("tools", PList []);
                ("stats", PList [])] [] s1 D1 eq_refl)).
  cbn [Py.dict_set String.eqb Ascii.eqb Bool.eqb app].
  rewrite (bind_ok _ _ _ _ _ H2).
  rewrite (bind_ok _ _ _ _ _ (collect_objects "videos" _ r2
               [("research", PList (map (entry_of research_fields) r1));
                ("videos", PList []); ("tools", PList []); ("stats", PList [])]
               [] s2 D2 eq_refl)).
  cbn [Py.dict_set String.eqb Ascii.eqb Bool.eqb app].
  rewrite (bind_ok _ _ _ _ _ H3).
  rewrite (bind_ok _ _ _ _ _ (collect_objects "tools" _ r3
               [("research", PList (map (entry_of research_fields) r1));
                ("videos", PList (map (entry_of video_fields) r2));
                ("tools", PList []); ("stats", PList [])]
               [] s3 D3 eq_refl)).
  cbn [Py.dict_set String.eqb Ascii.eqb Bool.eqb app].
  rewrite (bind_ok _ _ _ _ _ H4).
  rewrite (bind_ok _ _ _ _ _ (collect_objects "stats" _ r4
               [("research", PList (map (entry_of research_fields) r1));
                ("videos", PList (map (entry_of video_fields) r2));
                ("tools", PList (map (entry_of tool_fields) r3)); ("stats", PList [])]
               [] s4 D4 eq_refl)).
  reflexivity.
Qed.

Lemma bundle_lists_follow_results_witness :
  fst (generate_resources_for_topic (sample_env (answering canned) numbered_results)
         "Home workouts" initial_state)
  = Ok (PDict
      [("research",
        PList [PDict [("title", PStr "Result"); ("link", PInt 0); ("snippet", PStr "")]]);
       ("videos", PList []);
       ("tools",
        PList [PDict [("name", PStr "Result"); ("link", PInt 2);
                      ("description", PStr "")]]);
       ("stats",
        PList [PDict [("title", PStr "Result"); ("link", PInt 3); ("snippet", PStr "")]])]).
Proof.
  set (E := sample_env (answering canned) numbered_results).
  pose (item := fun n : Z => PDict [("title", PStr "Result"); ("link", PInt n)]).
  rewrite (bundle_lists_follow_results E "Home workouts" initial_state
             (after_search initial_state [])
             (after_search (after_search initial_state []) [])
             (after_search (after_search (after_search initial_state []) []) [])
             (after_search
                (after_search (after_search (after_search initial_state []) []) []) [])
             [item 0%Z] [] [item 2%Z] [item 3%Z]);
    try reflexivity;
    try (repeat constructor; eexists; reflexivity).
Defined.

(* ===================================================================== *)
(** * Further properties: the retry policy *)
(* ===================================================================== *)





(* ===================================================================== *)
(** * Further properties: results that cannot be iterated *)
(* ===================================================================== *)

(** X21. The search adapter does not protect the run from a malformed
    answer.  When the first search of the first topic answers with an object
    whose results are not iterable (a [null], a number), the loop over the
    results raises, and the run ends with the message of that exception as
    its error: the three completions are lost. *)
Theorem results_that_cannot_be_iterated_abort_the_run (E : env)
  (completion : nat -> pyval) (industry target_audience content_goals : string)
  (s : state) (topic : string) (rest : list string) (d : list (string * pyval))
  (x : pyval) (e : exn) :
  generation_answers E completion ->
  extract_topics (completion (S (posts s))) = Ok (topic :: rest) ->
  serpapi_get_dict E (searches s)
    (search_params E (topic ++ " research papers articles") "scholar") = Ok (PDict d) ->
  Py.dict_get d "organic_results" = Some x ->
  Py.iter x = Raise e ->
  fst (create_content_calendar E industry target_audience content_goals s)
  = Ok (PDict [("error", PStr (exn_msg e))]).
Proof.
  intros Ha Ht Hs Hx He. unfold create_content_calendar.
  rewrite try_except_Exception.
  rewrite (bind_ok _ _ _ _ _ (now_run E s)).
  rewrite (bind_ok _ _ _ _ _ (generate_content_answers E completion _ _ _ Ha)).
  unfold time_sleep at 1. rewrite bind_modify.
  rewrite (bind_ok _ _ _ _ _ (generate_content_answers E completion _ _ _ Ha)).
  unfold time_sleep at 1. rewrite bind_modify.
  rewrite (bind_ok _ _ _ _ _ (generate_content_answers E completion _ _ _ Ha)).
  unfold time_sleep at 1. rewrite bind_modify.
  cbn [posts after_post after_clock].
  rewrite bind_lift, Ht.
  match goal with
  | |- context [bind (gather_resources E _ []) _ ?s0] =>
      assert (Hg : exists s1, gather_resources E (topic :: rest) [] s0 = (Raise e, s1))
  end.
  { cbn [gather_resources]. unfold bind at 1. unfold generate_resources_for_topic.
    match goal with |- context [bind (search_web E ?q ?t) _ ?s0] =>
      pose proof (search_web_full E q t s0) as Hw end.
    unfold search_answer in Hw. cbn [searches after_post after_clock] in Hw.
    rewrite Hs in Hw.
    cbn [rbind Py.get results_key String.eqb Ascii.eqb Bool.eqb] in Hw.
    rewrite Hx in Hw.
    rewrite (bind_ok _ _ _ _ _ Hw).
    unfold collect at 1. rewrite bind_lift. rewrite He. cbn [rbind].
    eexists. reflexivity. }
  destruct Hg as [s1 Hg]. rewrite (bind_raise _ _ _ _ _ Hg). reflexivity.
Qed.

Lemma results_that_cannot_be_iterated_abort_the_run_witness :
  fst (create_content_calendar
         (sample_env (answering canned)
            (fun _ => Ok (PDict [("organic_results", PNone)])))
         "Fitness" "busy professionals" "increase brand awareness" initial_state)
  = Ok (PDict [("error", PStr "'NoneType' object is not iterable")]).
Proof.
  apply (results_that_cannot_be_iterated_abort_the_run
           (sample_env (answering canned)
              (fun _ => Ok (PDict [("organic_results", PNone)])))
           canned "Fitness" "busy professionals" "increase brand awareness"
           initial_state "Home workouts" ["Protein myths"; "Home workouts"]
           [("organic_results", PNone)] PNone
           (mkExn TypeError "'NoneType' object is not iterable"));
    try reflexivity.
  apply answering_answers.
Defined.

(* ===================================================================== *)
(** * Further properties: the form submitted *)
(* ===================================================================== *)

(** A run writes no file; it ends in one of the two shapes, and a run that
    succeeds has read the clock twice. *)
Lemma run_result_and_files (E : env) (industry target_audience content_goals : string)
  (s s' : state) (r : result pyval) :
  create_content_calendar E industry target_audience content_goals s = (r, s') ->
  files s' = files s
  /\ exists v, r = Ok v
               /\ (is_failure v
                   \/ (is_success v /\ clock_reads s' = (2 + clock_reads s)%nat)).
Proof.
  intros H.
  unfold create_content_calendar in H. rewrite try_except_Exception in H.
  rewrite (bind_ok _ _ _ _ _ (now_run E s)) in H.
  unfold bind at 1 in H. rewrite generate_content_run in H.
  destruct (generate_content_body E _ default_temperature (after_clock s))
    as [trends|c1].
  2:{ injection H as <- <-. split; [reflexivity|].
      eexists. split; [reflexivity|]. left. eexists. reflexivity. }
  unfold time_sleep at 1 in H. rewrite bind_modify in H.
  unfold bind at 1 in H. rewrite generate_content_run in H.
  match type of H with context [generate_content_body E ?p ?t ?s0] =>
    destruct (generate_content_body E p t s0) as [strategy|c2] end.
  2:{ injection H as <- <-. split; [reflexivity|].
      eexists. split; [reflexivity|]. left. eexists. reflexivity. }
  unfold time_sleep at 1 in H. rewrite bind_modify in H.
  unfold bind at 1 in H. rewrite generate_content_run in H.
  match type of H with context [generate_content_body E ?p ?t ?s0] =>
    destruct (generate_content_body E p t s0) as [briefs|c3] end.
  2:{ injection H as <- <-. split; [reflexivity|].
      eexists. split; [reflexivity|]. left. eexists. reflexivity. }
  unfold time_sleep at 1 in H. rewrite bind_modify in H.
  rewrite bind_lift in H.
  destruct (extract_topics strategy) as [topics|e].
  2:{ injection H as <- <-. split; [reflexivity|].
      eexists. split; [reflexivity|]. left. eexists. reflexivity. }
  unfold bind at 1 in H.
  match type of H with context [gather_resources E topics [] ?s0] =>
    destruct (gather_resources E topics [] s0) as [[resources|e] s5] eqn:Hg end;
    apply gather_resources_steps in Hg
      as ((Hp & Hgets & Hc & Ho & Hout & Hf) & Hs & Hn);
    cbn [posts gets clock_reads sessions_open stdout files slept searches after_post
         after_clock] in Hp, Hgets, Hc, Ho, Hout, Hf, Hs, Hn.
  - rewrite (bind_ok _ _ _ _ _ (now_run E s5)) in H. injection H as <- <-.
    unfold after_clock. cbn [files clock_reads].
    split; [exact Hf|]. eexists. split; [reflexivity|]. right.
    split; [eexists; split; reflexivity|]. lia.
  - injection H as <- <-. split; [exact Hf|].
    eexists. split; [reflexivity|]. left. eexists. reflexivity.
Qed.

(** X23. The form submitted.  With an empty field nothing is called: one
    error is shown and nothing else changes.  Otherwise the run is made, and
    its result is saved exactly when it has no [error]: a failed run leaves
    the files as they were; a run that succeeds is saved under the time of
    the fourth reading of the clock, no other file is touched, and, the
    backends answering with JSON values, the file reads back as the inputs
    of the form and the result. *)
Theorem submit_saves_only_successes (E : env)
  (industry target_audience content_goals : string) (s : state) :
  let t := datetime_now E (3 + clock_reads s) in
  (industry = "" \/ target_audience = "" \/ content_goals = "" ->
   submit E industry target_audience content_goals s
   = (Ok None,
      mkState (posts s) (gets s) (searches s) (clock_reads s) (sessions_open s)
              (slept s) (st_errors s ++ ["Please fill out all fields"])%list
              (stdout s) (files s)))
  /\ (industry <> "" -> target_audience <> "" -> content_goals <> "" ->
      exists v saved s',
        submit E industry target_audience content_goals s = (Ok (Some (v, saved)), s')
        /\ ((is_failure v /\ saved = None /\ files s' = files s)
            \/ (is_success v /\ saved = Some (calendar_file t)
                /\ (forall other, other <> calendar_file t ->
                    read_entry (files s') other = read_entry (files s) other)
                /\ (env_json E ->
                    load_file s' (calendar_file t)
                    = Some (persisted_run industry target_audience content_goals
                              (Datetime.strftime_stamp t) v))))).
Proof.
  intros t. split.
  - intros Hempty. unfold submit.
    assert (Hb : String.eqb industry "" || String.eqb target_audience ""
                 || String.eqb content_goals "" = true).
    { destruct Hempty as [->|[->| ->]]; cbn; rewrite ?orb_true_r; reflexivity. }
    rewrite Hb. unfold st_error. rewrite bind_modify. reflexivity.
  - intros Hi Ha Hg. unfold submit.
    apply String.eqb_neq in Hi, Ha, Hg. rewrite Hi, Ha, Hg. cbn [orb].
    rewrite (bind_ok _ _ _ _ _ (now_run E s)).
    destruct (create_content_calendar E industry target_audience content_goals
                (after_clock s)) as [r s1] eqn:Hrun.
    pose proof (create_content_calendar_json E industry target_audience content_goals
                  (after_clock s)) as Hjson.
    rewrite Hrun in Hjson. cbn [fst] in Hjson.
    destruct (run_result_and_files _ _ _ _ _ _ _ Hrun) as (Hf & v & -> & Hshape).
    rewrite (bind_ok _ _ _ _ _ Hrun), bind_lift.
    destruct Hshape as [[msg ->]|[[d [-> Hkeys]] Hclock]].
    + cbn. exists (PDict [("error", PStr msg)]), None, s1.
      split; [reflexivity|]. left. split; [now exists msg|].
      split; [reflexivity|exact Hf].
    + assert (Hno : Py.contains "error" (PDict d)
                    = Ok false).
      { cbn [Py.contains]. destruct (Py.dict_get d "error") eqn:He; [|reflexivity].
        assert (Hin : In "error" (Py.keys d)) by (apply dict_get_In_keys; eauto).
        rewrite Hkeys in Hin. simpl in Hin.
        destruct Hin as [H|[H|[H|[H|[H|[]]]]]]; discriminate H. }
      rewrite Hno.
      pose proof (save_content_calendar_run E industry target_audience content_goals
                    (PDict d) s1) as Hsave.
      cbn zeta in Hsave. cbn [after_clock clock_reads] in Hclock.
      rewrite Hclock in Hsave. fold t in Hsave.
      rewrite (bind_ok _ _ _ _ _ Hsave).
      eexists. eexists. eexists. split; [reflexivity|]. right.
      split; [exists d; split; [reflexivity|exact Hkeys]|].
      split; [reflexivity|]. cbn [files]. split.
      * intros other Hne. rewrite read_write_other by exact Hne. now rewrite Hf.
      * intros HE. unfold load_file. cbn [files]. rewrite read_write_same.
        unfold Json.dumps_indent. apply loads_encode. apply persisted_run_json.
        exact (Hjson (PDict d) HE eq_refl).
Qed.

Lemma submit_saves_only_successes_witness :
  exists v s',
    submit (sample_env (answering canned) numbered_results)
      "Fitness" "busy professionals" "increase brand awareness" initial_state
    = (Ok (Some (v, Some "content_calendar_20240301_100015.json")), s')
    /\ load_file s' "content_calendar_20240301_100015.json"
       = Some (persisted_run "Fitness" "busy professionals" "increase brand awareness"
                 "20240301_100015" v).
Proof.
  pose (E := sample_env (answering canned) numbered_results).
  destruct (proj2 (submit_saves_only_successes E "Fitness" "busy professionals"
                     "increase brand awareness" initial_state)
              ltac:(intros H; discriminate H) ltac:(intros H; discriminate H)
              ltac:(intros H; discriminate H))
    as (v & saved & s' & Hrun & Hcases).
  exists v, s'.
  destruct Hcases as [(Hfail & _)|(_ & -> & _ & Hload)].
  - exfalso. destruct Hfail as [msg ->].
    assert (Hv : fst (submit E "Fitness" "busy professionals"
                        "increase brand awareness" initial_state)
                 <> Ok (Some (PDict [("error", PStr msg)], saved))).
    { vm_compute. discriminate. }
    apply Hv. now rewrite Hrun.
  - split; [exact Hrun|]. apply Hload. apply sample_env_json.
Defined.

(* ===================================================================== *)
(** * Further properties: dates *)
(* ===================================================================== *)

Lemma days_before_year_shift (y q : Z) :
  Datetime.days_before_year (y + 400 * q)
  = (Datetime.days_before_year y + 146097 * q)%Z.
Proof.
  unfold Datetime.days_before_year. cbn zeta.
  Z.div_mod_to_equations. lia.
Qed.

Lemma is_leap_shift (y q : Z) : Datetime.is_leap (y + 400 * q) = Datetime.is_leap y.
Proof.
  unfold Datetime.is_leap.
  assert (H4 : ((y + 400 * q) mod 4 = y mod 4)%Z) by (Z.div_mod_to_equations; lia).
  assert (H100 : ((y + 400 * q) mod 100 = y mod 100)%Z) by (Z.div_mod_to_equations; lia).
  assert (H400 : ((y + 400 * q) mod 400 = y mod 400)%Z) by (Z.div_mod_to_equations; lia).
  now rewrite H4, H100, H400.
Qed.

Lemma days_before_month_shift (y q m : Z) :
  Datetime.days_before_month (y + 400 * q) m = Datetime.days_before_month y m.
Proof. unfold Datetime.days_before_month. now rewrite is_leap_shift. Qed.

(** The calendar repeats every 400 years. *)
Lemma ord2ymd_shift (n : Z) :
  DatetimeArith.ord2ymd n
  = let '(y, m, d) := DatetimeArith.ord2ymd ((n - 1) mod 146097 + 1) in
    (y + 400 * ((n - 1) / 146097), m, d)%Z.
Proof.
  unfold DatetimeArith.ord2ymd, DatetimeArith.DI400Y. cbn zeta.
  replace ((n - 1) mod 146097 + 1 - 1)%Z with ((n - 1) mod 146097)%Z by lia.
  pose proof (Z.mod_pos_bound (n - 1) 146097 ltac:(lia)) as Hr.
  rewrite (Z.mod_small ((n - 1) mod 146097) 146097) by lia.
  rewrite (Z.div_small ((n - 1) mod 146097) 146097) by lia.
  set (r := ((n - 1) mod 146097)%Z).
  set (q := ((n - 1) / 146097)%Z).
  destruct ((r mod DatetimeArith.DI100Y mod DatetimeArith.DI4Y / 365 =? 4)%Z
            || (r / DatetimeArith.DI100Y =? 4)%Z).
  - f_equal. f_equal. lia.
  - match goal with |- context [if ?b then _ else _] => destruct b end;
      f_equal; f_equal; lia.
Qed.

Lemma years_ok (k : Z) : (0 <= k < 400)%Z -> year_ok k = true.
Proof.
  intros Hk.
  assert (Hall : forall_from year_ok 0 (Z.to_nat 400) = true) by (vm_compute; reflexivity).
  apply (forall_from_spec _ _ _ Hall). rewrite Z2Nat.id; lia.
Qed.

Lemma offsets_ok (leapyear : bool) (n : Z) :
  (0 <= n < 365)%Z -> offset_ok leapyear n = true.
Proof.
  intros Hn.
  assert (Hall : forall b, forall_from (offset_ok b) 0 (Z.to_nat 365) = true)
    by (intros []; vm_compute; reflexivity).
  apply (forall_from_spec _ _ _ (Hall leapyear)). rewrite Z2Nat.id; lia.
Qed.

Lemma days_before_month_leap (y y' m : Z) :
  Datetime.is_leap y = Datetime.is_leap y' ->
  Datetime.days_before_month y m = Datetime.days_before_month y' m.
Proof. unfold Datetime.days_before_month. now intros ->. Qed.

Lemma ord2ymd_cycle (r : Z) :
  (0 <= r < 146097)%Z ->
  let '(y, m, d) := DatetimeArith.ord2ymd (r + 1) in
  (Datetime.days_before_year y + Datetime.days_before_month y m + d = r + 1
   /\ 1 <= m <= 12 /\ 1 <= d <= 31 /\ 1 <= y <= 400
   /\ (r + 1 <= 145731 -> y <= 399))%Z.
Proof.
  intros Hr.
  unfold DatetimeArith.ord2ymd, DatetimeArith.DI400Y, DatetimeArith.DI100Y,
    DatetimeArith.DI4Y.
  cbn zeta.
  replace (r + 1 - 1)%Z with r by lia.
  rewrite (Z.mod_small r 146097), (Z.div_small r 146097) by lia.
  pose proof (Z.div_mod r 36524 ltac:(lia)) as E1.
  pose proof (Z.mod_pos_bound r 36524 ltac:(lia)) as B1.
  set (n100 := (r / 36524)%Z) in *. set (r1 := (r mod 36524)%Z) in *.
  pose proof (Z.div_mod r1 1461 ltac:(lia)) as E2.
  pose proof (Z.mod_pos_bound r1 1461 ltac:(lia)) as B2.
  set (n4 := (r1 / 1461)%Z) in *. set (r2 := (r1 mod 1461)%Z) in *.
  pose proof (Z.div_mod r2 365 ltac:(lia)) as E3.
  pose proof (Z.mod_pos_bound r2 365 ltac:(lia)) as B3.
  set (n1 := (r2 / 365)%Z) in *. set (n := (r2 mod 365)%Z) in *.
  assert (H100 : (0 <= n100 <= 4)%Z) by lia.
  assert (H4 : (0 <= n4 <= 24)%Z) by lia.
  assert (H1 : (0 <= n1 <= 4)%Z) by lia.
  destruct ((n1 =? 4)%Z || (n100 =? 4)%Z) eqn:Hsp.
  - (* the last day of a group of four years, or of the 400 years *)
    apply orb_true_iff in Hsp as [Hs|Hs]; apply Z.eqb_eq in Hs.
    + assert (Hn : n = 0%Z) by lia.
      assert (Hn4 : (n4 <= 23)%Z) by lia.
      assert (H100' : (n100 <= 3)%Z) by lia.
      pose (k := (100 * n100 + 4 * n4 + 3)%Z).
      assert (Hk : (0 <= k < 400)%Z) by (unfold k; lia).
      pose proof (years_ok k Hk) as Hy. unfold year_ok in Hy.
      apply andb_true_iff in Hy as [Hy Hl]. apply Z.eqb_eq in Hy.
      apply Bool.eqb_prop in Hl.
      assert (Kd : (k / 100 = n100)%Z) by (unfold k; Z.div_mod_to_equations; lia).
      assert (Km : (k mod 100 / 4 = n4)%Z) by (unfold k; Z.div_mod_to_equations; lia).
      assert (K4 : (k mod 4 = 3)%Z) by (unfold k; Z.div_mod_to_equations; lia).
      rewrite Kd, Km, K4 in Hy, Hl.
      replace (0 * 400 + 1 + n100 * 100 + n4 * 4 + n1 - 1)%Z with (k + 1)%Z
        by (unfold k; lia).
      assert (Hleap : Datetime.is_leap (k + 1) = true).
      { rewrite Hl. assert (E : (n4 =? 24)%Z = false) by lia. now rewrite E. }
      assert (Hdec : Datetime.days_before_month (k + 1) 12 = 335%Z).
      { unfold Datetime.days_before_month. now rewrite Hleap. }
      rewrite Hdec. unfold k in *. repeat split; lia.
    + assert (Hr' : r = 146096%Z) by lia.
      replace (0 * 400 + 1 + n100 * 100 + n4 * 4 + n1 - 1)%Z with 400%Z by lia.
      assert (Hd : (Datetime.days_before_year 400 + Datetime.days_before_month 400 12
                    = 146066)%Z) by (vm_compute; reflexivity).
      rewrite Hd. repeat split; lia.
  - apply orb_false_iff in Hsp as [Hs1 Hs100].
    apply Z.eqb_neq in Hs1, Hs100.
    pose (k := (100 * n100 + 4 * n4 + n1)%Z).
    assert (Hk : (0 <= k < 400)%Z) by (unfold k; lia).
    pose proof (years_ok k Hk) as Hy. unfold year_ok in Hy.
    apply andb_true_iff in Hy as [Hy Hl]. apply Z.eqb_eq in Hy.
    apply Bool.eqb_prop in Hl.
    assert (Kd : (k / 100 = n100)%Z) by (unfold k; Z.div_mod_to_equations; lia).
    assert (Km : (k mod 100 / 4 = n4)%Z) by (unfold k; Z.div_mod_to_equations; lia).
    assert (K4 : (k mod 4 = n1)%Z) by (unfold k; Z.div_mod_to_equations; lia).
    rewrite Kd, Km, K4 in Hy, Hl.
    replace (0 * 400 + 1 + n100 * 100 + n4 * 4 + n1)%Z with (k + 1)%Z
      by (unfold k; lia).
    set (leapyear := ((n1 =? 3)%Z && (negb (n4 =? 24)%Z || (n100 =? 3)%Z))) in *.
    pose proof (offsets_ok leapyear n B3) as Ho.
    unfold offset_ok, month_of_offset in Ho. cbn zeta in Ho.
    destruct (n <? DatetimeArith.DAYS_BEFORE_MONTH (Z.shiftr (n + 50) 5)
                   + (if (2 <? Z.shiftr (n + 50) 5)%Z && leapyear then 1 else 0))%Z;
      rewrite (days_before_month_leap (k + 1) (if leapyear then 4 else 1))
        by (rewrite Hl; now destruct leapyear);
      repeat (apply andb_true_iff in Ho as [Ho ?]); apply Z.eqb_eq in Ho;
      unfold k in *; repeat split; lia.
Qed.

(** [ord2ymd] inverts the ordinal of a date, and for the ordinals of the
    years 1 to 9999 it gives a date of those years. *)
Lemma ord2ymd_ordinal (n : Z) :
  let '(y, m, d) := DatetimeArith.ord2ymd n in
  (Datetime.days_before_year y + Datetime.days_before_month y m + d = n
   /\ 1 <= m <= 12 /\ 1 <= d <= 31
   /\ (1 <= n <= DatetimeArith.MAXORDINAL -> 1 <= y <= 9999))%Z.
Proof.
  rewrite ord2ymd_shift.
  pose proof (Z.mod_pos_bound (n - 1) 146097 ltac:(lia)) as Hr.
  pose proof (ord2ymd_cycle ((n - 1) mod 146097) Hr) as Hok.
  destruct (DatetimeArith.ord2ymd ((n - 1) mod 146097 + 1)) as [[y m] d].
  destruct Hok as (Hord & Hm & Hd & Hy & Hy').
  rewrite days_before_year_shift, days_before_month_shift.
  pose proof (Z.div_mod (n - 1) 146097 ltac:(lia)) as Hdm.
  unfold DatetimeArith.MAXORDINAL.
  repeat split; lia.
Qed.

(** A time given in microseconds, read as a [datetime], is that many
    microseconds after the start of year 1. *)
Lemma of_micros_exact (us : Z) (r : datetime) :
  DatetimeArith.of_micros us = Some r -> Datetime.to_micros r = us /\ in_range r.
Proof.
  unfold DatetimeArith.of_micros, DatetimeArith.microseconds_per_day. cbn zeta.
  destruct ((0 <? us / 86400000000)%Z && (us / 86400000000 <=? DatetimeArith.MAXORDINAL)%Z)
    eqn:Hd; [|discriminate].
  apply andb_true_iff in Hd as [Hd1 Hd2].
  pose proof (ord2ymd_ordinal (us / 86400000000)) as Ho.
  destruct (DatetimeArith.ord2ymd (us / 86400000000)) as [[y m] d].
  destruct Ho as (Hord & Hm & Hday & Hy).
  intros [= <-]. unfold Datetime.to_micros, Datetime.toordinal, in_range.
  cbn [year month day hour minute second microsecond].
  rewrite Hord. specialize (Hy ltac:(lia)).
  split; [|repeat split; try lia]; Z.div_mod_to_equations; lia.
Qed.

Lemma add_exact (d r : datetime) (td : DatetimeArith.timedelta) :
  DatetimeArith.add d td = Done r ->
  Datetime.to_micros r = (Datetime.to_micros d + td)%Z /\ in_range r.
Proof.
  unfold DatetimeArith.add.
  destruct (DatetimeArith.of_micros (Datetime.to_micros d + td)) as [x|] eqn:H;
    [|discriminate].
  intros [= <-]. now apply of_micros_exact.
Qed.

(* ===================================================================== *)
(** * Further properties: the calendar service and its events *)
(* ===================================================================== *)

Import Calendar.

Lemma cbind_done {A B} (m : C A) (k : A -> C B) (s s1 : desk) (a : A) :
  m s = (Done a, s1) -> Calendar.bind m k s = k a s1.
Proof. intros H. unfold Calendar.bind. now rewrite H. Qed.

Lemma cbind_failed {A B} (m : C A) (k : A -> C B) (s s1 : desk) (c msg : string) :
  m s = (Failed c msg, s1) -> Calendar.bind m k s = (Failed c msg, s1).
Proof. intros H. unfold Calendar.bind. now rewrite H. Qed.

Lemma cbind_lift {A B} (r : outcome A) (k : A -> C B) (s : desk) :
  Calendar.bind (Calendar.lift r) k s
  = match r with Done a => k a s | Failed c msg => (Failed c msg, s) end.
Proof. unfold Calendar.bind, Calendar.lift. now destruct r. Qed.

(** X16. [create_calendar_event].  Without a service it returns [None]
    and does nothing.  With a service it first computes the end of the
    event, one hour after its start; if that falls after the year 9999 the
    [OverflowError] is raised before anything is sent.  Otherwise exactly
    one insertion is sent, and nothing is raised: an answer that is an
    object gives its [htmlLink] ([None] when it has none) and nothing is
    shown; a failure of the call, or an answer that is not an object, gives
    [None] and one message shown with [st.error]. *)
Theorem create_calendar_event_outcomes (G : google) (title description : string)
  (start_date : datetime) (s : desk) :
  create_calendar_event G None title description start_date s = (Done PNone, s)
  /\ forall sv,
       match DatetimeArith.add start_date (DatetimeArith.timedelta_of_hours 1) with
       | Failed c msg =>
           create_calendar_event G (Some sv) title description start_date s
           = (Failed c msg, s)
       | Done end_date =>
           Datetime.to_micros end_date = (Datetime.to_micros start_date + 3600000000)%Z
           /\ exists link log,
                create_calendar_event G (Some sv) title description start_date s
                = (Done link,
                   mkDesk (token s) (credentials_json s) (shown s ++ log)%list
                          (S (inserts s)) (flows s) (refreshes s))
                /\ match events_insert G (inserts s) sv
                           (event_body title description start_date end_date) with
                   | Done (PDict d) =>
                       log = []
                       /\ link = match Py.dict_get d "htmlLink" with
                                 | Some x => x
                                 | None => PNone
                                 end
                   | Done x =>
                       link = PNone
                       /\ log = [Error ("Error creating calendar event: '"
                                        ++ PyRepr.type_name x
                                        ++ "' object has no attribute 'get'")]
                   | Failed _ msg =>
                       link = PNone
                       /\ log = [Error ("Error creating calendar event: " ++ msg)]
                   end
       end.
Proof.
  split; [reflexivity|]. intros sv.
  unfold create_calendar_event. rewrite cbind_lift.
  destruct (DatetimeArith.add start_date (DatetimeArith.timedelta_of_hours 1))
    as [end_date|c msg] eqn:Hadd; [|reflexivity].
  split.
  { apply add_exact in Hadd as [Hadd _]. exact Hadd. }
  unfold Calendar.try_except, Calendar.bind at 1, insert_event.
  destruct (events_insert G (inserts s) sv
              (event_body title description start_date end_date)) as [x|c msg].
  - destruct x; cbn;
      try (eexists; eexists; split; [reflexivity|split; reflexivity]).
    destruct (Py.dict_get d "htmlLink"); cbn;
      eexists; exists []; rewrite app_nil_r; (split; [reflexivity|split; reflexivity]).
  - cbn. eexists; eexists; split; [reflexivity|split; reflexivity].
Qed.

Lemma connect_run (G : google) (creds : credentials) (s : desk) :
  connect G creds s
  = match build G creds with
    | Failed c msg => (Failed c msg, s)
    | Done _ =>
        match calendar_list G (mkService creds) with
        | Failed c msg => (Failed c msg, s)
        | Done _ => (Done (Some (mkService creds)), s)
        end
    end.
Proof.
  unfold connect. rewrite cbind_lift. destruct (build G creds); [|reflexivity].
  rewrite cbind_lift. now destruct (calendar_list G (mkService creds)).
Qed.

Ltac leaf :=
  cbn; eexists; eexists; (split; [reflexivity|]); cbn;
  repeat match goal with |- _ /\ _ => split end;
  intros;
  repeat match goal with
         | H : Some _ = Some _ |- _ => injection H as H; subst
         | H : Token _ = Token _ |- _ => injection H as H; subst
         | H : Some _ = None |- _ => discriminate H
         | H : None = Some _ |- _ => discriminate H
         | H : NoToken = Token _ |- _ => discriminate H
         end;
  try discriminate;
  try congruence;
  first [ solve [repeat split; (reflexivity || assumption || congruence)]
        | solve [left; repeat split; (reflexivity || assumption || congruence)]
        | solve [right; repeat split; (reflexivity || assumption || congruence)]
        | solve [right; split; [reflexivity | eexists; reflexivity]]
        | solve [repeat split; try (reflexivity || assumption || congruence);
                 left; repeat split; (reflexivity || assumption || congruence)]
        | solve [repeat split; try (reflexivity || assumption || congruence);
                 right; repeat split; (reflexivity || assumption || congruence)]
        | idtac ].

Ltac connect_cases G creds :=
  rewrite connect_run;
  let Hb := fresh "Hb" in
  let Hl := fresh "Hl" in
  destruct (build G creds) as [[]|? ?] eqn:Hb;
  [destruct (calendar_list G (mkService creds)) as [[]|? ?] eqn:Hl|].

Ltac authorise_cases G s :=
  unfold authorise;
  let Hcj := fresh "Hcj" in
  destruct (credentials_json s) eqn:Hcj;
  [ unfold Calendar.bind at 1, remove_token;
    unfold Calendar.bind at 1, run_local_server;
    cbn [flows token credentials_json shown inserts refreshes];
    let creds := fresh "creds" in
    destruct (run_flow G (flows s)) as [creds|? ?];
    [ unfold Calendar.bind at 1, dump_token;
      destruct (save_token G creds) as [[]|? ?];
      [ connect_cases G creds | ]
    | ]
  | ].

(** X17. [get_google_calendar_service] never raises, and touches neither
    [credentials.json] nor the calendar.  When it returns a service, the
    service was built and tried with success, nothing was shown, and either
    no authorisation flow was run and the token file is as it was, or one
    flow was run and the token file holds the credentials of the service.
    When it returns [None], either [credentials.json] is missing (then one
    message says so and nothing else changed) or one message reports the
    failure and the token file is gone.  A valid stored token is used as it
    is, without flow or refresh; and credentials that were refreshed are not
    written back to the token file. *)
Theorem get_google_calendar_service_outcomes (G : google) (s : desk) :
  exists r s',
    get_google_calendar_service G s = (Done r, s')
    /\ credentials_json s' = credentials_json s /\ inserts s' = inserts s
    /\ (forall sv, r = Some sv ->
        build G (service_credentials sv) = Done tt
        /\ calendar_list G sv = Done tt
        /\ shown s' = shown s
        /\ ((flows s' = flows s /\ token s' = token s)
            \/ (flows s' = S (flows s) /\ credentials_json s = true
                /\ token s' = Token (Done (Some (service_credentials sv))))))
    /\ (r = None ->
        (credentials_json s = false
         /\ shown s'
            = (shown s ++ [Error "credentials.json file not found. Please make sure it's in the same directory as app.py"])%list
         /\ token s' = token s /\ flows s' = flows s /\ refreshes s' = refreshes s)
        \/ (token s' = NoToken
            /\ exists msg,
                 shown s'
                 = (shown s ++ [Error ("Error setting up Google Calendar service: "
                                       ++ msg)])%list))
    /\ (forall c, token s = Token (Done (Some c)) -> valid c = true ->
        flows s' = flows s /\ refreshes s' = refreshes s /\ token s' = token s
        \/ r = None)
    /\ (forall c, token s = Token (Done (Some c)) -> valid c = false ->
        expired c && refresh_token c = true ->
        flows s' = flows s /\ refreshes s' = S (refreshes s)
        /\ (r <> None -> token s' = token s)).
Proof.
  unfold get_google_calendar_service, Calendar.try_except, Calendar.bind at 1,
    load_token.
  destruct (token s) as [|[[c|]|cl msg]] eqn:Htoken.
  - authorise_cases G s; leaf.
  - destruct (valid c) eqn:Hv.
    + connect_cases G c; leaf.
    + destruct (expired c && refresh_token c) eqn:Hr.
      * unfold Calendar.bind at 1, refresh_credentials.
        destruct (refresh G c) as [c'|cl msg]; [connect_cases G c'|]; leaf.
      * authorise_cases G s; leaf.
  - authorise_cases G s; leaf.
  - leaf.
Qed.

(* ===================================================================== *)
(** * Further properties: the fields of a day line *)
(* ===================================================================== *)

Lemma rstrip_length (s : string) : (String.length (PyStr.rstrip s) <= String.length s)%nat.
Proof.
  induction s as [|c r IH]; simpl; [lia|].
  destruct (PyStr.rstrip r); [destruct (PyStr.isspace c)|]; simpl in *; lia.
Qed.

Lemma lstrip_fixed_or_shorter (s : string) :
  PyStr.lstrip s = s \/ (String.length (PyStr.lstrip s) < String.length s)%nat.
Proof.
  destruct s as [|c r]; [now left|]. simpl.
  destruct (PyStr.isspace c); [right|now left].
  pose proof (lstrip_length r). simpl. lia.
Qed.

Lemma strip_fixed (t : string) :
  PyStr.strip t = t -> PyStr.lstrip t = t /\ PyStr.rstrip t = t.
Proof.
  unfold PyStr.strip. intros H.
  destruct (lstrip_fixed_or_shorter t) as [Hl|Hl].
  - split; [assumption|]. now rewrite Hl in H.
  - pose proof (rstrip_length (PyStr.lstrip t)) as Hr. rewrite H in Hr. lia.
Qed.

Lemma rstrip_app_space (t : string) : PyStr.rstrip (t ++ " ") = PyStr.rstrip t.
Proof.
  induction t as [|c r IH]; [reflexivity|].
  cbn [append PyStr.rstrip]. now rewrite IH.
Qed.

Lemma strip_spaced (t : string) :
  PyStr.strip t = t -> PyStr.strip (" " ++ t ++ " ") = t.
Proof.
  intros H. apply strip_fixed in H as [Hl Hr].
  unfold PyStr.strip. change (PyStr.lstrip (" " ++ t ++ " ")) with (PyStr.lstrip (t ++ " ")).
  destruct t as [|c r]; [reflexivity|].
  pose proof (lstrip_head (String c r)) as Hc. rewrite Hl in Hc.
  cbn [append PyStr.lstrip]. rewrite Hc.
  change (String c (r ++ " ")) with (String c r ++ " ").
  now rewrite rstrip_app_space.
Qed.

Lemma strip_led (t : string) : PyStr.strip t = t -> PyStr.strip (" " ++ t) = t.
Proof. intros H. exact H. Qed.

Lemma contains_app (c : ascii) (a b : string) :
  PyStr.contains c (a ++ b) = PyStr.contains c a || PyStr.contains c b.
Proof.
  induction a as [|x a IH]; simpl; [reflexivity|]. now rewrite IH, orb_assoc.
Qed.

Lemma all_digits_contains (c : ascii) (s : string) :
  all_digits s = true -> JsonDecode.is_digit c = false -> PyStr.contains c s = false.
Proof.
  intros Hs Hc. induction s as [|d r IH]; [reflexivity|].
  simpl in Hs |- *. apply andb_true_iff in Hs as [Hd Hr].
  rewrite (IH Hr), orb_false_r.
  destruct (Ascii.eqb d c) eqn:E; [|reflexivity].
  apply Ascii.eqb_eq in E. congruence.
Qed.

Lemma digit_facts (c : ascii) :
  JsonDecode.is_digit c = true ->
  PyStr.isspace c = false /\ PyInt.is_space c = false
  /\ Ascii.eqb c "-" = false /\ Ascii.eqb c "+" = false /\ Ascii.eqb c "_" = false.
Proof.
  destruct c as [[] [] [] [] [] [] [] []]; intros H; try discriminate H;
    repeat split.
Qed.

Lemma all_digits_no_space (s : string) : all_digits s = true -> no_space s = true.
Proof.
  induction s as [|c r IH]; [reflexivity|]. simpl. intros H.
  apply andb_true_iff in H as [Hc Hr].
  destruct (digit_facts c Hc) as (-> & _). now rewrite IH.
Qed.

Lemma whitespace_split_token (t : string) :
  t <> EmptyString -> no_space t = true -> whitespace_split t = [t].
Proof.
  induction t as [|c r IH]; [congruence|]. intros _ H.
  simpl in H. apply andb_true_iff in H as [Hc Hr]. apply negb_true_iff in Hc.
  cbn [whitespace_split]. rewrite Hc.
  destruct r as [|d r']; [reflexivity|].
  assert (Hd : PyStr.isspace d = false).
  { simpl in Hr. apply andb_true_iff in Hr as [Hd _]. now apply negb_true_iff in Hd. }
  rewrite Hd, IH by (try assumption; discriminate). reflexivity.
Qed.

Lemma whitespace_split_day (N : string) :
  N <> EmptyString -> no_space N = true ->
  whitespace_split ("Day " ++ N) = ["Day"; N].
Proof.
  intros Hne Hs. pose proof (whitespace_split_token N Hne Hs) as H.
  destruct N as [|c r]; [congruence|].
  simpl in Hs. apply andb_true_iff in Hs as [Hc _]. apply negb_true_iff in Hc.
  change ("Day " ++ String c r) with
    (String "D" (String "a" (String "y" (String " " (String c r))))).
  cbn [whitespace_split] in H |- *.
  rewrite Hc in H |- *.
  change (PyStr.isspace "D") with false. change (PyStr.isspace "a") with false.
  change (PyStr.isspace "y") with false. change (PyStr.isspace " ") with true.
  cbv iota. rewrite H. reflexivity.
Qed.

Lemma scan_digits_all (s : string) :
  all_digits s = true -> PyInt.scan_digits s true = Some (s, EmptyString).
Proof.
  induction s as [|c r IH]; [reflexivity|]. simpl. intros H.
  apply andb_true_iff in H as [Hc Hr]. now rewrite Hc, IH.
Qed.

Lemma digits_value_uint_acc (d : Decimal.uint) :
  forall acc : positive,
  digits_value (Zpos acc) (NilEmpty.string_of_uint d) = Zpos (Pos.of_uint_acc d acc).
Proof.
  induction d; intros acc; cbn [NilEmpty.string_of_uint digits_value Pos.of_uint_acc];
    try reflexivity;
    rewrite <- IHd; f_equal;
    match goal with
    | |- context [nat_of_ascii ?c] =>
        let k := eval vm_compute in (Z.of_nat (nat_of_ascii c)) in
        change (Z.of_nat (nat_of_ascii c)) with k
    end; lia.
Qed.

Lemma digits_value_uint (d : Decimal.uint) :
  digits_value 0 (NilEmpty.string_of_uint d) = Z.of_N (Pos.of_uint d).
Proof.
  induction d; cbn [NilEmpty.string_of_uint digits_value Pos.of_uint];
    try reflexivity; try exact IHd;
    cbn [Z.of_N]; rewrite <- digits_value_uint_acc; f_equal.
Qed.

Lemma digits_value_str_int (n : Z) :
  (0 <= n)%Z -> digits_value 0 (PyRepr.str_int n) = n.
Proof.
  intros Hn. unfold PyRepr.str_int. destruct n as [|p|p]; [reflexivity| |lia].
  cbn [Z.to_int NilZero.string_of_int]. rewrite string_of_uint_pos.
  rewrite digits_value_uint. now rewrite DecimalPos.Unsigned.of_to.
Qed.

(** [int] reads the decimal text of a natural number as that number. *)
Lemma int_of_str_str_int (n : Z) :
  (0 <= n)%Z ->
  (String.length (PyRepr.str_int n) <= PyInt.max_str_digits)%nat ->
  PyInt.int_of_str (PyRepr.str_int n) = Ok n.
Proof.
  intros Hn Hlen.
  destruct (str_int_nonneg n Hn) as (Hd & _ & c & r & Hs & _).
  pose proof (digits_value_str_int n Hn) as Hv.
  unfold PyInt.int_of_str. rewrite Hs in *.
  simpl in Hd. apply andb_true_iff in Hd as [Hc Hr].
  destruct (digit_facts c Hc) as (_ & Hsp & Hm & Hp & _).
  cbn [PyInt.skip_spaces]. rewrite Hsp.
  assert (Hsign : (match String c r with
                   | String "-" r0 => (true, r0)
                   | String "+" r0 => (false, r0)
                   | _ => (false, String c r)
                   end) = (false, String c r)).
  { destruct c as [[] [] [] [] [] [] [] []]; try reflexivity; discriminate. }
  rewrite Hsign. cbn [PyInt.scan_digits]. rewrite Hc, (scan_digits_all r Hr).
  apply Nat.ltb_ge in Hlen. rewrite Hlen. cbn [PyInt.skip_spaces]. now rewrite Hv.
Qed.

Lemma plain_spaced (t : string) :
  plain_field t ->
  PyStr.contains ":" (" " ++ t ++ " ") = false
  /\ PyStr.contains "-" (" " ++ t ++ " ") = false.
Proof.
  intros (_ & Hc & Hh). rewrite !contains_app, Hc, Hh. split; reflexivity.
Qed.

(** X18. The fields of a day line read back.  For a line written as the
    strategy prompt asks, [Day N: topic - type - rationale], with [N] a
    natural number and the three fields trimmed and free of colons and
    hyphens, the loop that creates the events reads [N], the topic, the type
    and the rationale exactly. *)
Theorem day_fields_read_back (n : Z) (topic content_type rationale : string) :
  (0 <= n)%Z ->
  (String.length (PyRepr.str_int n) <= 4300)%nat ->
  plain_field topic -> plain_field content_type -> plain_field rationale ->
  day_fields (format_day_line n topic content_type rationale)
  = Ok (n, topic, content_type, rationale).
Proof.
  intros Hn Hlen Ht Hc Hr.
  destruct (str_int_nonneg n Hn) as (Hd & _ & c0 & r0 & Hs & _).
  set (N := PyRepr.str_int n) in *.
  assert (HN : N <> EmptyString) by (rewrite Hs; discriminate).
  assert (Hline : format_day_line n topic content_type rationale
                  = ("Day " ++ N) ++ String ":" ((" " ++ topic ++ " ")
                       ++ String "-" ((" " ++ content_type ++ " ")
                       ++ String "-" (" " ++ rationale)))).
  { unfold format_day_line. fold N.
    repeat (first [rewrite append_assoc | progress cbn [append]]). reflexivity. }
  assert (Hline' : format_day_line n topic content_type rationale
                   = (("Day " ++ N) ++ String ":" (" " ++ topic ++ " "))
                       ++ String "-" ((" " ++ content_type ++ " ")
                       ++ String "-" (" " ++ rationale))).
  { rewrite Hline. repeat (first [rewrite append_assoc | progress cbn [append]]).
    reflexivity. }
  destruct (plain_spaced topic Ht) as [Htc Hth].
  destruct (plain_spaced content_type Hc) as [Hcc Hch].
  destruct Hr as (Hrs & Hrc & Hrh).
  assert (Hhead_c : PyStr.contains ":" ("Day " ++ N) = false).
  { rewrite contains_app. rewrite (all_digits_contains ":" N Hd eq_refl). reflexivity. }
  assert (Hhead_h : PyStr.contains "-" ("Day " ++ N) = false).
  { rewrite contains_app. rewrite (all_digits_contains "-" N Hd eq_refl). reflexivity. }
  assert (Hrest_c : PyStr.contains ":" ((" " ++ topic ++ " ")
                       ++ String "-" ((" " ++ content_type ++ " ")
                       ++ String "-" (" " ++ rationale))) = false).
  { rewrite contains_app, Htc. cbn [PyStr.contains orb].
    change (Ascii.eqb "-" ":") with false. cbn [orb].
    rewrite contains_app, Hcc. cbn [PyStr.contains orb append].
    change (Ascii.eqb "-" ":") with false. change (Ascii.eqb " " ":") with false.
    cbn [orb]. exact Hrc. }
  assert (Hsplit_c : PyStr.split ":" (format_day_line n topic content_type rationale)
                     = ["Day " ++ N;
                        (" " ++ topic ++ " ")
                          ++ String "-" ((" " ++ content_type ++ " ")
                          ++ String "-" (" " ++ rationale))]).
  { rewrite Hline, (split_cons_piece ":" _ _ Hhead_c).
    now rewrite (split_without_sep ":" _ Hrest_c). }
  assert (Hlast : PyStr.contains "-" (" " ++ rationale) = false).
  { cbn [append PyStr.contains]. change (Ascii.eqb " " "-") with false. exact Hrh. }
  assert (Hsplit_t : PyStr.split "-" ((" " ++ topic ++ " ")
                          ++ String "-" ((" " ++ content_type ++ " ")
                          ++ String "-" (" " ++ rationale)))
                     = [" " ++ topic ++ " "; " " ++ content_type ++ " ";
                        " " ++ rationale]).
  { rewrite (split_cons_piece "-" _ _ Hth), (split_cons_piece "-" _ _ Hch).
    now rewrite (split_without_sep "-" _ Hlast). }
  assert (Hfirst : PyStr.contains "-" (("Day " ++ N) ++ String ":" (" " ++ topic ++ " "))
                   = false).
  { rewrite contains_app, Hhead_h. cbn [PyStr.contains orb].
    change (Ascii.eqb ":" "-") with false. cbn [orb]. exact Hth. }
  assert (Hsplit_h : PyStr.split "-" (format_day_line n topic content_type rationale)
                     = [("Day " ++ N) ++ String ":" (" " ++ topic ++ " ");
                        " " ++ content_type ++ " "; " " ++ rationale]).
  { rewrite Hline', (split_cons_piece "-" _ _ Hfirst), (split_cons_piece "-" _ _ Hch).
    now rewrite (split_without_sep "-" _ Hlast). }
  unfold day_fields, topic_of_line, hyphen_piece.
  rewrite Hsplit_c, Hsplit_h. cbn [Py.index nth_error rbind List.length Nat.ltb Nat.leb].
  rewrite (whitespace_split_day N HN (all_digits_no_space N Hd)).
  cbn [Py.index nth_error rbind].
  unfold N. rewrite (int_of_str_str_int n Hn Hlen). cbn [rbind].
  fold N. rewrite Hsplit_t. cbn [Py.index nth_error rbind].
  rewrite (strip_spaced topic (proj1 Ht)), (strip_spaced content_type (proj1 Hc)).
  rewrite (strip_led rationale Hrs). reflexivity.
Qed.

Lemma day_fields_read_back_witness :
  day_fields "Day 3: Home workouts - Video - follow up"
  = Ok (3%Z, "Home workouts", "Video", "follow up").
Proof.
  apply (day_fields_read_back 3 "Home workouts" "Video" "follow up");
    try (repeat split; reflexivity); try (cbn; lia).
Defined.

(* ===================================================================== *)
(** * Further properties: the events of a strategy *)
(* ===================================================================== *)

Lemma create_calendar_event_run (G : google) (sv : service) (title description : string)
  (start_date : datetime) (s : desk) :
  match DatetimeArith.add start_date (DatetimeArith.timedelta_of_hours 1) with
  | Failed c msg =>
      create_calendar_event G (Some sv) title description start_date s = (Failed c msg, s)
  | Done end_date =>
      exists link log,
        create_calendar_event G (Some sv) title description start_date s
        = (Done link,
           mkDesk (token s) (credentials_json s) (shown s ++ log)%list
                  (S (inserts s)) (flows s) (refreshes s))
        /\ match events_insert G (inserts s) sv
                   (event_body title description start_date end_date) with
           | Done (PDict d) =>
               log = []
               /\ link = match Py.dict_get d "htmlLink" with
                         | Some x => x
                         | None => PNone
                         end
           | Done x =>
               link = PNone
               /\ log = [Error ("Error creating calendar event: '"
                                ++ PyRepr.type_name x
                                ++ "' object has no attribute 'get'")]
           | Failed _ msg =>
               link = PNone
               /\ log = [Error ("Error creating calendar event: " ++ msg)]
           end
  end.
Proof.
  unfold create_calendar_event. rewrite cbind_lift.
  destruct (DatetimeArith.add start_date (DatetimeArith.timedelta_of_hours 1))
    as [end_date|c msg] eqn:Hadd; [|reflexivity].
  unfold Calendar.try_except, Calendar.bind at 1, insert_event.
  destruct (events_insert G (inserts s) sv
              (event_body title description start_date end_date)) as [x|c msg].
  - destruct x; cbn;
      try (eexists; eexists; split; [reflexivity|split; reflexivity]).
    destruct (Py.dict_get d "htmlLink"); cbn;
      eexists; exists []; rewrite app_nil_r; (split; [reflexivity|split; reflexivity]).
  - cbn. eexists; eexists; split; [reflexivity|split; reflexivity].
Qed.

(** X19. The event of a day line.  For a day line whose fields are read,
    with a day number [N] whose date is in range, one insertion is sent: an
    event titled [topic - type], described by the type and the rationale,
    that starts [N - 1] days after the start date, to the microsecond, and ends
    one hour later.  The line is added to the list of links exactly when the
    answer holds a link that is not empty. *)
Theorem process_day_schedules (G : google) (sv : service) (start_date : datetime)
  (line : string) (s : desk) (n : Z) (topic content_type rationale : string)
  (delta : DatetimeArith.timedelta) (event_date end_date : datetime) :
  day_fields line = Ok (n, topic, content_type, rationale) ->
  DatetimeArith.timedelta_of_days (n - 1) = Done delta ->
  DatetimeArith.add start_date delta = Done event_date ->
  DatetimeArith.add event_date (DatetimeArith.timedelta_of_hours 1) = Done end_date ->
  let title := topic ++ " - " ++ content_type in
  let event := event_body title (event_description content_type rationale)
                 event_date end_date in
  Datetime.to_micros event_date
  = (Datetime.to_micros start_date + (n - 1) * 86400000000)%Z
  /\ Datetime.to_micros end_date = (Datetime.to_micros event_date + 3600000000)%Z
  /\ in_range event_date /\ in_range end_date
  /\ exists link log,
       process_day G sv start_date line s
       = (Done (if truthy link then Some (link_line n title link) else None),
          mkDesk (token s) (credentials_json s) (shown s ++ log)%list
                 (S (inserts s)) (flows s) (refreshes s))
       /\ match events_insert G (inserts s) sv event with
          | Done (PDict d) =>
              log = []
              /\ link = match Py.dict_get d "htmlLink" with
                        | Some x => x
                        | None => PNone
                        end
          | _ => link = PNone /\ List.length log = 1%nat
          end.
Proof.
  intros Hf Hd Ha He. cbn zeta. unfold event_description, link_line.
  pose proof (add_exact _ _ _ Ha) as [Hm1 Hr1].
  pose proof (add_exact _ _ _ He) as [Hm2 Hr2].
  assert (Hdelta : delta = ((n - 1) * 86400000000)%Z).
  { unfold DatetimeArith.timedelta_of_days in Hd.
    destruct ((n - 1 <? -2147483648) || (2147483647 <? n - 1))%Z; [discriminate|].
    destruct (999999999 <? Z.abs (n - 1))%Z; [discriminate|].
    now injection Hd as <-. }
  split; [now rewrite Hm1, Hdelta|]. split; [exact Hm2|].
  split; [exact Hr1|]. split; [exact Hr2|].
  unfold process_day. rewrite cbind_lift, Hf. cbn [of_result].
  rewrite cbind_lift, Hd. rewrite cbind_lift, Ha.
  pose proof (create_calendar_event_run G sv (topic ++ " - " ++ content_type)
                ("Content Type: " ++ content_type ++ "
Rationale: " ++ rationale) event_date s) as Hc.
  rewrite He in Hc. destruct Hc as (link & log & Hrun & Hans).
  rewrite (cbind_done _ _ _ _ _ Hrun).
  exists link, log. split.
  - destruct (truthy link); reflexivity.
  - destruct (events_insert G (inserts s) sv _) as [x|c msg].
    + destruct x; destruct Hans as [-> ->]; split; reflexivity.
    + destruct Hans as [-> ->]. split; reflexivity.
Qed.

Lemma process_day_schedules_witness :
  exists event_date end_date,
    DatetimeArith.isoformat event_date = "2024-02-29T09:30:00"
    /\ DatetimeArith.isoformat end_date = "2024-02-29T10:30:00"
    /\ Datetime.to_micros end_date
       = (Datetime.to_micros (clock_now sample_google) + 2 * 86400000000 + 3600000000)%Z
    /\ fst (process_day sample_google
              (mkService (mkCredentials true false true)) (clock_now sample_google)
              "Day 3: Home workouts - Video - follow up" sample_desk)
       = Done (Some "Day 3: [Home workouts - Video](https://calendar.example/event/0)").
Proof.
  pose (event_date := mkDatetime 2024 2 29 9 30 0 0).
  pose (end_date := mkDatetime 2024 2 29 10 30 0 0).
  exists event_date, end_date.
  destruct (process_day_schedules sample_google
              (mkService (mkCredentials true false true)) (clock_now sample_google)
              "Day 3: Home workouts - Video - follow up" sample_desk
              3 "Home workouts" "Video" "follow up" (2 * 86400000000)%Z
              event_date end_date eq_refl eq_refl eq_refl eq_refl)
    as (H1 & H2 & _ & _ & link & log & Hrun & Hans).
  split; [reflexivity|]. split; [reflexivity|]. split; [rewrite H2, H1; reflexivity|].
  rewrite Hrun. cbn [fst]. cbn in Hans. destruct Hans as [_ ->]. reflexivity.
Defined.

Lemma count_warnings_app (a b : list message) :
  count_warnings (a ++ b) = (count_warnings a + count_warnings b)%nat.
Proof.
  induction a as [|[] a IH]; simpl; try assumption; [reflexivity|now rewrite IH].
Qed.

Lemma count_errors_app (a b : list message) :
  count_errors (a ++ b) = (count_errors a + count_errors b)%nat.
Proof.
  induction a as [|[] a IH]; simpl; try assumption; [reflexivity|now rewrite IH].
Qed.

Lemma reported_app (a b : list message) :
  reported (a ++ b) = (reported a ++ reported b)%list.
Proof.
  induction a as [|[] a IH]; simpl; try assumption; [reflexivity|now rewrite IH].
Qed.

Lemma reported_markdown (texts : list string) : reported (map Markdown texts) = [].
Proof. induction texts; simpl; auto. Qed.

(** One day line: either it fails and nothing has changed, or one insertion
    was sent; an insertion that gives no link may have shown one error. *)
Lemma process_day_step (G : google) (sv : service) (start_date : datetime)
  (line : string) (s : desk) :
  match process_day G sv start_date line s with
  | (Failed _ _, s') => s' = s
  | (Done o, s') =>
      exists log,
        s' = mkDesk (token s) (credentials_json s) (shown s ++ log)%list
                    (S (inserts s)) (flows s) (refreshes s)
        /\ (log = [] \/ (o = None /\ exists msg, log = [Error msg]))
  end.
Proof.
  unfold process_day. rewrite cbind_lift.
  destruct (day_fields line) as [[[[n topic] content_type] rationale]|e];
    [|reflexivity].
  cbn [of_result]. rewrite cbind_lift.
  destruct (DatetimeArith.timedelta_of_days (n - 1)) as [delta|c msg]; [|reflexivity].
  rewrite cbind_lift.
  destruct (DatetimeArith.add start_date delta) as [event_date|c msg]; [|reflexivity].
  pose proof (create_calendar_event_run G sv (topic ++ " - " ++ content_type)
                ("Content Type: " ++ content_type ++ "
Rationale: " ++ rationale) event_date s) as Hc.
  destruct (DatetimeArith.add event_date (DatetimeArith.timedelta_of_hours 1))
    as [end_date|c msg].
  - destruct Hc as (link & log & Hrun & Hans).
    rewrite (cbind_done _ _ _ _ _ Hrun).
    destruct (events_insert G (inserts s) sv _) as [x|c msg].
    + destruct x; destruct Hans as [-> ->];
        try (cbn; eexists; split; [reflexivity|right; split; [reflexivity|eexists; reflexivity]]).
      destruct (truthy _); cbn; exists []; split; try reflexivity; now left.
    + destruct Hans as [-> ->]. cbn. eexists. split; [reflexivity|].
      right. split; [reflexivity|eexists; reflexivity].
  - rewrite (cbind_failed _ _ _ _ _ _ Hc). reflexivity.
Qed.

(** The loop over the lines: it ends, every day line was answered by one
    insertion or by one warning, and the events counted are among the
    insertions that showed no error. *)
Lemma events_loop_run (G : google) (sv : service) (start_date : datetime)
  (lines : list string) :
  forall links n s,
  exists links' n' s',
    events_loop G sv start_date lines links n s = (Done (links', n'), s')
    /\ token s' = token s /\ credentials_json s' = credentials_json s
    /\ flows s' = flows s /\ refreshes s' = refreshes s
    /\ reported (shown s') = reported (shown s)
    /\ (inserts s' + count_warnings (shown s')
        = inserts s + count_warnings (shown s)
          + List.length (filter is_day_line lines))%nat
    /\ (inserts s <= inserts s')%nat
    /\ (n <= n')%nat
    /\ (n' + count_errors (shown s') + inserts s
        <= n + count_errors (shown s) + inserts s')%nat
    /\ (List.length links' + n = List.length links + n')%nat
    /\ (count_errors (shown s) <= count_errors (shown s'))%nat.
Proof.
  induction lines as [|line rest IH]; intros links n s.
  - exists links, n, s. cbn. repeat split; lia.
  - cbn [events_loop filter]. unfold is_day_line at 1.
    destruct (PyStr.startswith line "Day"); [|apply IH].
    pose proof (process_day_step G sv start_date line s) as Hstep.
    destruct (process_day G sv start_date line s) as [[o|c msg] s1].
    + destruct Hstep as (log & -> & Hlog).
      destruct o as [link|].
      * destruct Hlog as [->|[Habs _]]; [|discriminate Habs].
        match goal with |- context [events_loop G sv start_date rest ?l ?k ?s0] =>
          destruct (IH l k s0)
            as (links' & n' & s' & -> & Ht & Hc & Hf & Hr & Hrep & Hw & Hi & Hn & He & Hl & Hm)
        end.
        exists links', n', s'. cbn [token credentials_json flows refreshes shown inserts]
          in Ht, Hc, Hf, Hr, Hrep, Hw, Hi, He, Hm.
        rewrite app_nil_r in Hrep, Hw, He, Hm. rewrite length_app in Hl.
        cbn [List.length] in Hl |- *.
        repeat split; try assumption; lia.
      * match goal with |- context [events_loop G sv start_date rest ?l ?k ?s0] =>
          destruct (IH l k s0)
            as (links' & n' & s' & -> & Ht & Hc & Hf & Hr & Hrep & Hw & Hi & Hn & He & Hl & Hm)
        end.
        exists links', n', s'. cbn [token credentials_json flows refreshes shown inserts]
          in Ht, Hc, Hf, Hr, Hrep, Hw, Hi, He, Hm.
        rewrite reported_app in Hrep. rewrite count_warnings_app in Hw.
        rewrite count_errors_app in He, Hm.
        cbn [List.length].
        destruct Hlog as [->|[_ [msg ->]]]; cbn in Hrep, Hw, He, Hm;
          rewrite ?app_nil_r in Hrep; repeat split; try assumption; lia.
    + subst s1. unfold Calendar.bind at 1, show.
      match goal with |- context [events_loop G sv start_date rest ?l ?k ?s0] =>
        destruct (IH l k s0)
          as (links' & n' & s' & -> & Ht & Hc & Hf & Hr & Hrep & Hw & Hi & Hn & He & Hl & Hm)
      end.
      exists links', n', s'. cbn [token credentials_json flows refreshes shown inserts]
        in Ht, Hc, Hf, Hr, Hrep, Hw, Hi, He, Hm.
      rewrite reported_app in Hrep. rewrite count_warnings_app in Hw.
      rewrite count_errors_app in He, Hm. cbn in Hrep, Hw, He, Hm.
      rewrite app_nil_r in Hrep. cbn [List.length].
      repeat split; try assumption; lia.
Qed.

Lemma show_all_run (ms : list message) :
  forall s,
  show_all ms s
  = (Done tt,
     mkDesk (token s) (credentials_json s) (shown s ++ ms)%list (inserts s) (flows s)
            (refreshes s)).
Proof.
  induction ms as [|m rest IH]; intros s.
  - cbn. rewrite app_nil_r. now destruct s.
  - cbn [show_all]. unfold Calendar.bind at 1, show. rewrite IH.
    cbn [token credentials_json shown inserts flows refreshes].
    now rewrite <- app_assoc.
Qed.

(** With [credentials.json] in place and no token file, the service is
    asked for through one authorisation flow. *)
Lemma get_service_without_token (G : google) (s : desk) :
  token s = NoToken -> credentials_json s = true ->
  exists r s',
    get_google_calendar_service G s = (Done r, s')
    /\ flows s' = S (flows s) /\ refreshes s' = refreshes s
    /\ inserts s' = inserts s /\ credentials_json s' = true
    /\ exists log, shown s' = (shown s ++ log)%list
                   /\ reported log = [] /\ count_warnings log = 0%nat.
Proof.
  intros Ht Hc.
  unfold get_google_calendar_service, Calendar.try_except, Calendar.bind at 1,
    load_token.
  rewrite Ht. unfold authorise. rewrite Hc.
  unfold Calendar.bind at 1, remove_token.
  unfold Calendar.bind at 1, run_local_server.
  cbn [flows token credentials_json shown inserts refreshes].
  destruct (run_flow G (flows s)) as [creds|cl msg].
  - unfold Calendar.bind at 1, dump_token.
    destruct (save_token G creds) as [[]|cl msg].
    + rewrite connect_run.
      destruct (build G creds) as [[]|cl msg];
        [destruct (calendar_list G (mkService creds)) as [[]|cl msg]|];
        cbn; eexists; eexists; (split; [reflexivity|]); cbn;
        repeat split; try assumption;
        first [ exists []; rewrite app_nil_r; repeat split; reflexivity
              | eexists; repeat split; reflexivity ].
    + cbn. eexists; eexists; (split; [reflexivity|]); cbn.
      repeat split; try assumption. eexists; repeat split; reflexivity.
  - cbn. eexists; eexists; (split; [reflexivity|]); cbn.
    repeat split; try assumption. eexists; repeat split; reflexivity.
Qed.

(** X20. The block under the button [Create Calendar Events] (lines
    442-492), whenever it is run, never raises and leaves
    [credentials.json] alone.  Without [credentials.json] it shows one error
    and does nothing else.  With it, it runs the authorisation flow once and
    refreshes nothing: the token file is removed first, so a stored token is
    never used.  Either no event is attempted, or every day line of the
    strategy is answered by exactly one insertion or one warning.  A success
    is reported at most once, with a count that is positive and not above
    the number of insertions made.  (When [main] runs the block is not part
    of the statement.) *)
Theorem create_calendar_events_outcomes (G : google) (strategy : pyval) (s : desk) :
  exists s',
    create_calendar_events G strategy s = (Done tt, s')
    /\ credentials_json s' = credentials_json s
    /\ (credentials_json s = false ->
        s' = mkDesk (token s) false
               (shown s ++ [Error "credentials.json file not found. Please make sure it's in the same directory as app.py"])%list
               (inserts s) (flows s) (refreshes s))
    /\ (credentials_json s = true ->
        flows s' = S (flows s) /\ refreshes s' = refreshes s)
    /\ ((inserts s' = inserts s
         /\ count_warnings (shown s') = count_warnings (shown s))
        \/ (inserts s' + count_warnings (shown s')
            = inserts s + count_warnings (shown s)
              + List.length (filter is_day_line (strategy_lines strategy)))%nat)
    /\ (reported (shown s') = reported (shown s)
        \/ exists n, reported (shown s') = (reported (shown s) ++ [n])%list
                     /\ (0 < n)%nat /\ (n + inserts s <= inserts s')%nat).
Proof.
  unfold create_calendar_events, Calendar.try_except.
  destruct (credentials_json s) eqn:Hcj.
  2:{ eexists. split; [reflexivity|].
      cbn [token credentials_json shown inserts flows refreshes].
      rewrite reported_app, count_warnings_app, Hcj. cbn [reported count_warnings].
      rewrite app_nil_r, Nat.add_0_r.
      split; [reflexivity|]. split; [reflexivity|]. split; [discriminate|].
      split; [left; split; reflexivity|now left]. }
  unfold Calendar.bind at 1, remove_token.
  match goal with |- context [Calendar.bind (get_google_calendar_service G) _ ?s0] =>
    destruct (get_service_without_token G s0 eq_refl Hcj)
      as (r & s1 & Hget & Hf1 & Hr1 & Hi1 & Hc1 & log1 & Hs1 & Hrep1 & Hw1);
    rewrite (cbind_done _ _ _ _ _ Hget)
  end.
  cbn [flows refreshes inserts shown] in Hf1, Hr1, Hi1, Hs1.
  assert (Hrep_s1 : reported (shown s1) = reported (shown s))
    by (now rewrite Hs1, reported_app, Hrep1, app_nil_r).
  assert (Hw_s1 : count_warnings (shown s1) = count_warnings (shown s))
    by (now rewrite Hs1, count_warnings_app, Hw1, Nat.add_0_r).
  assert (Hstop : forall s',
            credentials_json s' = true -> flows s' = flows s1 ->
            refreshes s' = refreshes s1 -> inserts s' = inserts s1 ->
            (exists msg, shown s' = (shown s1 ++ [Error msg])%list) ->
            credentials_json s' = true
            /\ (true = false ->
                s' = mkDesk (token s) false
                       (shown s ++ [Error "credentials.json file not found. Please make sure it's in the same directory as app.py"])%list
                       (inserts s) (flows s) (refreshes s))
            /\ (true = true -> flows s' = S (flows s) /\ refreshes s' = refreshes s)
            /\ ((inserts s' = inserts s
                 /\ count_warnings (shown s') = count_warnings (shown s))
                \/ (inserts s' + count_warnings (shown s')
                    = inserts s + count_warnings (shown s)
                      + List.length (filter is_day_line (strategy_lines strategy)))%nat)
            /\ (reported (shown s') = reported (shown s)
                \/ exists n, reported (shown s') = (reported (shown s) ++ [n])%list
                             /\ (0 < n)%nat /\ (n + inserts s <= inserts s')%nat)).
  { intros s' Hc' Hf' Hr' Hi' [msg Hs'].
    split; [exact Hc'|]. split; [discriminate|].
    split; [intros _; split; congruence|].
    split; left.
    - split; [congruence|].
      rewrite Hs', count_warnings_app. cbn. lia.
    - rewrite Hs', reported_app. cbn. now rewrite app_nil_r. }
  destruct r as [sv|].
  2:{ eexists. split; [reflexivity|].
      apply Hstop; try reflexivity; try assumption. eexists; reflexivity. }
  rewrite cbind_lift.
  destruct strategy as [| | | |text| |];
    try (eexists; (split; [reflexivity|]);
         apply Hstop; try reflexivity; try assumption; eexists; reflexivity).
  cbn [Py.split of_result strategy_lines].
  destruct (events_loop_run G sv (clock_now G) (PyStr.split PyStr.newline text) [] 0 s1)
    as (links & n & s2 & Hloop & Ht2 & Hc2 & Hf2 & Hr2 & Hrep2 & Hw2 & Hi2 & _ & He2 & Hl2 & Hm2).
  rewrite (cbind_done _ _ _ _ _ Hloop).
  destruct (0 <? n)%nat eqn:Hn.
  - apply Nat.ltb_lt in Hn.
    unfold Calendar.bind at 1, show. unfold Calendar.bind at 1, show.
    rewrite show_all_run. eexists. split; [reflexivity|].
    cbn [token credentials_json shown inserts flows refreshes].
    rewrite !reported_app, !count_warnings_app, reported_markdown, Hrep2.
    assert (Hwm : count_warnings (map Markdown links) = 0%nat).
    { clear. induction links; simpl; auto. }
    rewrite Hwm. cbn [reported count_warnings app].
    split; [congruence|]. split; [discriminate|].
    split; [intros _; split; congruence|].
    split; [right; rewrite !Nat.add_0_r, Hw2, Hw_s1, Hi1; reflexivity|].
    right. exists n. rewrite !app_nil_r, Hrep_s1.
    split; [reflexivity|]. split; [exact Hn|]. lia.
  - eexists. split; [reflexivity|].
    cbn [token credentials_json shown inserts flows refreshes].
    rewrite !reported_app, !count_warnings_app, Hrep2. cbn [reported count_warnings].
    rewrite app_nil_r.
    split; [congruence|]. split; [discriminate|].
    split; [intros _; split; congruence|].
    split; [right; lia|]. left. congruence.
Qed.

(** A strategy with two lines that cannot be read: each gives a warning, the
    two others give an event each. *)
Example calendar_events_of_a_strategy :
  create_calendar_events sample_google
    (PStr "Day 1: A - B - C
Day two: D - E
Day 3 no colon
Day 4: F") sample_desk
  = (Done tt,
     mkDesk (Token (Done (Some (mkCredentials true false true)))) true
       [Warning "Error processing day Day two: D - E: invalid literal for int() with base 10: 'two'";
        Warning "Error processing day Day 3 no colon: list index out of range";
        Success 2; Markdown "### Created Events:";
        Markdown "Day 1: [A - B](https://calendar.example/event/0)";
        Markdown "Day 4: [F - Content](https://calendar.example/event/1)"]
       2 1 0).
Proof. vm_compute. reflexivity. Qed.
